(** * The inject-context WebSocket service of bilibili-subtitle

  A shallow embedding of [src/inject/websocketService.ts]: the class
  [InjectWebSocketService] (connection life cycle, reconnection timer,
  request pipeline) and the properties its specification states.

  Texts are kept as [string]s holding the UTF-8 bytes of the source
  literals.  The only text operations of the service ([startsWith],
  [replace] and one regular expression) look for ASCII patterns, and
  UTF-8 never uses an ASCII byte inside the encoding of another
  character, so they behave on bytes as they do on UTF-16 units. *)

From Stdlib Require Import ZArith Ascii String List Lia.
From stdpp Require Import base list strings pretty.

#[local] Set Warnings "-register-all".
#[local] Open Scope Z_scope.

(** ** Text primitives *)

Module Text.

(** [String.prototype.startsWith(p)] *)
Definition startsWith (p s : string) : bool := String.prefix p s.

(** the text left after skipping [n] units *)
Fixpoint skip (n : nat) (s : string) : string :=
  match n, s with
  | O, _ => s
  | S n', String _ r => skip n' r
  | S _, EmptyString => EmptyString
  end.

(** [String.prototype.replace(pat, rep)] for a text pattern and a
    replacement without [$] sequences: the leftmost occurrence only. *)
Fixpoint replace (pat rep s : string) : string :=
  if String.prefix pat s then rep +:+ skip (String.length pat) s
  else match s with
       | EmptyString => EmptyString
       | String c r => String c (replace pat rep r)
       end.

(** the class [\w] of a regular expression without flags: [A-Za-z0-9_] *)
Definition is_word (c : ascii) : bool :=
  let n := nat_of_ascii c in
  ((48 <=? n) && (n <=? 57) || (65 <=? n) && (n <=? 90)
   || (97 <=? n) && (n <=? 122) || (n =? 95))%nat.

(** the longest run of [\w] at the head of a text: what [\w+] consumes *)
Fixpoint word_run (s : string) : string :=
  match s with
  | String c r => if is_word c then String c (word_run r) else EmptyString
  | EmptyString => EmptyString
  end.

(** [/\/video\/(BV\w+)/] tried at the head of [s]; the result is group 1 *)
Definition bv_here (s : string) : option string :=
  if String.prefix "/video/BV" s then
    match word_run (skip 9 s) with
    | EmptyString => None
    | w => Some ("BV" +:+ w)
    end
  else None.

(** [s.match(/\/video\/(BV\w+)/)]: the leftmost position where the
    expression matches; [None] is the [null] of JavaScript, [Some g] is
    [bvMatch[1]]. *)
Fixpoint bv_match (s : string) : option string :=
  match bv_here s with
  | Some g => Some g
  | None => match s with
            | EmptyString => None
            | String _ r => bv_match r
            end
  end.

(** every unit of [w] is in [\w] *)
Fixpoint all_word (w : string) : bool :=
  match w with
  | EmptyString => true
  | String c r => is_word c && all_word r
  end.

(** The language of [/\/video\/(BV\w+)/] written out: the text holds
    [/video/BV] followed by at least one [\w]. *)
Definition has_bv_segment (s : string) : Prop :=
  exists pre w post,
    s = pre +:+ "/video/BV" +:+ w +:+ post /\ w <> EmptyString /\ all_word w = true.

End Text.

(** ** JavaScript values

  The service handles data decoded by [JSON.parse] and [response.json()]
  as values of type [any]; every property read is dynamic.  Numbers are
  kept opaque (type [number]): the code compares them with [0], prints
  them into URLs and otherwise passes them through. *)

Inductive jsval {number : Type} : Type :=
| JUndefined
| JNull
| JBool (b : bool)
| JNum (n : number)
| JStr (s : string)
| JArr (items : list jsval)
| JObj (fields : list (string * jsval)).
Arguments jsval : clear implicits.

(** A thrown value.  Everything thrown inside the service is an error
  object: [new Error(m)] of the code, a [TypeError] of the engine, or the
  rejection reason of [fetch] and [response.json()]. *)
Record exn : Type := mkExn { err_name : string; err_message : string }.

(** The ways an expression of this code can fail in the engine; each has
    its own wording of the [TypeError]. *)
Inductive fault : Type :=
| ReadOfUndefined (prop : string)  (* [undefined.p] *)
| ReadOfNull (prop : string)       (* [null.p] *)
| NotAFunction (callee : string)   (* [e(...)] where [e] is no function;
                                      [callee] is the text of [e] *)
| NotPrimitive.                    (* [String(o)] for an object [o] that has
                                      no callable [toString] or [valueOf] *)

(** How a method ends: it returns, it throws, or (an [async] method) it
    stays suspended on a promise that never settles. *)
Inductive outcome (A : Type) : Type :=
| Ok (a : A)
| Throw (e : exn)
| Pending.
Arguments Ok {A} a.
Arguments Throw {A} e.
Arguments Pending {A}.

(** One call of [fetch]: the URL and whether [credentials: 'include'] was
  passed. *)
Record fetch_call : Type := Fetch { fetch_url : string; with_credentials : bool }.

(** What [await fetch(..)] followed by [await response.json()] comes to:
  the decoded body, a rejection, or promises that never settle. *)
Inductive reply {number : Type} : Type :=
| Body (v : jsval number)
| Rejected (e : exn)
| Unsettled.
Arguments reply : clear implicits.

(** The environment the script runs in.  [net] answers by call: within one
  request the three calls differ (two API paths with credentials, the
  caption document without), so a function of the call loses nothing. *)
Class Host (number : Type) : Type := {
  num_eq0 : number -> bool;             (* [n === 0], true of both zeros *)
  num_to_string : number -> string;     (* [String(n)] *)
  fault_text : fault -> string;         (* message of the engine's TypeError *)
  JSON_parse : string -> exn + jsval number;
  net : fetch_call -> reply number
}.

(** A run of the [async] method [handleSubtitleRequest] that waits for
  the network.  It awaits [getVideoInfo], [getSubtitleList] and
  [downloadSubtitle] in turn, and each of them awaits its [fetch] and the
  [json()] of the response; between the two the run touches nothing, so
  the pair is one wait.  A suspended run keeps the locals that are read
  after the wait: the request, and [videoInfo] once it is there. *)
Inductive task {number : Type} : Type :=
| AwaitVideoInfo (request : jsval number) (call : fetch_call)
| AwaitSubtitleList (request videoInfo : jsval number) (call : fetch_call)
| AwaitSubtitle (request videoInfo : jsval number) (call : fetch_call).
Arguments task : clear implicits.

(** [WebSocket.readyState] *)
Inductive readyState : Type := CONNECTING | OPEN | CLOSING | CLOSED.

Section Model.

Context {number : Type} `{!Host number}.

#[local] Abbreviation jsval := (jsval number).
#[local] Abbreviation task := (task number).

(** [new Error(message)] *)
Definition Error (m : string) : exn := mkExn "Error" m.

(** the engine's [TypeError] for fault [f] *)
Definition TypeError (f : fault) : exn := mkExn "TypeError" (fault_text f).

(** [String(e)] for an error object: [Error.prototype.toString] *)
Definition error_toString (e : exn) : string :=
  if String.eqb (err_name e) "" then err_message e
  else if String.eqb (err_message e) "" then err_name e
  else err_name e +:+ ": " +:+ err_message e.

(** [k in o] for an object given by its members *)
Fixpoint has_key (k : string) (fs : list (string * jsval)) : bool :=
  match fs with
  | [] => false
  | (k', _) :: r => String.eqb k' k || has_key k r
  end.

(** [String(v)], which is also what a template literal does to [v].  An
    array is joined with commas, [null] and [undefined] entries giving
    the empty text.  An object decoded from JSON inherits [toString] and
    gives [[object Object]], unless it has a member [toString] of its
    own: that one is no function, [valueOf] gives no primitive either,
    and the conversion throws. *)
Fixpoint js_String (v : jsval) : outcome string :=
  match v with
  | JUndefined => Ok "undefined"
  | JNull => Ok "null"
  | JBool true => Ok "true"
  | JBool false => Ok "false"
  | JNum n => Ok (num_to_string n)
  | JStr s => Ok s
  | JArr items =>
      (fix join (l : list jsval) : outcome string :=
         match l with
         | [] => Ok EmptyString
         | x :: r =>
             match (match x with
                    | JUndefined | JNull => Ok EmptyString
                    | _ => js_String x
                    end) with
             | Ok e =>
                 match r with
                 | [] => Ok e
                 | _ => match join r with
                        | Ok t => Ok (e +:+ "," +:+ t)
                        | Throw err => Throw err
                        | Pending => Pending
                        end
                 end
             | Throw err => Throw err
             | Pending => Pending
             end
         end) items
  | JObj fs =>
      if has_key "toString" fs then Throw (TypeError NotPrimitive)
      else Ok "[object Object]"
  end.

(** the text of [v] where [String(v)] gives one *)
Definition text_of (v : jsval) : string :=
  match js_String v with
  | Ok t => t
  | _ => EmptyString
  end.

(** ToBoolean.  A number out of JSON is never NaN, so it is falsy
    exactly when it is a zero. *)
Definition truthy (v : jsval) : bool :=
  match v with
  | JUndefined | JNull => false
  | JBool b => b
  | JNum n => negb (num_eq0 n)
  | JStr s => negb (String.eqb s "")
  | JArr _ | JObj _ => true
  end.

Definition nullish (v : jsval) : bool :=
  match v with
  | JUndefined | JNull => true
  | _ => false
  end.

(** [v === 'text'] *)
Definition is_text (v : jsval) (t : string) : bool :=
  match v with
  | JStr s => String.eqb s t
  | _ => false
  end.

(** [v !== 0] *)
Definition differs_from_0 (v : jsval) : bool :=
  match v with
  | JNum n => negb (num_eq0 n)
  | _ => true
  end.

(** own property [k] of an object, given as its members in order (an
    object has each key once); [undefined] when missing *)
Fixpoint field (k : string) (fs : list (string * jsval)) : jsval :=
  match fs with
  | [] => JUndefined
  | (k', v) :: r => if String.eqb k' k then v else field k r
  end.

(** [a || b] *)
Definition js_or (a b : jsval) : jsval := if truthy a then a else b.

(** *** Messages of the protocol *)

(** The [data] member of a [SubtitleResponse]. *)
Record SubtitleData : Type := mkData {
  title : jsval;
  author : jsval;
  url : jsval;
  ctime : jsval;
  subtitles : jsval
}.

(** [interface SubtitleResponse]: the optional members [data?] and
    [error?] are options; an object literal that does not mention one
    leaves it [None]. *)
Record SubtitleResponse : Type := mkResponse {
  type : string;
  requestId : jsval;
  data : option SubtitleData;
  error : option string
}.

(** *** The service and what it acts on *)

(** A line of [console.log].  The text of every line is kept; the second
    argument is kept where it is a response that could not be sent. *)
Inductive entry : Type :=
| Line (text : string)
| LineOf (text : string) (response : SubtitleResponse).

(** The three fields of the class ([serverUrl] and [reconnectInterval]
    are constants), followed by the host objects they refer to:
    the WebSocket objects constructed so far with their [readyState], the
    timeout handles that are scheduled and not yet fired or cleared, the
    next handle of [setTimeout], the console, the calls of [fetch], the
    frames passed to [ws.send] (each stands for its [JSON.stringify])
    and the runs of [handleSubtitleRequest] that wait for the network. *)
Record service : Type := mkService {
  ws : option nat;
  reconnectTimer : option Z;
  isConnecting : bool;
  sockets : list readyState;
  timers : list Z;
  next_handle : Z;
  console : list entry;
  fetched : list fetch_call;
  wire : list SubtitleResponse;
  suspended : list task
}.

Definition serverUrl : string := "ws://localhost:8080".
Definition reconnectInterval : Z := 10000.

Definition set_ws (x : option nat) (s : service) : service :=
  mkService x (reconnectTimer s) (isConnecting s) (sockets s) (timers s)
            (next_handle s) (console s) (fetched s) (wire s) (suspended s).
Definition set_reconnectTimer (x : option Z) (s : service) : service :=
  mkService (ws s) x (isConnecting s) (sockets s) (timers s)
            (next_handle s) (console s) (fetched s) (wire s) (suspended s).
Definition set_isConnecting (x : bool) (s : service) : service :=
  mkService (ws s) (reconnectTimer s) x (sockets s) (timers s)
            (next_handle s) (console s) (fetched s) (wire s) (suspended s).
Definition set_sockets (x : list readyState) (s : service) : service :=
  mkService (ws s) (reconnectTimer s) (isConnecting s) x (timers s)
            (next_handle s) (console s) (fetched s) (wire s) (suspended s).
Definition set_timers (x : list Z) (s : service) : service :=
  mkService (ws s) (reconnectTimer s) (isConnecting s) (sockets s) x
            (next_handle s) (console s) (fetched s) (wire s) (suspended s).
Definition set_next_handle (x : Z) (s : service) : service :=
  mkService (ws s) (reconnectTimer s) (isConnecting s) (sockets s) (timers s)
            x (console s) (fetched s) (wire s) (suspended s).
Definition set_console (x : list entry) (s : service) : service :=
  mkService (ws s) (reconnectTimer s) (isConnecting s) (sockets s) (timers s)
            (next_handle s) x (fetched s) (wire s) (suspended s).
Definition set_fetched (x : list fetch_call) (s : service) : service :=
  mkService (ws s) (reconnectTimer s) (isConnecting s) (sockets s) (timers s)
            (next_handle s) (console s) x (wire s) (suspended s).
Definition set_wire (x : list SubtitleResponse) (s : service) : service :=
  mkService (ws s) (reconnectTimer s) (isConnecting s) (sockets s) (timers s)
            (next_handle s) (console s) (fetched s) x (suspended s).
Definition set_suspended (x : list task) (s : service) : service :=
  mkService (ws s) (reconnectTimer s) (isConnecting s) (sockets s) (timers s)
            (next_handle s) (console s) (fetched s) (wire s) x.

(** *** Computations of the service

    A method runs on the service and either returns, throws, or (an
    [async] method) stays suspended on a promise that never settles.
    Inside one computation [await] is sequencing: the stages run one
    after the other with nothing in between.  What the host does between
    the stages of a request is the matter of [step] below. *)

Definition M (A : Type) : Type := service -> outcome A * service.

Definition lift {A : Type} (o : outcome A) : M A := fun s => (o, s).

Definition throw {A : Type} (e : exn) : M A := lift (Throw e).

Definition bind {A B : Type} (m : M A) (k : A -> M B) : M B :=
  fun s =>
    match m s with
    | (Ok a, s') => k a s'
    | (Throw e, s') => (Throw e, s')
    | (Pending, s') => (Pending, s')
    end.

(** [try { body } catch (error) { handler }] *)
Definition try_catch {A : Type} (body : M A) (handler : exn -> M A) : M A :=
  fun s =>
    match body s with
    | (Throw e, s') => handler e s'
    | r => r
    end.

(** Calling an [async] method without [await]: the method runs up to
    its first wait ([m], which says what it then waits for, if
    anything), the caller gets a promise and goes on; a rejection does
    not reach the caller's [catch]. *)
Definition spawn (m : M (option task)) : M unit :=
  fun s =>
    match m s with
    | (Ok (Some t), s') => (Ok tt, set_suspended (suspended s' ++ [t]) s')
    | (_, s') => (Ok tt, s')
    end.

End Model.

Declare Scope js_scope.
Delimit Scope js_scope with js.
Notation "'let*' x ':=' m 'in' k" := (bind m (fun x => k))
  (at level 10, x name, m at level 100, k at level 200) : js_scope.
Notation "m ;; k" := (bind m (fun _ => k))
  (at level 100, k at level 200, right associativity) : js_scope.

(** ** The class [InjectWebSocketService] *)

Section Service.

Context {number : Type} `{!Host number}.

#[local] Abbreviation jsval := (jsval number).
#[local] Abbreviation task := (task number).
#[local] Abbreviation service := (@service number).
#[local] Abbreviation M := (@M number).
#[local] Abbreviation entry := (@entry number).
#[local] Abbreviation SubtitleResponse := (@SubtitleResponse number).
#[local] Open Scope js_scope.

(** *** [log] *)

Definition log_entry (e : entry) (s : service) : service :=
  set_console (console s ++ [e]) s.

(** [this.log(message, data?)]: one line on the console (the time stamp
    that prefixes it is left out). *)
Definition log (message : string) : M unit :=
  fun s => (Ok tt, log_entry (Line message) s).

(** *** Connection manager *)

(** [this.ws && this.ws.readyState === WebSocket.OPEN] *)
Definition ws_open (s : service) : bool :=
  match ws s with
  | Some i => match sockets s !! i with
              | Some OPEN => true
              | _ => false
              end
  | None => false
  end.

(** [if (this.reconnectTimer)]: a handle is a number, so [null] and [0]
    are the falsy ones. *)
Definition timer_set (s : service) : bool :=
  match reconnectTimer s with
  | Some h => negb (h =? 0)
  | None => false
  end.

(** [setTimeout(callback, delay)]: the host hands out the next handle and
    keeps it scheduled.  The one callback ever scheduled is that of
    [scheduleReconnect], so the handle stands for it. *)
Definition setTimeout (s : service) : Z * service :=
  (next_handle s,
   set_next_handle (next_handle s + 1) (set_timers (timers s ++ [next_handle s]) s)).

(** [clearTimeout(h)] *)
Definition clearTimeout (h : Z) (s : service) : service :=
  set_timers (filter (fun h' => h' ≠ h) (timers s)) s.

Definition scheduleReconnect (s : service) : service :=
  if timer_set s then s
  else
    let s := log_entry (Line (pretty (reconnectInterval / 1000) +:+ "秒后尝试重连...")) s in
    let '(h, s) := setTimeout s in
    set_reconnectTimer (Some h) s.

(** What [new WebSocket(url)] comes to. *)
Inductive construction : Type :=
| Constructed
| Refused (e : exn).

Definition connect (c : construction) (s : service) : service :=
  if isConnecting s || ws_open s then s
  else
    let s := set_isConnecting true s in
    let s := log_entry (Line "尝试连接WebSocket服务器") s in
    match c with
    | Constructed =>
        (* [this.ws = new WebSocket(..)], then the four handlers *)
        set_ws (Some (length (sockets s))) (set_sockets (sockets s ++ [CONNECTING]) s)
    | Refused _ =>
        let s := set_isConnecting false s in
        let s := log_entry (Line "WebSocket连接异常") s in
        scheduleReconnect s
    end.

Definition start (c : construction) (s : service) : service :=
  connect c (log_entry (Line "启动WebSocket服务") s).

(** the service as the field initialisers leave it, on a host whose
    next timeout handle is [h0] (a handle is an integer greater than
    zero) *)
Definition fresh (h0 : positive) : service :=
  mkService None None false [] [] (Z.pos h0) [] [] [] [].

(** [new InjectWebSocketService()] *)
Definition constructor (h0 : positive) (c : construction) : service :=
  start c (log_entry (Line "WebSocket服务初始化 (inject context)") (fresh h0)).

Definition onopen (s : service) : service :=
  let s := set_isConnecting false s in
  let s := log_entry (Line "WebSocket连接成功") s in
  if timer_set s then
    match reconnectTimer s with
    | Some h => set_reconnectTimer None (clearTimeout h s)
    | None => s
    end
  else s.

Definition onclose (s : service) : service :=
  let s := set_isConnecting false s in
  let s := log_entry (Line "WebSocket连接关闭") s in
  scheduleReconnect s.

Definition onerror (s : service) : service :=
  let s := set_isConnecting false s in
  let s := log_entry (Line "WebSocket连接错误") s in
  scheduleReconnect s.

(** the callback given to [setTimeout] by [scheduleReconnect] *)
Definition reconnect_callback (c : construction) (s : service) : service :=
  connect c (set_reconnectTimer None s).

(** *** Request pipeline *)

Definition sendResponse (response : SubtitleResponse) : M unit :=
  fun s =>
    if ws_open s then (Ok tt, set_wire (wire s ++ [response]) s)
    else (Ok tt, log_entry (LineOf "WebSocket未连接，无法发送响应" response) s).

(** [v.k] for the properties the code reads off decoded data.  None of
    them exists on a built-in prototype, so only an object literal has
    one; reading off [undefined] or [null] throws. *)
Definition get (v : jsval) (k : string) : outcome jsval :=
  match v with
  | JUndefined => Throw (TypeError (ReadOfUndefined k))
  | JNull => Throw (TypeError (ReadOfNull k))
  | JObj fs => Ok (field k fs)
  | _ => Ok JUndefined
  end.

(** [v?.k] *)
Definition get_opt (v : jsval) (k : string) : outcome jsval :=
  if nullish v then Ok JUndefined else get v k.

(** [v[0]] (for a text: its first unit, which is exact for ASCII) *)
Definition first_of (v : jsval) : outcome jsval :=
  match v with
  | JUndefined => Throw (TypeError (ReadOfUndefined "0"))
  | JNull => Throw (TypeError (ReadOfNull "0"))
  | JArr items => Ok (match items with
                      | x :: _ => x
                      | [] => JUndefined
                      end)
  | JStr t => Ok (match t with
                  | String c _ => JStr (String c EmptyString)
                  | EmptyString => JUndefined
                  end)
  | JObj fs => Ok (field "0" fs)
  | _ => Ok JUndefined
  end.

(** [await fetch(..)] and [await response.json()] *)
Definition fetch_json (call : fetch_call) : M jsval :=
  fun s =>
    let s' := set_fetched (fetched s ++ [call]) s in
    match net call with
    | Body v => (Ok v, s')
    | Rejected e => (Throw e, s')
    | Unsettled => (Pending, s')
    end.

Definition extractBVID (url : jsval) : outcome string :=
  match url with
  | JStr u =>
      match Text.bv_match u with
      | None => Throw (Error "无法从URL中提取BV号，请确保URL格式正确")
      | Some g => Ok g
      end
  | JUndefined => Throw (TypeError (ReadOfUndefined "match"))
  | JNull => Throw (TypeError (ReadOfNull "match"))
  | _ => Throw (TypeError (NotAFunction "url.match"))
  end.

Definition getVideoInfo (bvid : string) : M jsval :=
  let* result :=
    fetch_json (Fetch ("https://api.bilibili.com/x/web-interface/view?bvid=" +:+ bvid) true) in
  let* code := lift (get result "code") in
  if differs_from_0 code then
    let* message := lift (get result "message") in
    let* text := lift (js_String message) in
    throw (Error ("获取视频信息失败: " +:+ text))
  else lift (get result "data").

(** [items.filter((item) => item.subtitle_url)] *)
Fixpoint with_subtitle_url (items : list jsval) : outcome (list jsval) :=
  match items with
  | [] => Ok []
  | item :: rest =>
      match get item "subtitle_url" with
      | Ok u =>
          match with_subtitle_url rest with
          | Ok kept => Ok (if truthy u then item :: kept else kept)
          | Throw e => Throw e
          | Pending => Pending
          end
      | Throw e => Throw e
      | Pending => Pending
      end
  end.

Definition getSubtitleList (aid cid : jsval) : M (list jsval) :=
  let* aid_text := lift (js_String aid) in
  let* cid_text := lift (js_String cid) in
  let* result :=
    fetch_json (Fetch ("https://api.bilibili.com/x/player/wbi/v2?aid=" +:+ aid_text
                       +:+ "&cid=" +:+ cid_text) true) in
  let* code := lift (get result "code") in
  if differs_from_0 code then
    let* message := lift (get result "message") in
    let* text := lift (js_String message) in
    throw (Error ("获取字幕列表失败: " +:+ text))
  else
    let* d := lift (get result "data") in
    let* subtitle := lift (get d "subtitle") in
    let* tracks := lift (get subtitle "subtitles") in
    match tracks with
    | JArr items => lift (with_subtitle_url items)
    | JUndefined => throw (TypeError (ReadOfUndefined "filter"))
    | JNull => throw (TypeError (ReadOfNull "filter"))
    | _ => throw (TypeError (NotAFunction "result.data.subtitle.subtitles.filter"))
    end.

(** the URL [downloadSubtitle] fetches for the text [u] *)
Definition secure_url (u : string) : string :=
  if Text.startsWith "http://" u then Text.replace "http://" "https://" u else u.

Definition downloadSubtitle (subtitleInfo : jsval) : M jsval :=
  let* url := lift (get subtitleInfo "subtitle_url") in
  match url with
  | JStr u => fetch_json (Fetch (secure_url u) false)
  | JUndefined => throw (TypeError (ReadOfUndefined "startsWith"))
  | JNull => throw (TypeError (ReadOfNull "startsWith"))
  | _ => throw (TypeError (NotAFunction "url.startsWith"))
  end.

(** the [try] block of [handleSubtitleRequest] *)
Definition handleSubtitleRequest_try (request : jsval) : M unit :=
  let* videoUrl := lift (get request "videoUrl") in
  let* bvid := lift (extractBVID videoUrl) in
  log "提取BV号成功" ;;
  let* videoInfo := getVideoInfo bvid in
  (* the data of the next line: [videoInfo.title], [videoInfo.aid] *)
  let* _ := lift (get videoInfo "title") in
  let* _ := lift (get videoInfo "aid") in
  log "获取视频信息成功" ;;
  let* pages := lift (get videoInfo "pages") in
  let* pageInfo := lift (first_of pages) in
  let* aid := lift (get videoInfo "aid") in
  let* cid := lift (get pageInfo "cid") in
  let* subtitleList := getSubtitleList aid cid in
  match subtitleList with
  | [] => throw (Error "该视频没有可用的字幕")
  | first :: _ =>
      log "获取字幕列表成功" ;;
      let* subtitleData := downloadSubtitle first in
      (* the data of the next line: [subtitleData.body?.length || 0] *)
      let* _ := lift (get subtitleData "body") in
      log "字幕下载成功" ;;
      let* rid := lift (get request "requestId") in
      let* title := lift (get videoInfo "title") in
      let* owner := lift (get videoInfo "owner") in
      let* name := lift (get_opt owner "name") in
      let* videoUrl := lift (get request "videoUrl") in
      let* ctime := lift (get videoInfo "ctime") in
      let* body := lift (get subtitleData "body") in
      sendResponse
        (mkResponse "SUBTITLE_RESULT" rid
           (Some (mkData title (js_or name (JStr "未知作者")) videoUrl ctime
                         (js_or body (JArr []))))
           None) ;;
      log "字幕数据发送成功"
  end.

(** the [catch (error)] block of [handleSubtitleRequest] *)
Definition handleSubtitleRequest_catch (request : jsval) (err : exn) : M unit :=
  let* _ := lift (get request "videoUrl") in
  log "处理字幕请求失败" ;;
  let* rid := lift (get request "requestId") in
  sendResponse (mkResponse "SUBTITLE_RESULT" rid None (Some (error_toString err))).

Definition handleSubtitleRequest (request : jsval) : M unit :=
  let* _ := lift (get request "videoUrl") in
  log "开始处理字幕请求" ;;
  try_catch (handleSubtitleRequest_try request) (handleSubtitleRequest_catch request).

(** *** The request between its waits

    [handleSubtitleRequest] above is the method run from its first line
    to its last with nothing in between.  On the page it runs in pieces:
    the call runs it up to the first [fetch]; each answer of the network
    runs it on to the next [fetch], or to its end.  (An [await] whose
    promise is already settled, as when a callee throws before its
    [fetch], resumes before the host dispatches anything else, so it
    ends no piece.)  The pieces below are the same lines of the method,
    cut at the three calls; each runs inside the [try], so what it
    throws goes to [handleSubtitleRequest_catch]. *)

(** [fetch(..)] is called: the request goes out *)
Definition issue (call : fetch_call) : M unit :=
  fun s => (Ok tt, set_fetched (fetched s ++ [call]) s).

(** the two awaits of a call, once the network has answered *)
Definition settled (r : reply number) : M jsval :=
  lift (match r with
        | Body v => Ok v
        | Rejected e => Throw e
        | Unsettled => Pending
        end).

(** the call a suspended run waits for *)
Definition awaited (t : task) : fetch_call :=
  match t with
  | AwaitVideoInfo _ call => call
  | AwaitSubtitleList _ _ call => call
  | AwaitSubtitle _ _ call => call
  end.

(** lines of the [try] block: what they throw goes to the [catch] block,
    after which the run is over *)
Definition guarded (request : jsval) (lines : M (option task)) : M (option task) :=
  try_catch lines
            (fun err => handleSubtitleRequest_catch request err ;; lift (Ok None)).

(** from the call of [handleSubtitleRequest] to the [fetch] of
    [getVideoInfo] *)
Definition handleSubtitleRequest_begin (request : jsval) : M (option task) :=
  let* _ := lift (get request "videoUrl") in
  log "开始处理字幕请求" ;;
  guarded request
    (let* videoUrl := lift (get request "videoUrl") in
     let* bvid := lift (extractBVID videoUrl) in
     log "提取BV号成功" ;;
     let call := Fetch ("https://api.bilibili.com/x/web-interface/view?bvid=" +:+ bvid)
                       true in
     issue call ;;
     lift (Ok (Some (AwaitVideoInfo request call)))).

(** from the answer to [getVideoInfo]'s call to the [fetch] of
    [getSubtitleList] *)
Definition after_getVideoInfo (request : jsval) (r : reply number) : M (option task) :=
  let* result := settled r in
  let* code := lift (get result "code") in
  let* videoInfo :=
    if differs_from_0 code then
      let* message := lift (get result "message") in
      let* text := lift (js_String message) in
      throw (Error ("获取视频信息失败: " +:+ text))
    else lift (get result "data") in
  let* _ := lift (get videoInfo "title") in
  let* _ := lift (get videoInfo "aid") in
  log "获取视频信息成功" ;;
  let* pages := lift (get videoInfo "pages") in
  let* pageInfo := lift (first_of pages) in
  let* aid := lift (get videoInfo "aid") in
  let* cid := lift (get pageInfo "cid") in
  let* aid_text := lift (js_String aid) in
  let* cid_text := lift (js_String cid) in
  let call := Fetch ("https://api.bilibili.com/x/player/wbi/v2?aid=" +:+ aid_text
                     +:+ "&cid=" +:+ cid_text) true in
  issue call ;;
  lift (Ok (Some (AwaitSubtitleList request videoInfo call))).

(** from the answer to [getSubtitleList]'s call to the [fetch] of
    [downloadSubtitle] *)
Definition after_getSubtitleList (request videoInfo : jsval) (r : reply number) :
  M (option task) :=
  let* result := settled r in
  let* code := lift (get result "code") in
  let* subtitleList :=
    if differs_from_0 code then
      let* message := lift (get result "message") in
      let* text := lift (js_String message) in
      throw (Error ("获取字幕列表失败: " +:+ text))
    else
      let* d := lift (get result "data") in
      let* subtitle := lift (get d "subtitle") in
      let* tracks := lift (get subtitle "subtitles") in
      match tracks with
      | JArr items => lift (with_subtitle_url items)
      | JUndefined => throw (TypeError (ReadOfUndefined "filter"))
      | JNull => throw (TypeError (ReadOfNull "filter"))
      | _ => throw (TypeError (NotAFunction "result.data.subtitle.subtitles.filter"))
      end in
  match subtitleList with
  | [] => throw (Error "该视频没有可用的字幕")
  | first :: _ =>
      log "获取字幕列表成功" ;;
      let* url := lift (get first "subtitle_url") in
      match url with
      | JStr u =>
          let call := Fetch (secure_url u) false in
          issue call ;;
          lift (Ok (Some (AwaitSubtitle request videoInfo call)))
      | JUndefined => throw (TypeError (ReadOfUndefined "startsWith"))
      | JNull => throw (TypeError (ReadOfNull "startsWith"))
      | _ => throw (TypeError (NotAFunction "url.startsWith"))
      end
  end.

(** from the answer to [downloadSubtitle]'s call to the end *)
Definition after_downloadSubtitle (request videoInfo : jsval) (r : reply number) :
  M (option task) :=
  let* subtitleData := settled r in
  let* _ := lift (get subtitleData "body") in
  log "字幕下载成功" ;;
  let* rid := lift (get request "requestId") in
  let* title := lift (get videoInfo "title") in
  let* owner := lift (get videoInfo "owner") in
  let* name := lift (get_opt owner "name") in
  let* videoUrl := lift (get request "videoUrl") in
  let* ctime := lift (get videoInfo "ctime") in
  let* body := lift (get subtitleData "body") in
  sendResponse
    (mkResponse "SUBTITLE_RESULT" rid
       (Some (mkData title (js_or name (JStr "未知作者")) videoUrl ctime
                     (js_or body (JArr []))))
       None) ;;
  log "字幕数据发送成功" ;;
  lift (Ok None).

(** a suspended run goes on with the answer [r] to its call *)
Definition handleSubtitleRequest_resume (t : task) (r : reply number) : M (option task) :=
  match t with
  | AwaitVideoInfo request _ => guarded request (after_getVideoInfo request r)
  | AwaitSubtitleList request videoInfo _ =>
      guarded request (after_getSubtitleList request videoInfo r)
  | AwaitSubtitle request videoInfo _ =>
      guarded request (after_downloadSubtitle request videoInfo r)
  end.

(** the pieces of one request run back to back, each call answered as
    soon as it is made; a request has three waits at most *)
Fixpoint drive (waits : nat) (o : option task) : M unit :=
  match o, waits with
  | None, _ => lift (Ok tt)
  | Some t, S waits' =>
      let* o' := handleSubtitleRequest_resume t (net (awaited t)) in
      drive waits' o'
  | Some _, O => lift Pending
  end.

Definition uninterrupted (request : jsval) : M unit :=
  let* o := handleSubtitleRequest_begin request in
  drive 3 o.

Definition handleMessage (data : string) : M unit :=
  try_catch
    (let* message := lift (match JSON_parse data with
                           | inr v => Ok v
                           | inl e => Throw e
                           end) in
     log "收到消息" ;;
     let* tag := lift (get message "type") in
     if is_text tag "GET_SUBTITLE" then
       spawn (handleSubtitleRequest_begin message)
     else
       let* _ := lift (get message "type") in
       log "未知消息类型")
    (fun _ => log "消息解析失败").

(** *** The host calling back

    What the host can do to the service: fire [open], [close], [error]
    or [message] on a socket it has constructed (the last socket or an
    older one: the handlers close over [this], not over the socket),
    fire a scheduled timeout, or answer the call a suspended request
    waits for.  A socket that fails is [CLOSED] when its [error] event
    is fired.  A [message] event runs its request up to the first call
    only; the rest runs when the answers come, with whatever the host
    did in between.  Other scripts of the page take timeout handles too,
    so the handles the service gets need not be consecutive. *)

Inductive event : Type :=
| Opened (i : nat)
| Closed (i : nat)
| Failed (i : nat)
| Message (i : nat) (data : string)
| TimerFired (h : Z) (c : construction)
| Settled (n : nat)
| HandleTaken.

Definition has_socket (i : nat) (s : service) : bool :=
  match sockets s !! i with
  | Some _ => true
  | None => false
  end.

Definition set_readyState (i : nat) (r : readyState) (s : service) : service :=
  set_sockets (<[i := r]> (sockets s)) s.

(** the [n]-th suspended run, which is [t], goes on with the answer [r]:
    it leaves the waiting runs, and joins them again if it waits anew *)
Definition resumed (n : nat) (t : task) (r : reply number) (s : service) : service :=
  match handleSubtitleRequest_resume t r (set_suspended (delete n (suspended s)) s) with
  | (Ok (Some t'), s') => set_suspended (suspended s' ++ [t']) s'
  | (_, s') => s'
  end.

Definition step (s : service) (ev : event) : service :=
  match ev with
  | Opened i =>
      if has_socket i s then onopen (set_readyState i OPEN s) else s
  | Closed i =>
      if has_socket i s then onclose (set_readyState i CLOSED s) else s
  | Failed i =>
      if has_socket i s then onerror (set_readyState i CLOSED s) else s
  | Message i data =>
      if has_socket i s then (handleMessage data s).2 else s
  | TimerFired h c =>
      if bool_decide (h ∈ timers s) then reconnect_callback c (clearTimeout h s) else s
  | Settled n =>
      match suspended s !! n with
      | Some t =>
          match net (awaited t) with
          | Unsettled => s
          | r => resumed n t r s
          end
      | None => s
      end
  | HandleTaken => set_next_handle (next_handle s + 1) s
  end.

Definition run (s : service) (evs : list event) : service := foldl step s evs.

(** the session exists and is open, in the words of the specification *)
Definition session_is_open (s : service) : Prop :=
  exists i : nat, ws s = Some i /\ sockets s !! i = Some OPEN.

(** *** What a run has handed over *)

(** the responses the console shows as not sent *)
Fixpoint unsent (lines : list entry) : list SubtitleResponse :=
  match lines with
  | [] => []
  | Line _ :: rest => unsent rest
  | LineOf _ r :: rest => r :: unsent rest
  end.

(** the connection manager's side of the service is the same in both *)
Definition same_connection (s s' : service) : Prop :=
  ws s' = ws s /\ reconnectTimer s' = reconnectTimer s
  /\ isConnecting s' = isConnecting s /\ sockets s' = sockets s
  /\ timers s' = timers s /\ next_handle s' = next_handle s.

(** from [s] to [s'] no response was passed to [sendResponse] *)
Definition nothing_handed (s s' : service) : Prop :=
  same_connection s s' /\ wire s' = wire s
  /\ unsent (console s') = unsent (console s).

(** from [s] to [s'] exactly [r] was passed to [sendResponse]: it went to
    the socket if the session was open, and to the console if not *)
Definition handed (r : SubtitleResponse) (s s' : service) : Prop :=
  same_connection s s'
  /\ if ws_open s
     then wire s' = wire s ++ [r] /\ unsent (console s') = unsent (console s)
     else wire s' = wire s /\ unsent (console s') = unsent (console s) ++ [r].

(** a computation that passes nothing to [sendResponse] *)
Definition Quiet {A : Type} (m : M A) : Prop :=
  forall s, nothing_handed s (m s).2.

(** a computation that, when it returns, has passed exactly one response
    to [sendResponse], one that satisfies [P]; and none when it throws or
    stays suspended *)
Definition Answers (P : SubtitleResponse -> Prop) (m : M unit) : Prop :=
  forall s,
    match (m s).1 with
    | Ok _ => exists r, P r /\ handed r s (m s).2
    | _ => nothing_handed s (m s).2
    end.

(** a piece of a request that, when it ends the run, has passed exactly
    one response to [sendResponse], one that satisfies [P]; and none
    when the run waits on, throws or stays suspended *)
Definition Ends (P : SubtitleResponse -> Prop) (m : M (option task)) : Prop :=
  forall s,
    match (m s).1 with
    | Ok None => exists r, P r /\ handed r s (m s).2
    | _ => nothing_handed s (m s).2
    end.

(** a computation that neither reads nor writes the waiting runs *)
Definition Blind {A : Type} (m : M A) : Prop :=
  forall l s, m (set_suspended l s) = ((m s).1, set_suspended l (m s).2).

(** the lines [m] of the [try] block of a request, run to their end,
    come to the same as their pieces [lines] with each call answered as
    soon as it is made ([waits] calls at most) *)
Definition Cut (request : jsval) (waits : nat) (m : M unit) (lines : M (option task)) :
  Prop :=
  forall s,
    try_catch m (handleSubtitleRequest_catch request) s
    = bind (guarded request lines) (drive waits) s.

(** the state in which the run [o] of a piece waits, if it waits *)
Definition parked (o : option task) (s : service) : service :=
  match o with
  | Some t => set_suspended (suspended s ++ [t]) s
  | None => s
  end.

(** the request a suspended run is for *)
Definition request_of (t : task) : jsval :=
  match t with
  | AwaitVideoInfo request _ => request
  | AwaitSubtitleList request _ _ => request
  | AwaitSubtitle request _ _ => request
  end.

(** a piece that, when the run waits on, waits for [request] still *)
Definition Continues (request : jsval) (m : M (option task)) : Prop :=
  forall s t, (m s).1 = Ok (Some t) -> request_of t = request.

(** a response with a success payload and no error text, or with an
    error text and no success payload *)
Definition exactly_one (r : SubtitleResponse) : Prop :=
  (is_Some (data r) /\ error r = None) \/ (data r = None /\ is_Some (error r)).

(** what every response to [request] looks like: the tag, the identifier
    read off the request, and one of the two payloads *)
Definition answers_to (request : jsval) (r : SubtitleResponse) : Prop :=
  type r = "SUBTITLE_RESULT"%string
  /\ get request "requestId" = Ok (requestId r)
  /\ exactly_one r.

(** from [s] to [s'] at most one response was passed to [sendResponse],
    to the socket ([emitted]) or to the console ([dropped]), and each
    satisfies [P] *)
Definition at_most_one (P : SubtitleResponse -> Prop) (s s' : service) : Prop :=
  exists emitted dropped : list SubtitleResponse,
    wire s' = wire s ++ emitted
    /\ unsent (console s') = unsent (console s) ++ dropped
    /\ (length (emitted ++ dropped) <= 1)%nat
    /\ Forall P (emitted ++ dropped).

(** stage [m] comes back with [a] (its answer depends on the network
    only, not on the service) *)
Definition yields {A : Type} (m : M A) (a : A) : Prop :=
  forall s, (m s).1 = Ok a.

(** the call of the metadata API for [bvid] *)
Definition view_call (bvid : string) : fetch_call :=
  Fetch ("https://api.bilibili.com/x/web-interface/view?bvid=" +:+ bvid) true.

(** the call of the caption-list API for [aid] and [cid] *)
Definition tracks_call (aid cid : jsval) : fetch_call :=
  Fetch ("https://api.bilibili.com/x/player/wbi/v2?aid=" +:+ text_of aid
         +:+ "&cid=" +:+ text_of cid) true.

(** the error variant and the success variant of a response *)
Definition error_response (rid : jsval) (text : string) : SubtitleResponse :=
  mkResponse "SUBTITLE_RESULT" rid None (Some text).

Definition success_response (rid : jsval) (d : SubtitleData) : SubtitleResponse :=
  mkResponse "SUBTITLE_RESULT" rid (Some d) None.

(** the reconnection handle and the host's scheduled timeouts agree:
    either none is scheduled and the handle is [null], or one is, and
    the handle is its (positive) number *)
Definition timer_inv (s : service) : Prop :=
  0 < next_handle s
  /\ ((reconnectTimer s = None /\ timers s = [])
      \/ (exists h, 0 < h /\ reconnectTimer s = Some h /\ timers s = [h])).

(** *** Further vocabulary *)

(** the fault of reading [p] off [v], where [v] is [undefined] or [null] *)
Definition read_fault (v : jsval) (p : string) : fault :=
  match v with
  | JNull => ReadOfNull p
  | _ => ReadOfUndefined p
  end.

(** a track that the filter of [getSubtitleList] keeps *)
Definition has_url (item : jsval) : bool :=
  match get item "subtitle_url" with
  | Ok u => truthy u
  | _ => false
  end.

(** every [fetch] of the host settles: it answers or it rejects *)
Definition network_settles : Prop := forall call, net call <> Unsettled.

(** the calls one request can make, in their order: metadata, caption
    list, caption document; a request that fails early stops short *)
Definition request_trace (l : list fetch_call) : Prop :=
  exists bvid aid cid u,
    l `prefix_of` [view_call bvid; tracks_call aid cid; Fetch (secure_url u) false].

(** the calls a request can still make once [n] of them are made *)
Definition trace_from (n : nat) (l : list fetch_call) : Prop :=
  exists bvid aid cid u,
    l `prefix_of` drop n [view_call bvid; tracks_call aid cid; Fetch (secure_url u) false].

(** a computation whose calls of [fetch] satisfy [T] *)
Definition Traces {A : Type} (T : list fetch_call -> Prop) (m : M A) : Prop :=
  forall s, exists l, fetched (m s).2 = fetched s ++ l /\ T l.

(** a computation that does not stay suspended *)
Definition Settles {A : Type} (m : M A) : Prop :=
  forall s, (m s).1 <> Pending.

End Service.

(** ** A concrete host

  Numbers are integers, the engine words its type errors as V8 does, and
  the network answers from three canned replies: one for the metadata
  API, one for the caption-list API, one for any other URL. *)

Module Sample.

Definition v8_text (f : fault) : string :=
  match f with
  | ReadOfUndefined p => "Cannot read properties of undefined (reading '" +:+ p +:+ "')"
  | ReadOfNull p => "Cannot read properties of null (reading '" +:+ p +:+ "')"
  | NotAFunction e => e +:+ " is not a function"
  | NotPrimitive => "Cannot convert object to primitive value"
  end.

(** [JSON.parse] on the few texts the examples use *)
Definition parse (data : string) : exn + jsval Z :=
  if String.eqb data "{}" then inr (JObj [])
  else if String.eqb data "null" then inr JNull
  else if String.eqb data "[]" then inr (JArr [])
  else if String.eqb data "7" then inr (JNum 7)
  else inl (mkExn "SyntaxError" "Unexpected token").

Definition answers (meta tracks doc : reply Z) (call : fetch_call) : reply Z :=
  if String.prefix "https://api.bilibili.com/x/web-interface/view?" (fetch_url call)
  then meta
  else if String.prefix "https://api.bilibili.com/x/player/wbi/v2?" (fetch_url call)
  then tracks
  else doc.

Definition host (meta tracks doc : reply Z) : Host Z :=
  {| num_eq0 := Z.eqb 0;
     num_to_string := pretty;
     fault_text := v8_text;
     JSON_parse := parse;
     net := answers meta tracks doc |}.

(** the request of the end-to-end scenarios *)
Definition request_fields (videoUrl : string) : list (string * jsval Z) :=
  [("type", JStr "GET_SUBTITLE"); ("videoUrl", JStr videoUrl);
   ("requestId", JStr "r1")].

Definition request (videoUrl : string) : jsval Z := JObj (request_fields videoUrl).

Definition watch_url : string := "https://www.bilibili.com/video/BV1xx411c7mD".

Definition envelope (d : jsval Z) : jsval Z :=
  JObj [("code", JNum 0); ("message", JStr "0"); ("data", d)].

(** metadata: title "T", owner [name], ctime 1000, one page with cid 55 *)
Definition meta (name : jsval Z) : reply Z :=
  Body (envelope (JObj [("aid", JNum 7); ("title", JStr "T");
                        ("owner", JObj [("name", name)]); ("ctime", JNum 1000);
                        ("pages", JArr [JObj [("cid", JNum 55)]])])).

Definition tracks (l : list (jsval Z)) : reply Z :=
  Body (envelope (JObj [("subtitle", JObj [("subtitles", JArr l)])])).

Definition one_track : jsval Z :=
  JObj [("lan", JStr "ai-zh"); ("subtitle_url", JStr "http://aisubtitle.hdslb.com/bfs/x.json")].

Definition no_url_track : jsval Z :=
  JObj [("lan", JStr "ai-zh"); ("subtitle_url", JStr "")].

Definition caption_line : jsval Z :=
  JObj [("from", JNum 0); ("to", JNum 2); ("content", JStr "hi")].

Definition doc : reply Z := Body (JObj [("body", JArr [caption_line])]).

(** scenario A: every stage answers *)
Definition hostA : Host Z := host (meta (JStr "A")) (tracks [one_track]) doc.

(** scenario B: no track carries a download URL *)
Definition hostB : Host Z := host (meta (JStr "A")) (tracks [no_url_track]) doc.

(** a host whose network never answers *)
Definition hostC : Host Z := host Unsettled Unsettled Unsettled.

(** scenario A with an owner whose display name is the empty text *)
Definition hostE : Host Z := host (meta (JStr "")) (tracks [one_track]) doc.

(** [new WebSocket] refused by the host *)
Definition refused : construction := Refused (mkExn "SecurityError" "").

(** a service whose socket 0 is open *)
Definition connected : @service Z :=
  mkService (Some 0%nat) None false [OPEN] [] 1 [] [] [] [].

(** a service whose socket 0 has closed, with a reconnection scheduled *)
Definition disconnected : @service Z :=
  mkService (Some 0%nat) (Some 1) false [CLOSED] [1] 2 [] [] [] [].

(** an envelope that reports a failure *)
Definition failure (code : Z) (message : string) : reply Z :=
  Body (JObj [("code", JNum code); ("message", JStr message)]).

(** the metadata API reports a failure *)
Definition hostF : Host Z := host (failure (-400) "请求错误") (tracks [one_track]) doc.

(** the metadata call is rejected *)
Definition hostR : Host Z :=
  host (Rejected (mkExn "TypeError" "Failed to fetch")) (tracks [one_track]) doc.

(** the caption-list API reports a failure *)
Definition hostT : Host Z := host (meta (JStr "A")) (failure (-101) "账号未登录") doc.

(** the metadata lists no page *)
Definition hostN : Host Z :=
  host (Body (envelope (JObj [("aid", JNum 7); ("title", JStr "T"); ("pages", JArr [])])))
       (tracks [one_track]) doc.

(** the caption document is the JSON [null] *)
Definition hostD : Host Z := host (meta (JStr "A")) (tracks [one_track]) (Body JNull).

(** a request that has no [videoUrl] *)
Definition bare_fields : list (string * jsval Z) :=
  [("type", JStr "GET_SUBTITLE"); ("requestId", JStr "r1")].

(** the text of the request for [watch_url], as it comes over the socket *)
Definition request_text : string :=
  let q := String (ascii_of_nat 34) EmptyString in
  "{" +:+ q +:+ "type" +:+ q +:+ ":" +:+ q +:+ "GET_SUBTITLE" +:+ q +:+ ","
  +:+ q +:+ "videoUrl" +:+ q +:+ ":" +:+ q +:+ watch_url +:+ q +:+ ","
  +:+ q +:+ "requestId" +:+ q +:+ ":" +:+ q +:+ "r1" +:+ q +:+ "}".

(** scenario A on a host whose [JSON.parse] also decodes [request_text] *)
Definition hostP : Host Z :=
  {| num_eq0 := Z.eqb 0;
     num_to_string := pretty;
     fault_text := v8_text;
     JSON_parse := fun data =>
                     if String.eqb data request_text then inr (request watch_url)
                     else parse data;
     net := answers (meta (JStr "A")) (tracks [one_track]) doc |}.

(** [handleSubtitleRequest] on the request for [u], on host [h] *)
Definition run_request (h : Host Z) (u : string) (s : @service Z) :
  outcome unit * @service Z :=
  @handleSubtitleRequest Z h (request u) s.

End Sample.

(** * Properties *)

Section TextFacts.

Import Text.

Lemma append_cons (c : ascii) (p r : string) :
  String c p +:+ r = String c (p +:+ r).
Proof. reflexivity. Qed.

Lemma append_nil (r : string) : EmptyString +:+ r = r.
Proof. reflexivity. Qed.

Lemma prefix_append (p r : string) : String.prefix p (p +:+ r) = true.
Proof.
  induction p as [|a p IH].
  - by destruct r.
  - rewrite append_cons. simpl.
    destruct (ascii_dec a a); [exact IH | congruence].
Qed.

Lemma skip_append (p r : string) : skip (String.length p) (p +:+ r) = r.
Proof.
  induction p as [|a p IH]; [reflexivity|].
  rewrite append_cons. exact IH.
Qed.

Lemma prefix_split (p s : string) :
  String.prefix p s = true -> s = p +:+ skip (String.length p) s.
Proof.
  revert s; induction p as [|a p IH]; intros s Hp.
  - reflexivity.
  - destruct s as [|b s]; simpl in *; [discriminate|].
    destruct (ascii_dec a b) as [->|]; [|discriminate].
    rewrite append_cons. f_equal. by apply IH.
Qed.

Lemma prefix_iff (p s : string) :
  String.prefix p s = true <-> exists r, s = p +:+ r.
Proof.
  split.
  - intros Hp. eexists. by apply prefix_split.
  - intros [r ->]. apply prefix_append.
Qed.

Lemma replace_at_head (pat rep s : string) :
  String.prefix pat s = true ->
  replace pat rep s = rep +:+ skip (String.length pat) s.
Proof.
  intros Hp.
  assert (replace pat rep s =
          if String.prefix pat s then rep +:+ skip (String.length pat) s
          else match s with
               | EmptyString => EmptyString
               | String c r => String c (replace pat rep r)
               end) as -> by (by destruct s).
  by rewrite Hp.
Qed.

Lemma word_run_split (s : string) : exists rest, s = word_run s +:+ rest.
Proof.
  induction s as [|c s [rest IH]]; simpl.
  - by exists EmptyString.
  - destruct (is_word c).
    + exists rest. rewrite append_cons. by rewrite <- IH.
    + by exists (String c s).
Qed.

Lemma word_run_all_word (s : string) : all_word (word_run s) = true.
Proof.
  induction s as [|c s IH]; simpl; [reflexivity|].
  destruct (is_word c) eqn:Hc; simpl; [by rewrite Hc | reflexivity].
Qed.

Lemma bv_match_unfold (c : ascii) (r : string) :
  bv_match (String c r) =
  match bv_here (String c r) with
  | Some g => Some g
  | None => bv_match r
  end.
Proof. reflexivity. Qed.

Lemma bv_here_segment (s g : string) : bv_here s = Some g -> has_bv_segment s.
Proof.
  unfold bv_here. destruct (String.prefix _ s) eqn:Hp; [|discriminate].
  destruct (word_run _) as [|c w] eqn:Hw; [discriminate|]. intros _.
  apply prefix_split in Hp.
  destruct (word_run_split (skip 9 s)) as [rest Hrest].
  exists EmptyString, (String c w), rest. split; [|split].
  - rewrite Hp at 1. change (String.length "/video/BV") with 9%nat.
    rewrite Hrest at 1. by rewrite Hw.
  - discriminate.
  - rewrite <- Hw. apply word_run_all_word.
Qed.

Lemma bv_here_at_segment (w post : string) :
  w <> EmptyString -> all_word w = true ->
  bv_here ("/video/BV" +:+ w +:+ post) <> None.
Proof.
  intros Hne Hall. unfold bv_here.
  rewrite prefix_append.
  change 9%nat with (String.length "/video/BV"). rewrite skip_append.
  destruct w as [|c w]; [done|].
  simpl in Hall. apply andb_prop in Hall as [Hc _].
  simpl. by rewrite Hc.
Qed.

(** [bv_match] decides the language of the expression. *)
Lemma bv_match_some_iff (s : string) :
  (exists g, bv_match s = Some g) <-> has_bv_segment s.
Proof.
  split.
  - intros [g Hg]. induction s as [|c r IH].
    + discriminate.
    + rewrite bv_match_unfold in Hg.
      destruct (bv_here (String c r)) as [g'|] eqn:Hh.
      * by eapply bv_here_segment.
      * destruct (IH Hg) as (pre & w & post & -> & Hw & Hall).
        by exists (String c pre), w, post.
  - intros (pre & w & post & -> & Hw & Hall).
    induction pre as [|c pre IH].
    + pose proof (bv_here_at_segment w post Hw Hall) as Hh.
      change (EmptyString +:+ "/video/BV" +:+ w +:+ post)
        with (String "/" ("video/BV" +:+ w +:+ post)).
      rewrite bv_match_unfold.
      change (String "/" ("video/BV" +:+ w +:+ post))
        with ("/video/BV" +:+ w +:+ post).
      destruct (bv_here _) as [g|]; [by exists g | done].
    + change (String c pre +:+ "/video/BV" +:+ w +:+ post)
        with (String c (pre +:+ "/video/BV" +:+ w +:+ post)).
      rewrite bv_match_unfold.
      destruct (bv_here _) as [g|]; [by exists g | exact IH].
Qed.

Lemma bv_match_none (s : string) : ~ has_bv_segment s -> bv_match s = None.
Proof.
  intros Hno. destruct (bv_match s) as [g|] eqn:Hg; [|reflexivity].
  exfalso. apply Hno, bv_match_some_iff. by exists g.
Qed.

End TextFacts.

Section Properties.

Context {number : Type} `{!Host number}.

#[local] Abbreviation jsval := (jsval number).
#[local] Abbreviation task := (task number).
#[local] Abbreviation service := (@service number).
#[local] Abbreviation M := (@M number).
#[local] Abbreviation entry := (@entry number).
#[local] Abbreviation SubtitleResponse := (@SubtitleResponse number).
#[local] Open Scope js_scope.

(** *** Sending *)

Lemma ws_open_iff (s : service) : ws_open s = true <-> session_is_open s.
Proof.
  unfold ws_open, session_is_open. split.
  - destruct (ws s) as [i|]; [|discriminate].
    destruct (sockets s !! i) as [[]|] eqn:Hi; try discriminate.
    intros _. by exists i.
  - intros (i & -> & ->). reflexivity.
Qed.

Lemma list_not_self_snoc {A : Type} (l : list A) (x : A) : l <> l ++ [x].
Proof.
  intros Heq. apply (f_equal length) in Heq.
  rewrite length_app in Heq. simpl in Heq. lia.
Qed.

(** C9. [sendResponse] never throws; it passes the response to the
    socket exactly when the session exists and is open, and then changes
    nothing else; in every other state it writes one console line and
    changes nothing else, so the response is kept nowhere for later. *)
Theorem sendResponse_best_effort (response : SubtitleResponse) (s : service) :
  (sendResponse response s).1 = Ok tt
  /\ (session_is_open s ->
      (sendResponse response s).2 = set_wire (wire s ++ [response]) s)
  /\ (~ session_is_open s ->
      (sendResponse response s).2
      = log_entry (LineOf "WebSocket未连接，无法发送响应" response) s)
  /\ (wire (sendResponse response s).2 = wire s ++ [response] <-> session_is_open s).
Proof.
  pose proof (ws_open_iff s) as Hopen. unfold sendResponse.
  destruct (ws_open s); simpl.
  - assert (session_is_open s) as Hs by by apply Hopen.
    repeat split; auto. intros Hn; by destruct Hn.
  - assert (~ session_is_open s) as Hs.
    { intros Hs. apply Hopen in Hs. discriminate. }
    repeat split; auto.
    + intros Hs'; by destruct Hs.
    + intros Heq. by apply list_not_self_snoc in Heq.
    + intros Hs'; by destruct Hs.
Qed.

(** *** The caption URL *)

Lemma secure_url_upgrade (rest : string) :
  secure_url ("http://" +:+ rest) = "https://" +:+ rest.
Proof.
  unfold secure_url, Text.startsWith.
  rewrite prefix_append, replace_at_head by apply prefix_append.
  by rewrite skip_append.
Qed.

Lemma secure_url_same (u : string) :
  (~ exists rest, u = "http://" +:+ rest) -> secure_url u = u.
Proof.
  intros Hno. unfold secure_url, Text.startsWith.
  destruct (String.prefix "http://" u) eqn:Hp; [|reflexivity].
  exfalso. apply Hno. by apply prefix_iff.
Qed.

Lemma https_is_not_http (rest : string) :
  ~ exists rest', "https://" +:+ rest = "http://" +:+ rest'.
Proof. intros [rest' Heq]. discriminate Heq. Qed.

(** C5. [downloadSubtitle] fetches one URL, without credentials: for a
    caption URL ["http://" ++ rest] it is ["https://" ++ rest]; a caption
    URL that does not begin with ["http://"], so every ["https://"] one,
    is fetched as it is. *)
Theorem downloadSubtitle_url_upgrade (subtitleInfo : jsval) (u : string) (s : service) :
  get subtitleInfo "subtitle_url" = Ok (JStr u) ->
  exists target : string,
    fetched (downloadSubtitle subtitleInfo s).2 = fetched s ++ [Fetch target false]
    /\ (forall rest, u = "http://" +:+ rest -> target = "https://" +:+ rest)
    /\ ((~ exists rest, u = "http://" +:+ rest) -> target = u)
    /\ (forall rest, u = "https://" +:+ rest -> target = u).
Proof.
  intros Hurl. exists (secure_url u). split; [|split; [|split]].
  - unfold downloadSubtitle, bind, lift, fetch_json. rewrite Hurl.
    by destruct (net _).
  - intros rest ->. apply secure_url_upgrade.
  - apply secure_url_same.
  - intros rest ->. apply secure_url_same, https_is_not_http.
Qed.

(** *** Messages that are dropped *)

Lemma unsent_app (a b : list entry) : unsent (a ++ b) = unsent a ++ unsent b.
Proof.
  induction a as [|[t|t r] a IH]; simpl; [reflexivity | exact IH | by rewrite IH].
Qed.

Lemma unsent_lines (a : list entry) (texts : list string) :
  unsent (a ++ map Line texts) = unsent a.
Proof.
  rewrite unsent_app.
  assert (unsent (map Line texts) = []) as ->; [|by rewrite app_nil_r].
  by induction texts.
Qed.



(** *** Computations that send nothing, and computations that answer *)

Lemma same_connection_refl (s : service) : same_connection s s.
Proof. by repeat split. Qed.

Lemma same_connection_trans (s1 s2 s3 : service) :
  same_connection s1 s2 -> same_connection s2 s3 -> same_connection s1 s3.
Proof.
  intros (?&?&?&?&?&?) (?&?&?&?&?&?). repeat split; congruence.
Qed.

Lemma same_connection_ws_open (s s' : service) :
  same_connection s s' -> ws_open s' = ws_open s.
Proof. intros (Hws & _ & _ & Hso & _). unfold ws_open. by rewrite Hws, Hso. Qed.

Lemma nothing_handed_refl (s : service) : nothing_handed s s.
Proof. split; [apply same_connection_refl | by split]. Qed.

Lemma nothing_handed_trans (s1 s2 s3 : service) :
  nothing_handed s1 s2 -> nothing_handed s2 s3 -> nothing_handed s1 s3.
Proof.
  intros (Hc & ? & ?) (Hc' & ? & ?). split; [|split; congruence].
  by eapply same_connection_trans.
Qed.

Lemma handed_after (r : SubtitleResponse) (s1 s2 s3 : service) :
  nothing_handed s1 s2 -> handed r s2 s3 -> handed r s1 s3.
Proof.
  intros (Hc & Hw & Hu) (Hc' & Hr). split; [by eapply same_connection_trans|].
  rewrite (same_connection_ws_open _ _ Hc) in Hr.
  destruct (ws_open s1); destruct Hr as [? ?]; split; congruence.
Qed.

Lemma handed_before (r : SubtitleResponse) (s1 s2 s3 : service) :
  handed r s1 s2 -> nothing_handed s2 s3 -> handed r s1 s3.
Proof.
  intros (Hc & Hr) (Hc' & Hw & Hu). split; [by eapply same_connection_trans|].
  destruct (ws_open s1); destruct Hr as [? ?]; split; congruence.
Qed.

Lemma nothing_handed_log_entry (text : string) (s : service) :
  nothing_handed s (log_entry (Line text) s).
Proof.
  split; [by repeat split|]. split; [reflexivity|].
  simpl. apply (unsent_lines _ [text]).
Qed.

Lemma Quiet_lift {A : Type} (o : outcome A) : Quiet (lift o : M A).
Proof. intros s. apply nothing_handed_refl. Qed.

Lemma Quiet_log (text : string) : Quiet (log text : M unit).
Proof. intros s. apply nothing_handed_log_entry. Qed.

Lemma Quiet_fetch_json (call : fetch_call) : Quiet (fetch_json call).
Proof.
  intros s. unfold fetch_json.
  destruct (net call); simpl; (split; [by repeat split | by split]).
Qed.

Lemma Quiet_bind {A B : Type} (m : M A) (k : A -> M B) :
  Quiet m -> (forall a, Quiet (k a)) -> Quiet (bind m k).
Proof.
  intros Hm Hk s. unfold bind. specialize (Hm s).
  destruct (m s) as [[a|e|] s1]; simpl in *; [|done..].
  eapply nothing_handed_trans; [exact Hm | apply Hk].
Qed.

Ltac quiet :=
  repeat first
    [ apply Quiet_lift
    | apply Quiet_log
    | apply Quiet_fetch_json
    | apply Quiet_bind; [|intros ?]
    | match goal with
      | |- Quiet (if ?b then _ else _) => destruct b
      | |- Quiet (match ?x with _ => _ end) => destruct x
      end ].

Lemma Quiet_getVideoInfo (bvid : string) : Quiet (getVideoInfo bvid).
Proof. unfold getVideoInfo, throw. quiet. Qed.

Lemma Quiet_getSubtitleList (aid cid : jsval) : Quiet (getSubtitleList aid cid).
Proof. unfold getSubtitleList, throw. quiet. Qed.

Lemma Quiet_downloadSubtitle (subtitleInfo : jsval) :
  Quiet (downloadSubtitle subtitleInfo).
Proof. unfold downloadSubtitle, throw. quiet. Qed.

Lemma handed_sendResponse (r : SubtitleResponse) (s : service) :
  handed r s (sendResponse r s).2.
Proof.
  unfold handed, sendResponse. destruct (ws_open s) eqn:Hopen; simpl.
  - split; [by repeat split | done].
  - split; [by repeat split|]. split; [reflexivity|].
    by rewrite unsent_app.
Qed.

Lemma Answers_bind {A : Type} (P : SubtitleResponse -> Prop)
      (m : M A) (k : A -> M unit) :
  Quiet m -> (forall a, Answers P (k a)) -> Answers P (bind m k).
Proof.
  intros Hm Hk s. unfold bind. specialize (Hm s).
  destruct (m s) as [[a|e|] s1]; simpl in *; [|done..].
  specialize (Hk a s1). destruct (k a s1) as [[[]|e|] s2]; simpl in *.
  - destruct Hk as (r & HP & Hr). exists r. split; [done|]. by eapply handed_after.
  - by eapply nothing_handed_trans.
  - by eapply nothing_handed_trans.
Qed.

Lemma Answers_throw (P : SubtitleResponse -> Prop) (e : exn) :
  Answers P (throw e : M unit).
Proof. intros s. apply nothing_handed_refl. Qed.

Lemma Answers_send (P : SubtitleResponse -> Prop) (r : SubtitleResponse) :
  P r -> Answers P (sendResponse r).
Proof.
  intros HP s. pose proof (handed_sendResponse r s) as Hr.
  unfold sendResponse in *. destruct (ws_open s); simpl in *; by exists r.
Qed.

Lemma Answers_then_log (P : SubtitleResponse -> Prop) (m : M unit) (text : string) :
  Answers P m -> Answers P (m ;; log text).
Proof.
  intros Hm s. unfold bind. specialize (Hm s).
  destruct (m s) as [[[]|e|] s1]; simpl in *; [|done..].
  destruct Hm as (r & HP & Hr). exists r. split; [done|].
  eapply handed_before; [exact Hr | apply nothing_handed_log_entry].
Qed.

Lemma Answers_try_catch (P : SubtitleResponse -> Prop)
      (body : M unit) (handler : exn -> M unit) :
  Answers P body -> (forall e, Answers P (handler e)) ->
  Answers P (try_catch body handler).
Proof.
  intros Hb Hh s. unfold try_catch. specialize (Hb s).
  destruct (body s) as [[[]|e|] s1]; simpl in *; [done| |done].
  specialize (Hh e s1). destruct (handler e s1) as [[[]|e'|] s2]; simpl in *.
  - destruct Hh as (r & HP & Hr). exists r. split; [done|]. by eapply handed_after.
  - by eapply nothing_handed_trans.
  - by eapply nothing_handed_trans.
Qed.

Lemma Answers_weaken (P Q : SubtitleResponse -> Prop) (m : M unit) :
  (forall r, P r -> Q r) -> Answers P m -> Answers Q m.
Proof.
  intros HPQ Hm s. specialize (Hm s). destruct (m s).1; [|done..].
  destruct Hm as (r & HP & Hr). exists r. auto.
Qed.

Lemma Answers_lift_bind {A : Type} (P : SubtitleResponse -> Prop)
      (o : outcome A) (k : A -> M unit) :
  (forall a, o = Ok a -> Answers P (k a)) -> Answers P (bind (lift o) k).
Proof.
  intros Hk s. unfold bind, lift. destruct o as [a|e|]; simpl.
  - by apply Hk.
  - apply nothing_handed_refl.
  - apply nothing_handed_refl.
Qed.

Ltac answers :=
  repeat first
    [ apply Answers_lift_bind; intros ? ?
    | apply Answers_bind;
      [ first [ apply Quiet_getVideoInfo | apply Quiet_getSubtitleList
              | apply Quiet_downloadSubtitle | apply Quiet_log ]
      | intros ? ]
    | match goal with
      | |- Answers _ (match ?x with _ => _ end) => destruct x
      end
    | apply Answers_throw
    | apply Answers_then_log
    | apply Answers_send ].

Lemma Answers_handleSubtitleRequest_try (request : jsval) :
  Answers (answers_to request) (handleSubtitleRequest_try request).
Proof.
  unfold handleSubtitleRequest_try. answers.
  split; [reflexivity|]. split; [assumption|]. left. by split.
Qed.

Lemma Answers_handleSubtitleRequest_catch (request : jsval) (err : exn) :
  Answers (answers_to request) (handleSubtitleRequest_catch request err).
Proof.
  unfold handleSubtitleRequest_catch. answers.
  split; [reflexivity|]. split; [assumption|]. right. by split.
Qed.

Lemma Answers_handleSubtitleRequest (request : jsval) :
  Answers (answers_to request) (handleSubtitleRequest request).
Proof.
  unfold handleSubtitleRequest. answers.
  apply Answers_try_catch.
  - apply Answers_handleSubtitleRequest_try.
  - apply Answers_handleSubtitleRequest_catch.
Qed.

Lemma Answers_at_most_one (P : SubtitleResponse -> Prop) (m : M unit) (s : service) :
  Answers P m -> at_most_one P s (m s).2.
Proof.
  intros Hm. specialize (Hm s). destruct (m s).1.
  - destruct Hm as (r & HP & _ & Hr). destruct (ws_open s); destruct Hr as [Hw Hu].
    + exists [r], []. rewrite Hw, Hu, app_nil_r. repeat split; simpl; auto.
    + exists [], [r]. rewrite Hw, Hu, app_nil_r. repeat split; simpl; auto.
  - destruct Hm as (_ & Hw & Hu). exists [], [].
    rewrite Hw, Hu, !app_nil_r. repeat split; simpl; auto.
  - destruct Hm as (_ & Hw & Hu). exists [], [].
    rewrite Hw, Hu, !app_nil_r. repeat split; simpl; auto.
Qed.

(** *** The pieces of a request *)

Lemma Quiet_issue (call : fetch_call) : Quiet (issue call : M unit).
Proof. intros s. split; [by repeat split | by split]. Qed.

Lemma Quiet_settled (r : reply number) : Quiet (settled r).
Proof. apply Quiet_lift. Qed.

Lemma Ends_lift_bind {A : Type} (P : SubtitleResponse -> Prop)
      (o : outcome A) (k : A -> M (option task)) :
  (forall a, o = Ok a -> Ends P (k a)) -> Ends P (bind (lift o) k).
Proof.
  intros Hk s. unfold bind, lift. destruct o as [a|e|]; simpl.
  - by apply Hk.
  - apply nothing_handed_refl.
  - apply nothing_handed_refl.
Qed.

Lemma Ends_bind {A : Type} (P : SubtitleResponse -> Prop)
      (m : M A) (k : A -> M (option task)) :
  Quiet m -> (forall a, Ends P (k a)) -> Ends P (bind m k).
Proof.
  intros Hm Hk s. unfold bind. specialize (Hm s).
  destruct (m s) as [[a|e|] s1]; simpl in *; [|done..].
  specialize (Hk a s1). destruct (k a s1) as [[[t|]|e|] s2]; simpl in *.
  - by eapply nothing_handed_trans.
  - destruct Hk as (r & HP & Hr). exists r. split; [done|]. by eapply handed_after.
  - by eapply nothing_handed_trans.
  - by eapply nothing_handed_trans.
Qed.

Lemma Ends_throw (P : SubtitleResponse -> Prop) (e : exn) :
  Ends P (throw e : M (option task)).
Proof. intros s. apply nothing_handed_refl. Qed.

Lemma Ends_wait (P : SubtitleResponse -> Prop) (t : task) :
  Ends P (lift (Ok (Some t)) : M (option task)).
Proof. intros s. apply nothing_handed_refl. Qed.

Lemma Ends_done (P : SubtitleResponse -> Prop) (m : M unit) :
  Answers P m -> Ends P (m ;; lift (Ok None)).
Proof.
  intros Hm s. unfold bind, lift. specialize (Hm s).
  by destruct (m s) as [[[]|e|] s1].
Qed.

Lemma Ends_send_log (P : SubtitleResponse -> Prop) (r : SubtitleResponse)
      (text : string) :
  P r -> Ends P (sendResponse r ;; log text ;; lift (Ok None)).
Proof.
  intros HP s.
  pose proof (Answers_then_log P _ text (Answers_send P r HP) s) as Hm.
  unfold bind, lift, log in *.
  by destruct (sendResponse r s) as [[[]|e|] s1].
Qed.

Lemma Ends_guarded (request : jsval) (lines : M (option task)) :
  Ends (answers_to request) lines -> Ends (answers_to request) (guarded request lines).
Proof.
  intros Hb s. unfold guarded, try_catch. specialize (Hb s).
  destruct (lines s) as [[o|e|] s1]; simpl in *; [done| |done].
  pose proof (Ends_done _ _ (Answers_handleSubtitleRequest_catch request e) s1) as Hh.
  destruct ((handleSubtitleRequest_catch request e ;; lift (Ok None)) s1)
    as [[[t|]|e'|] s2]; simpl in *.
  - by eapply nothing_handed_trans.
  - destruct Hh as (r & HP & Hr). exists r. split; [done|]. by eapply handed_after.
  - by eapply nothing_handed_trans.
  - by eapply nothing_handed_trans.
Qed.

Ltac ends :=
  repeat first
    [ apply Ends_lift_bind; intros ? ?
    | apply Ends_bind;
      [ first [ apply Quiet_log | apply Quiet_issue | apply Quiet_settled
              | solve [unfold throw; quiet] ]
      | intros ? ]
    | match goal with
      | |- Ends _ (match ?x with _ => _ end) => destruct x
      end
    | apply Ends_throw
    | apply Ends_wait
    | progress cbv zeta ].

Lemma Ends_handleSubtitleRequest_begin (request : jsval) :
  Ends (answers_to request) (handleSubtitleRequest_begin request).
Proof.
  unfold handleSubtitleRequest_begin.
  apply Ends_lift_bind; intros _ _. apply Ends_bind; [apply Quiet_log | intros _].
  apply Ends_guarded. ends.
Qed.

Lemma Ends_after_downloadSubtitle (request videoInfo : jsval) (r : reply number) :
  Ends (answers_to request) (after_downloadSubtitle request videoInfo r).
Proof.
  unfold after_downloadSubtitle. ends.
  apply Ends_send_log.
  split; [reflexivity|]. split; [assumption|]. left. by split.
Qed.

Lemma Ends_handleSubtitleRequest_resume (t : task) (r : reply number) :
  Ends (answers_to (request_of t)) (handleSubtitleRequest_resume t r).
Proof.
  destruct t as [request call|request videoInfo call|request videoInfo call]; simpl;
    apply Ends_guarded.
  - unfold after_getVideoInfo. ends.
  - unfold after_getSubtitleList. ends.
  - apply Ends_after_downloadSubtitle.
Qed.

Lemma Ends_at_most_one (P : SubtitleResponse -> Prop) (m : M (option task))
      (s : service) :
  Ends P m -> at_most_one P s (m s).2.
Proof.
  intros Hm. specialize (Hm s).
  assert (nothing_handed s (m s).2 -> at_most_one P s (m s).2) as Hnone.
  { intros (_ & Hw & Hu). exists [], [].
    rewrite Hw, Hu, !app_nil_r. repeat split; simpl; auto. }
  destruct (m s).1 as [[t|]|e|]; [by apply Hnone| |by apply Hnone..].
  destruct Hm as (r & HP & _ & Hr). destruct (ws_open s); destruct Hr as [Hw Hu].
  - exists [r], []. rewrite Hw, Hu, app_nil_r. repeat split; simpl; auto.
  - exists [], [r]. rewrite Hw, Hu, app_nil_r. repeat split; simpl; auto.
Qed.

Lemma Ends_same_connection (P : SubtitleResponse -> Prop) (m : M (option task))
      (s : service) :
  Ends P m -> same_connection s (m s).2.
Proof.
  intros Hm. specialize (Hm s). destruct (m s).1 as [[t|]|e|].
  - by destruct Hm.
  - by destruct Hm as (r & _ & ? & _).
  - by destruct Hm.
  - by destruct Hm.
Qed.

Lemma spawn_state (m : M (option task)) (s : service) :
  (spawn m s).1 = Ok tt
  /\ ws (spawn m s).2 = ws (m s).2
  /\ reconnectTimer (spawn m s).2 = reconnectTimer (m s).2
  /\ isConnecting (spawn m s).2 = isConnecting (m s).2
  /\ sockets (spawn m s).2 = sockets (m s).2
  /\ timers (spawn m s).2 = timers (m s).2
  /\ next_handle (spawn m s).2 = next_handle (m s).2
  /\ console (spawn m s).2 = console (m s).2
  /\ fetched (spawn m s).2 = fetched (m s).2
  /\ wire (spawn m s).2 = wire (m s).2.
Proof. unfold spawn. by destruct (m s) as [[[t|]|e|] s1]. Qed.

Lemma handleMessage_request (data : string) (fs : list (string * jsval)) (s : service) :
  JSON_parse data = inr (JObj fs) ->
  field "type" fs = JStr "GET_SUBTITLE" ->
  handleMessage data s
  = (Ok tt, (spawn (handleSubtitleRequest_begin (JObj fs))
                   (log_entry (Line "收到消息") s)).2).
Proof.
  intros Hdata Htype. unfold handleMessage, try_catch, bind, lift, log.
  rewrite Hdata. simpl. rewrite Htype. simpl. unfold spawn.
  by destruct (handleSubtitleRequest_begin (JObj fs) _) as [[[t|]|e|] s1].
Qed.

Lemma Answers_same_connection (P : SubtitleResponse -> Prop) (m : M unit) (s : service) :
  Answers P m -> same_connection s (m s).2.
Proof.
  intros Hm. specialize (Hm s). destruct (m s).1.
  - by destruct Hm as (r & _ & ? & _).
  - by destruct Hm.
  - by destruct Hm.
Qed.

(** *** Correlation and the two payloads *)

(** C1. For a decoded [GET_SUBTITLE] request with identifier [R],
    [handleSubtitleRequest] passes at most one response to
    [sendResponse], so at most one reaches the socket, and its
    [requestId] is [R], on the success branch and on the error branch
    alike.  The same holds of [handleMessage] on a text that decodes to
    that request. *)
Theorem handleSubtitleRequest_correlation
        (fs : list (string * jsval)) (R : string) (s : service) :
  field "type" fs = JStr "GET_SUBTITLE" ->
  field "requestId" fs = JStr R ->
  at_most_one (fun r => requestId r = JStr R) s (handleSubtitleRequest (JObj fs) s).2
  /\ forall data, JSON_parse data = inr (JObj fs) ->
                  at_most_one (fun r => requestId r = JStr R) s (handleMessage data s).2.
Proof.
  intros Htype HR.
  assert (Answers (fun r => requestId r = JStr R) (handleSubtitleRequest (JObj fs)))
    as Hanswers.
  { eapply Answers_weaken; [|apply Answers_handleSubtitleRequest].
    intros r (_ & Hid & _). simpl in Hid. congruence. }
  split; [by apply Answers_at_most_one|].
  intros data Hdata.
  assert (Ends (fun r => requestId r = JStr R) (handleSubtitleRequest_begin (JObj fs)))
    as Hends.
  { intros s0. pose proof (Ends_handleSubtitleRequest_begin (JObj fs) s0) as He.
    destruct (handleSubtitleRequest_begin (JObj fs) s0).1 as [[t|]|e|]; try done.
    destruct He as (r & (_ & Hid & _) & Hr). exists r. split; [|done].
    simpl in Hid. congruence. }
  rewrite (handleMessage_request data fs s Hdata Htype). cbn [snd].
  pose proof (Ends_at_most_one _ _ (log_entry (Line "收到消息") s) Hends)
    as (emitted & dropped & Hw & Hu & Hlen & Hall).
  destruct (spawn_state (handleSubtitleRequest_begin (JObj fs))
                        (log_entry (Line "收到消息") s))
    as (_ & _ & _ & _ & _ & _ & _ & Hconsole & _ & Hwire).
  exists emitted, dropped. rewrite Hwire, Hconsole, Hw, Hu. simpl.
  rewrite (unsent_lines _ ["收到消息"]). auto.
Qed.

(** C2. Every response that [handleSubtitleRequest] builds, whatever
    the request and whether it reaches the socket or not, carries a
    success payload and no error text, or an error text and no success
    payload. *)
Theorem responses_carry_exactly_one (request : jsval) (s : service) :
  at_most_one exactly_one s (handleSubtitleRequest request s).2.
Proof.
  apply Answers_at_most_one.
  eapply Answers_weaken; [|apply Answers_handleSubtitleRequest].
  by intros r (_ & _ & Hone).
Qed.

(** *** The reconnection timer *)

Lemma clearTimeout_only (h : Z) (s : service) :
  timers s = [h] -> timers (clearTimeout h s) = [].
Proof.
  intros Ht. unfold clearTimeout. cbn [timers set_timers]. rewrite Ht.
  rewrite filter_cons_False by (intros Hne; by apply Hne). reflexivity.
Qed.

Lemma timer_inv_same_connection (s s' : service) :
  same_connection s s' -> timer_inv s -> timer_inv s'.
Proof.
  intros (_ & Hr & _ & _ & Ht & Hn) (Hpos & Hcase). unfold timer_inv.
  by rewrite Hr, Ht, Hn.
Qed.

Lemma timer_inv_log_entry (e : entry) (s : service) :
  timer_inv s -> timer_inv (log_entry e s).
Proof. done. Qed.

Lemma timer_inv_timer_set (s : service) :
  timer_inv s -> timer_set s = false -> reconnectTimer s = None /\ timers s = [].
Proof.
  intros (_ & [Hnone | (h & Hh & Hr & Ht)]) Hset; [done|].
  unfold timer_set in Hset. rewrite Hr in Hset.
  apply negb_false_iff, Z.eqb_eq in Hset. lia.
Qed.

Lemma timer_inv_scheduleReconnect (s : service) :
  timer_inv s -> timer_inv (scheduleReconnect s).
Proof.
  intros Hinv. unfold scheduleReconnect.
  destruct (timer_set s) eqn:Hset; [done|].
  destruct (timer_inv_timer_set s Hinv Hset) as [Hr Ht].
  destruct Hinv as [Hpos _]. split; simpl; [lia|].
  right. exists (next_handle s). by rewrite Ht.
Qed.

Lemma timer_inv_connect (c : construction) (s : service) :
  timer_inv s -> timer_inv (connect c s).
Proof.
  intros Hinv. unfold connect.
  destruct (isConnecting s || ws_open s); [done|].
  destruct c; [done|]. by apply timer_inv_scheduleReconnect.
Qed.

Lemma timer_inv_onopen (s : service) : timer_inv s -> timer_inv (onopen s).
Proof.
  intros Hinv. unfold onopen.
  set (s1 := log_entry _ (set_isConnecting false s)).
  assert (timer_inv s1) as Hinv1 by exact Hinv.
  destruct (timer_set s1) eqn:Hset; [|done].
  unfold timer_set in Hset.
  destruct Hinv1 as (Hpos & [[Hr Ht] | (h & Hh & Hr & Ht)]).
  - by rewrite Hr in Hset.
  - rewrite Hr. split; [exact Hpos|]. left. split; [reflexivity|].
    by apply clearTimeout_only.
Qed.

Lemma timer_inv_fired (h : Z) (s : service) :
  timer_inv s -> h ∈ timers s ->
  timer_inv (set_reconnectTimer None (clearTimeout h s))
  /\ reconnectTimer (set_reconnectTimer None (clearTimeout h s)) = None
  /\ timers (set_reconnectTimer None (clearTimeout h s)) = [].
Proof.
  intros (Hpos & [[Hr Ht] | (h' & Hh & Hr & Ht)]) Hin.
  - rewrite Ht in Hin. by apply elem_of_nil in Hin.
  - rewrite Ht in Hin. apply list_elem_of_singleton in Hin as ->.
    assert (timers (set_reconnectTimer None (clearTimeout h' s)) = []) as Hnil.
    { by apply (clearTimeout_only h' s). }
    split; [|by split]. split; [done|]. left. by split.
Qed.

Lemma handleMessage_same_connection (data : string) (s : service) :
  same_connection s (handleMessage data s).2.
Proof.
  unfold handleMessage, try_catch, bind, lift, log, spawn.
  destruct (JSON_parse data) as [e|message]; simpl; [by repeat split|].
  destruct (get message "type") as [tag| |]; simpl; [|by repeat split..].
  destruct (is_text tag "GET_SUBTITLE"); simpl.
  - pose proof (Ends_same_connection _ _ (log_entry (Line "收到消息") s)
                  (Ends_handleSubtitleRequest_begin message))
      as (Hc1 & Hc2 & Hc3 & Hc4 & Hc5 & Hc6).
    destruct (handleSubtitleRequest_begin message _) as [[[t|]|e|] s1];
      simpl in *; by repeat split.
  - destruct (get message "type"); simpl; by repeat split.
Qed.

Lemma resumed_same_connection (n : nat) (t : task) (r : reply number) (s : service) :
  same_connection s (resumed n t r s).
Proof.
  unfold resumed.
  pose proof (Ends_same_connection _ _ (set_suspended (delete n (suspended s)) s)
                (Ends_handleSubtitleRequest_resume t r))
    as (Hc1 & Hc2 & Hc3 & Hc4 & Hc5 & Hc6).
  destruct (handleSubtitleRequest_resume t r _) as [[[t'|]|e|] s1];
    simpl in *; by repeat split.
Qed.

Lemma Settled_same_connection (n : nat) (s : service) :
  same_connection s (step s (Settled n)).
Proof.
  simpl. destruct (suspended s !! n) as [t|]; [|apply same_connection_refl].
  destruct (net (awaited t));
    [apply resumed_same_connection..|apply same_connection_refl].
Qed.

Lemma timer_inv_step (s : service) (ev : event) : timer_inv s -> timer_inv (step s ev).
Proof.
  intros Hinv.
  destruct ev as [i|i|i|i data|h c|n|];
    [| | | | |eapply timer_inv_same_connection;
              [apply Settled_same_connection | done]|]; simpl.
  - destruct (has_socket i s); [|done]. by apply timer_inv_onopen.
  - destruct (has_socket i s); [|done]. by apply timer_inv_scheduleReconnect.
  - destruct (has_socket i s); [|done]. by apply timer_inv_scheduleReconnect.
  - destruct (has_socket i s); [|done].
    eapply timer_inv_same_connection; [apply handleMessage_same_connection | done].
  - destruct (bool_decide (h ∈ timers s)) eqn:Hin; [|done].
    apply bool_decide_eq_true in Hin.
    apply timer_inv_connect. by apply timer_inv_fired.
  - destruct Hinv as [Hpos Hcase]. split; simpl; [lia | exact Hcase].
Qed.

Lemma timer_inv_run (evs : list event) (s : service) :
  timer_inv s -> timer_inv (run s evs).
Proof.
  revert s. induction evs as [|ev evs IH]; intros s Hinv; [done|].
  apply IH. by apply timer_inv_step.
Qed.

Lemma timer_inv_constructor (h0 : positive) (c : construction) :
  timer_inv (constructor h0 c : service).
Proof.
  apply timer_inv_connect. split; simpl; [lia|]. by left.
Qed.

(** C4. Whatever the host does after the service is constructed
    (sockets opening, closing and failing, old or new, messages,
    timeouts firing, [new WebSocket] throwing, in any order), at most
    one timeout is scheduled; [scheduleReconnect] does nothing while one
    is; and when a timeout fires, [connect] is entered with the handle
    cleared and no timeout scheduled. *)
Theorem reconnect_singularity (h0 : positive) (c : construction) (evs : list event) :
  (length (timers (run (constructor h0 c) evs)) <= 1)%nat
  /\ (timers (run (constructor h0 c) evs) <> [] ->
      scheduleReconnect (run (constructor h0 c) evs) = run (constructor h0 c) evs)
  /\ (forall h c',
        h ∈ timers (run (constructor h0 c) evs) ->
        exists s0 : service,
          step (run (constructor h0 c) evs) (TimerFired h c') = connect c' s0
          /\ reconnectTimer s0 = None /\ timers s0 = []).
Proof.
  pose proof (timer_inv_run evs _ (timer_inv_constructor h0 c)) as Hinv.
  set (s := run (constructor h0 c) evs) in *. split; [|split].
  - destruct Hinv as (_ & [[_ ->] | (h & _ & _ & ->)]); simpl; lia.
  - intros Hne. unfold scheduleReconnect.
    destruct (timer_set s) eqn:Hset; [reflexivity|].
    by destruct (timer_inv_timer_set s Hinv Hset).
  - intros h c' Hin. exists (set_reconnectTimer None (clearTimeout h s)).
    destruct (timer_inv_fired h s Hinv Hin) as (_ & Hr & Ht).
    split; [|by split]. simpl. by rewrite bool_decide_eq_true_2.
Qed.

(** *** Paths through the pipeline *)

Lemma get_of_object (fs : list (string * jsval)) (k : string) :
  get (JObj fs) k = Ok (field k fs).
Proof. reflexivity. Qed.

Lemma get_total (v : jsval) (k k' : string) (x : jsval) :
  get v k = Ok x -> exists x', get v k' = Ok x'.
Proof. destruct v; simpl; intros [=]; by eexists. Qed.

Lemma handed_error (rid : jsval) (text : string) (s0 s : service) :
  nothing_handed s0 s ->
  handed (error_response rid text) s0
         (sendResponse (error_response rid text) (log_entry (Line "处理字幕请求失败") s)).2.
Proof.
  intros Hq. eapply handed_after; [|apply handed_sendResponse].
  eapply nothing_handed_trans; [exact Hq | apply nothing_handed_log_entry].
Qed.

(** the [catch] block, run *)
Lemma handleSubtitleRequest_catch_run
      (request rid x : jsval) (err : exn) (s : service) :
  get request "videoUrl" = Ok x ->
  get request "requestId" = Ok rid ->
  handleSubtitleRequest_catch request err s
  = sendResponse (error_response rid (error_toString err))
                 (log_entry (Line "处理字幕请求失败") s).
Proof.
  intros Hx Hrid. unfold handleSubtitleRequest_catch, bind, lift, log.
  by rewrite Hx, Hrid.
Qed.

Lemma sendResponse_ok (r : SubtitleResponse) (s : service) :
  (sendResponse r s).1 = Ok tt.
Proof. unfold sendResponse. by destruct (ws_open s). Qed.

Lemma sendResponse_fetched (r : SubtitleResponse) (s : service) :
  fetched (sendResponse r s).2 = fetched s.
Proof. unfold sendResponse. by destruct (ws_open s). Qed.

(** a run of the handler whose [try] block throws *)
Lemma handleSubtitleRequest_failing
      (request rid x : jsval) (err : exn) (s s1 : service) :
  get request "videoUrl" = Ok x ->
  get request "requestId" = Ok rid ->
  handleSubtitleRequest_try request (log_entry (Line "开始处理字幕请求") s)
  = (Throw err, s1) ->
  (handleSubtitleRequest request s).1 = Ok tt
  /\ fetched (handleSubtitleRequest request s).2 = fetched s1
  /\ handed (error_response rid (error_toString err)) s (handleSubtitleRequest request s).2.
Proof.
  intros Hx Hrid Htry.
  assert (handleSubtitleRequest request s
          = sendResponse (error_response rid (error_toString err))
                         (log_entry (Line "处理字幕请求失败") s1)) as ->.
  { unfold handleSubtitleRequest, bind, lift, log, try_catch.
    rewrite Hx. cbv beta iota. rewrite Htry.
    by apply handleSubtitleRequest_catch_run with x. }
  split; [apply sendResponse_ok|]. split; [by rewrite sendResponse_fetched|].
  apply handed_error.
  eapply nothing_handed_trans; [apply (nothing_handed_log_entry "开始处理字幕请求")|].
  pose proof (Answers_handleSubtitleRequest_try request
                (log_entry (Line "开始处理字幕请求") s)) as Hq.
  by rewrite Htry in Hq.
Qed.

(** C7. A request whose [videoUrl] is a text without a [/video/BV..]
    segment is answered by exactly one response, the error variant with
    the text of the URL-extraction error, and nothing is fetched:
    neither metadata, nor caption list, nor caption document. *)
Theorem unparseable_url_short_circuit
        (fs : list (string * jsval)) (u : string) (s : service) :
  field "videoUrl" fs = JStr u ->
  ~ Text.has_bv_segment u ->
  (handleSubtitleRequest (JObj fs) s).1 = Ok tt
  /\ fetched (handleSubtitleRequest (JObj fs) s).2 = fetched s
  /\ handed (error_response (field "requestId" fs)
                            "Error: 无法从URL中提取BV号，请确保URL格式正确")
            s (handleSubtitleRequest (JObj fs) s).2.
Proof.
  intros Hu Hno.
  apply (handleSubtitleRequest_failing (JObj fs) (field "requestId" fs) (JStr u)
           (Error "无法从URL中提取BV号，请确保URL格式正确") s
           (log_entry (Line "开始处理字幕请求") s)).
  - by rewrite get_of_object, Hu.
  - apply get_of_object.
  - unfold handleSubtitleRequest_try, bind, lift.
    rewrite get_of_object, Hu. unfold extractBVID.
    by rewrite (bv_match_none u Hno).
Qed.

(** The stages write to the service only by recording their call. *)

Lemma getVideoInfo_state (bvid : string) (s : service) :
  (getVideoInfo bvid s).2 = set_fetched (fetched s ++ [view_call bvid]) s.
Proof.
  unfold getVideoInfo, bind, fetch_json, lift, throw, view_call.
  destruct (net _) as [result| |]; simpl; [|reflexivity..].
  destruct (get result "code") as [code| |]; simpl; [|reflexivity..].
  destruct (differs_from_0 code); simpl; [|reflexivity].
  destruct (get result "message") as [message| |]; simpl; [|reflexivity..].
  by destruct (js_String message).
Qed.

Lemma getSubtitleList_state (aid cid : jsval) (aid_text cid_text : string) (s : service) :
  js_String aid = Ok aid_text ->
  js_String cid = Ok cid_text ->
  (getSubtitleList aid cid s).2 = set_fetched (fetched s ++ [tracks_call aid cid]) s.
Proof.
  intros Haid Hcid.
  unfold getSubtitleList, bind, fetch_json, lift, throw, tracks_call, text_of.
  rewrite Haid, Hcid. simpl.
  destruct (net _) as [result| |]; simpl; [|reflexivity..].
  destruct (get result "code") as [code| |]; simpl; [|reflexivity..].
  destruct (differs_from_0 code); simpl.
  { destruct (get result "message") as [message| |]; simpl; [|reflexivity..].
    by destruct (js_String message). }
  destruct (get result "data") as [d| |]; simpl; [|reflexivity..].
  destruct (get d "subtitle") as [subtitle| |]; simpl; [|reflexivity..].
  destruct (get subtitle "subtitles") as [tracks| |]; simpl; [|reflexivity..].
  by destruct tracks.
Qed.

Lemma getSubtitleList_unrendered (aid cid : jsval) (s : service) :
  (forall aid_text cid_text,
      ~ (js_String aid = Ok aid_text /\ js_String cid = Ok cid_text)) ->
  (getSubtitleList aid cid s).2 = s
  /\ forall l, (getSubtitleList aid cid s).1 <> Ok l.
Proof.
  intros Hno. unfold getSubtitleList, bind, lift.
  destruct (js_String aid) as [a| |]; simpl; [|by split..].
  destruct (js_String cid) as [c| |]; simpl; [|by split..].
  by destruct (Hno a c).
Qed.

Lemma getSubtitleList_rendered (aid cid : jsval) (l : list jsval) (s : service) :
  (getSubtitleList aid cid s).1 = Ok l ->
  exists aid_text cid_text, js_String aid = Ok aid_text /\ js_String cid = Ok cid_text.
Proof.
  unfold getSubtitleList, bind, lift.
  destruct (js_String aid) as [a| |]; simpl; [|discriminate..].
  destruct (js_String cid) as [c| |]; simpl; [|discriminate..].
  intros _. by exists a, c.
Qed.

Lemma bind_ok {A B : Type} (m : M A) (k : A -> M B) (s : service) (a : A) :
  (m s).1 = Ok a -> bind m k s = k a (m s).2.
Proof. unfold bind. destruct (m s) as [o s']; simpl. by intros ->. Qed.

Lemma bind_lift_ok {A B : Type} (o : outcome A) (k : A -> M B) (s : service) (a : A) :
  o = Ok a -> bind (lift o) k s = k a s.
Proof. by intros ->. Qed.

Lemma bind_log {B : Type} (text : string) (k : unit -> M B) (s : service) :
  bind (log text) k s = k tt (log_entry (Line text) s).
Proof. reflexivity. Qed.

Lemma Error_text (m : string) :
  m <> EmptyString -> error_toString (Error m) = "Error: " +:+ m.
Proof.
  intros Hm. unfold error_toString, Error. simpl.
  destruct (String.eqb_spec m ""); [done | reflexivity].
Qed.

(** the [try] block up to the caption list *)
Lemma handleSubtitleRequest_try_to_list
      (request videoUrl : jsval) (bvid : string)
      (videoInfo pages pageInfo aid cid : jsval) (tracks : list jsval) (s : service) :
  get request "videoUrl" = Ok videoUrl ->
  extractBVID videoUrl = Ok bvid ->
  yields (getVideoInfo bvid) videoInfo ->
  get videoInfo "pages" = Ok pages ->
  first_of pages = Ok pageInfo ->
  get videoInfo "aid" = Ok aid ->
  get pageInfo "cid" = Ok cid ->
  yields (getSubtitleList aid cid) tracks ->
  exists s1 : service,
    nothing_handed s s1
    /\ fetched s1 = fetched s ++ [view_call bvid; tracks_call aid cid]
    /\ handleSubtitleRequest_try request s
       = match tracks with
         | [] => (Throw (Error "该视频没有可用的字幕"), s1)
         | first :: _ =>
             (log "获取字幕列表成功" ;;
              let* subtitleData := downloadSubtitle first in
              let* _ := lift (get subtitleData "body") in
              log "字幕下载成功" ;;
              let* rid := lift (get request "requestId") in
              let* title := lift (get videoInfo "title") in
              let* owner := lift (get videoInfo "owner") in
              let* name := lift (get_opt owner "name") in
              let* videoUrl := lift (get request "videoUrl") in
              let* ctime := lift (get videoInfo "ctime") in
              let* body := lift (get subtitleData "body") in
              sendResponse
                (success_response rid
                   (mkData title (js_or name (JStr "未知作者")) videoUrl ctime
                           (js_or body (JArr [])))) ;;
              log "字幕数据发送成功") s1
         end.
Proof.
  intros Hurl Hbvid Hinfo Hpages Hpage Haid Hcid Hlist.
  destruct (get_total _ _ "title" _ Hpages) as [title Htitle].
  set (s0 := log_entry (Line "提取BV号成功") s).
  set (s2 := log_entry (Line "获取视频信息成功") (getVideoInfo bvid s0).2).
  destruct (getSubtitleList_rendered aid cid tracks s2 (Hlist s2))
    as (aid_text & cid_text & Haid_text & Hcid_text).
  exists (getSubtitleList aid cid s2).2. split; [|split].
  - eapply nothing_handed_trans; [apply (nothing_handed_log_entry "提取BV号成功")|].
    eapply nothing_handed_trans; [apply Quiet_getVideoInfo|].
    eapply nothing_handed_trans; [apply (nothing_handed_log_entry "获取视频信息成功")|].
    apply Quiet_getSubtitleList.
  - rewrite (getSubtitleList_state aid cid aid_text cid_text)
      by done. subst s2. cbn [fetched set_fetched log_entry set_console].
    rewrite getVideoInfo_state. cbn [fetched set_fetched]. subst s0.
    cbn [fetched log_entry set_console]. by rewrite <- app_assoc.
  - unfold handleSubtitleRequest_try.
    rewrite (bind_lift_ok _ _ _ _ Hurl), (bind_lift_ok _ _ _ _ Hbvid), bind_log.
    fold s0. rewrite (bind_ok _ _ _ _ (Hinfo s0)).
    rewrite (bind_lift_ok _ _ _ _ Htitle), (bind_lift_ok _ _ _ _ Haid), bind_log.
    fold s2.
    rewrite (bind_lift_ok _ _ _ _ Hpages), (bind_lift_ok _ _ _ _ Hpage),
      (bind_lift_ok _ _ _ _ Haid), (bind_lift_ok _ _ _ _ Hcid).
    rewrite (bind_ok _ _ _ _ (Hlist s2)).
    by destruct tracks.
Qed.

(** C6, as the code has it.  When the caption-list stage comes back
    with an empty filtered list, the request is answered by exactly one
    response, the error variant with the request's identifier, whose
    text is the rendering of the thrown [Error]: the message
    [该视频没有可用的字幕] behind the prefix [Error: ].  Two calls were
    made, metadata and caption list; no caption document is fetched. *)
Theorem empty_caption_list_error
        (fs : list (string * jsval)) (bvid : string)
        (videoInfo pages pageInfo aid cid : jsval) (s : service) :
  extractBVID (field "videoUrl" fs) = Ok bvid ->
  yields (getVideoInfo bvid) videoInfo ->
  get videoInfo "pages" = Ok pages ->
  first_of pages = Ok pageInfo ->
  get videoInfo "aid" = Ok aid ->
  get pageInfo "cid" = Ok cid ->
  yields (getSubtitleList aid cid) [] ->
  (handleSubtitleRequest (JObj fs) s).1 = Ok tt
  /\ fetched (handleSubtitleRequest (JObj fs) s).2
     = fetched s ++ [view_call bvid; tracks_call aid cid]
  /\ handed (error_response (field "requestId" fs) "Error: 该视频没有可用的字幕")
            s (handleSubtitleRequest (JObj fs) s).2.
Proof.
  intros Hbvid Hinfo Hpages Hpage Haid Hcid Hlist.
  destruct (handleSubtitleRequest_try_to_list
              (JObj fs) _ bvid videoInfo pages pageInfo aid cid []
              (log_entry (Line "开始处理字幕请求") s)
              (get_of_object fs "videoUrl") Hbvid Hinfo Hpages Hpage Haid Hcid Hlist)
    as (s1 & _ & Hfetched & Htry).
  destruct (handleSubtitleRequest_failing
              (JObj fs) (field "requestId" fs) (field "videoUrl" fs)
              (Error "该视频没有可用的字幕") s s1
              (get_of_object fs "videoUrl") (get_of_object fs "requestId") Htry)
    as (Hok & Hf & Hhanded).
  split; [exact Hok|]. split; [by rewrite Hf, Hfetched|]. exact Hhanded.
Qed.

(** C8, as the code has it.  When every stage succeeds the request is
    answered by exactly one response, the success variant with the
    request's identifier, whose payload has the metadata's title, the
    request's URL, the metadata's [ctime], as author the owner's name
    when that is truthy and [未知作者] otherwise (no owner, no name, or a
    falsy name such as the empty text), and as subtitles the caption
    document's [body] when that is truthy and the empty array
    otherwise. *)
Theorem success_payload
        (fs : list (string * jsval)) (bvid : string)
        (videoInfo pages pageInfo aid cid first subtitleData : jsval)
        (rest : list jsval) (title0 owner name ctime0 body : jsval) (s : service) :
  extractBVID (field "videoUrl" fs) = Ok bvid ->
  yields (getVideoInfo bvid) videoInfo ->
  get videoInfo "pages" = Ok pages ->
  first_of pages = Ok pageInfo ->
  get videoInfo "aid" = Ok aid ->
  get pageInfo "cid" = Ok cid ->
  yields (getSubtitleList aid cid) (first :: rest) ->
  yields (downloadSubtitle first) subtitleData ->
  get subtitleData "body" = Ok body ->
  get videoInfo "title" = Ok title0 ->
  get videoInfo "owner" = Ok owner ->
  get_opt owner "name" = Ok name ->
  get videoInfo "ctime" = Ok ctime0 ->
  (handleSubtitleRequest (JObj fs) s).1 = Ok tt
  /\ handed (success_response
               (field "requestId" fs)
               (mkData title0
                       (if truthy name then name else JStr "未知作者")
                       (field "videoUrl" fs)
                       ctime0
                       (if truthy body then body else JArr [])))
            s (handleSubtitleRequest (JObj fs) s).2.
Proof.
  intros Hbvid Hinfo Hpages Hpage Haid Hcid Hlist Hdoc Hbody Htitle Howner Hname Hctime.
  set (s0 := log_entry (Line "开始处理字幕请求") s).
  destruct (handleSubtitleRequest_try_to_list
              (JObj fs) _ bvid videoInfo pages pageInfo aid cid (first :: rest) s0
              (get_of_object fs "videoUrl") Hbvid Hinfo Hpages Hpage Haid Hcid Hlist)
    as (s1 & Hq & _ & Htry).
  set (s2 := log_entry (Line "获取字幕列表成功") s1).
  set (s3 := log_entry (Line "字幕下载成功") (downloadSubtitle first s2).2).
  set (r := success_response (field "requestId" fs)
              (mkData title0 (if truthy name then name else JStr "未知作者")
                      (field "videoUrl" fs) ctime0
                      (if truthy body then body else JArr []))).
  assert (handleSubtitleRequest (JObj fs) s
          = (Ok tt, log_entry (Line "字幕数据发送成功") (sendResponse r s3).2)) as ->.
  { unfold handleSubtitleRequest. rewrite get_of_object.
    rewrite (bind_lift_ok _ _ _ _ eq_refl), bind_log. fold s0.
    unfold try_catch. rewrite Htry.
    rewrite bind_log. fold s2. rewrite (bind_ok _ _ _ _ (Hdoc s2)).
    rewrite (bind_lift_ok _ _ _ _ Hbody), bind_log. fold s3.
    rewrite (bind_lift_ok _ _ _ _ (get_of_object fs "requestId")),
      (bind_lift_ok _ _ _ _ Htitle), (bind_lift_ok _ _ _ _ Howner),
      (bind_lift_ok _ _ _ _ Hname),
      (bind_lift_ok _ _ _ _ (get_of_object fs "videoUrl")),
      (bind_lift_ok _ _ _ _ Hctime), (bind_lift_ok _ _ _ _ Hbody).
    rewrite (bind_ok _ _ _ _ (sendResponse_ok _ s3)). reflexivity. }
  split; [reflexivity|]. cbn [snd].
  eapply handed_before; [|apply nothing_handed_log_entry].
  eapply handed_after; [|apply handed_sendResponse].
  eapply nothing_handed_trans; [apply (nothing_handed_log_entry "开始处理字幕请求")|].
  eapply nothing_handed_trans; [exact Hq|].
  eapply nothing_handed_trans; [apply (nothing_handed_log_entry "获取字幕列表成功")|].
  eapply nothing_handed_trans; [apply Quiet_downloadSubtitle|].
  apply nothing_handed_log_entry.
Qed.

(** *** The text of an error response *)

Lemma getVideoInfo_api_failure
      (bvid : string) (result code message : jsval) (s : service) :
  net (view_call bvid) = Body result ->
  get result "code" = Ok code ->
  differs_from_0 code = true ->
  get result "message" = Ok message ->
  (getVideoInfo bvid s).1
  = match js_String message with
    | Ok text => Throw (Error ("获取视频信息失败: " +:+ text))
    | Throw err => Throw err
    | Pending => Pending
    end.
Proof.
  intros Hnet Hcode Hne Hmessage.
  unfold getVideoInfo, bind, fetch_json, lift, throw.
  fold (view_call bvid). rewrite Hnet, Hcode, Hne, Hmessage. simpl.
  by destruct (js_String message).
Qed.

Lemma tracks_call_rendered (aid cid : jsval) (aid_text cid_text : string) :
  js_String aid = Ok aid_text ->
  js_String cid = Ok cid_text ->
  tracks_call aid cid
  = Fetch ("https://api.bilibili.com/x/player/wbi/v2?aid=" +:+ aid_text
           +:+ "&cid=" +:+ cid_text) true.
Proof. intros Haid Hcid. unfold tracks_call, text_of. by rewrite Haid, Hcid. Qed.

Lemma getSubtitleList_api_failure
      (aid cid result code message : jsval) (aid_text cid_text : string) (s : service) :
  js_String aid = Ok aid_text ->
  js_String cid = Ok cid_text ->
  net (tracks_call aid cid) = Body result ->
  get result "code" = Ok code ->
  differs_from_0 code = true ->
  get result "message" = Ok message ->
  (getSubtitleList aid cid s).1
  = match js_String message with
    | Ok text => Throw (Error ("获取字幕列表失败: " +:+ text))
    | Throw err => Throw err
    | Pending => Pending
    end.
Proof.
  intros Haid Hcid Hnet Hcode Hne Hmessage.
  rewrite (tracks_call_rendered aid cid aid_text cid_text Haid Hcid) in Hnet.
  unfold getSubtitleList, bind, fetch_json, lift, throw.
  rewrite Haid, Hcid. simpl. rewrite Hnet, Hcode, Hne, Hmessage. simpl.
  by destruct (js_String message).
Qed.

(** C10. When the [try] block of [handleSubtitleRequest] throws [err],
    the one response handed over is the error variant whose text is
    [String(err)].  For an [Error] object with message [m] that text is
    [m] behind the prefix [Error: ]; so it is for the three errors the
    code raises itself: the unparseable URL, a failure reported by
    either API (whose message is then [String(result.message)], where
    that conversion gives a text), and the empty caption list. *)
Theorem error_text_is_String_of_thrown
        (request rid : jsval) (err : exn) (s s1 : service) :
  get request "requestId" = Ok rid ->
  handleSubtitleRequest_try request (log_entry (Line "开始处理字幕请求") s)
  = (Throw err, s1) ->
  handed (error_response rid (error_toString err)) s (handleSubtitleRequest request s).2
  /\ (forall m, err = Error m -> m <> EmptyString ->
                error_toString err = "Error: " +:+ m)
  /\ (forall u, ~ Text.has_bv_segment u ->
                extractBVID (JStr u)
                = Throw (Error "无法从URL中提取BV号，请确保URL格式正确")
                /\ error_toString (Error "无法从URL中提取BV号，请确保URL格式正确")
                   = "Error: 无法从URL中提取BV号，请确保URL格式正确"%string)
  /\ (forall bvid result code message text s0,
         net (view_call bvid) = Body result ->
         get result "code" = Ok code ->
         differs_from_0 code = true ->
         get result "message" = Ok message ->
         js_String message = Ok text ->
         (getVideoInfo bvid s0).1
         = Throw (Error ("获取视频信息失败: " +:+ text))
         /\ error_toString (Error ("获取视频信息失败: " +:+ text))
            = "Error: 获取视频信息失败: " +:+ text)
  /\ (forall aid cid aid_text cid_text result code message text s0,
         js_String aid = Ok aid_text ->
         js_String cid = Ok cid_text ->
         net (tracks_call aid cid) = Body result ->
         get result "code" = Ok code ->
         differs_from_0 code = true ->
         get result "message" = Ok message ->
         js_String message = Ok text ->
         (getSubtitleList aid cid s0).1
         = Throw (Error ("获取字幕列表失败: " +:+ text))
         /\ error_toString (Error ("获取字幕列表失败: " +:+ text))
            = "Error: 获取字幕列表失败: " +:+ text)
  /\ (forall videoUrl bvid videoInfo pages pageInfo aid cid s0,
         get request "videoUrl" = Ok videoUrl ->
         extractBVID videoUrl = Ok bvid ->
         yields (getVideoInfo bvid) videoInfo ->
         get videoInfo "pages" = Ok pages ->
         first_of pages = Ok pageInfo ->
         get videoInfo "aid" = Ok aid ->
         get pageInfo "cid" = Ok cid ->
         yields (getSubtitleList aid cid) [] ->
         (handleSubtitleRequest_try request s0).1
         = Throw (Error "该视频没有可用的字幕")
         /\ error_toString (Error "该视频没有可用的字幕")
            = "Error: 该视频没有可用的字幕"%string).
Proof.
  intros Hrid Htry.
  destruct (get_total _ _ "videoUrl" _ Hrid) as [x Hx].
  split; [|split; [|split; [|split; [|split]]]].
  - by apply (handleSubtitleRequest_failing request rid x err s s1).
  - intros m -> Hm. by apply Error_text.
  - intros u Hno. split; [|reflexivity].
    unfold extractBVID. by rewrite (bv_match_none u Hno).
  - intros bvid result code message text s0 Hnet Hcode Hne Hmessage Htext.
    split; [|by apply Error_text].
    rewrite (getVideoInfo_api_failure bvid result code message s0) by done.
    by rewrite Htext.
  - intros aid cid aid_text cid_text result code message text s0
           Haid Hcid Hnet Hcode Hne Hmessage Htext.
    split; [|by apply Error_text].
    rewrite (getSubtitleList_api_failure aid cid result code message aid_text cid_text s0)
      by done.
    by rewrite Htext.
  - intros videoUrl bvid videoInfo pages pageInfo aid cid s0
           Hurl Hbvid Hinfo Hpages Hpage Haid Hcid Hlist.
    split; [|reflexivity].
    destruct (handleSubtitleRequest_try_to_list
                request videoUrl bvid videoInfo pages pageInfo aid cid [] s0
                Hurl Hbvid Hinfo Hpages Hpage Haid Hcid Hlist)
      as (s1' & _ & _ & ->).
    reflexivity.
Qed.

End Properties.

(** * The properties on the concrete host *)

Section Witnesses.

Import Sample.

(** C1 at scenario A, on a connected service. *)
Lemma handleSubtitleRequest_correlation_witness :
  wire (run_request hostA watch_url connected).2
  = [success_response (JStr "r1")
       (mkData (JStr "T") (JStr "A") (JStr watch_url) (JNum 1000)
               (JArr [caption_line]))]
  /\ at_most_one (fun r => requestId r = JStr "r1") connected
                 (run_request hostA watch_url connected).2.
Proof.
  split; [reflexivity|].
  exact (proj1 (@handleSubtitleRequest_correlation Z hostA (request_fields watch_url)
                  "r1" connected eq_refl eq_refl)).
Defined.


(** C4 after a refused construction, a failure and a close. *)
Lemma reconnect_singularity_witness :
  timers (@run Z hostA (constructor 1 refused) [Failed 0%nat; Closed 0%nat]) = [1]
  /\ scheduleReconnect (@run Z hostA (constructor 1 refused) [Failed 0%nat; Closed 0%nat])
     = @run Z hostA (constructor 1 refused) [Failed 0%nat; Closed 0%nat].
Proof.
  split; [reflexivity|].
  apply (@reconnect_singularity Z hostA 1%positive refused [Failed 0%nat; Closed 0%nat]).
  discriminate.
Defined.

(** C5 at an insecure caption URL. *)
Lemma downloadSubtitle_url_upgrade_witness :
  fetched (@downloadSubtitle Z hostA one_track connected).2
  = [Fetch "https://aisubtitle.hdslb.com/bfs/x.json" false].
Proof.
  destruct (@downloadSubtitle_url_upgrade Z hostA one_track
              "http://aisubtitle.hdslb.com/bfs/x.json" connected eq_refl)
    as (target & Hfetched & Hup & _).
  rewrite Hfetched. rewrite (Hup "aisubtitle.hdslb.com/bfs/x.json" eq_refl).
  reflexivity.
Defined.

(** C6 at scenario B, on a disconnected service. *)
Lemma empty_caption_list_error_witness :
  fetched (run_request hostB watch_url disconnected).2
  = [view_call "BV1xx411c7mD"; @tracks_call Z hostB (JNum 7) (JNum 55)]
  /\ handed (error_response (JStr "r1") "Error: 该视频没有可用的字幕")
            disconnected (run_request hostB watch_url disconnected).2.
Proof.
  apply (@empty_caption_list_error Z hostB (request_fields watch_url) "BV1xx411c7mD"
           (JObj [("aid", JNum 7); ("title", JStr "T");
                  ("owner", JObj [("name", JStr "A")]); ("ctime", JNum 1000);
                  ("pages", JArr [JObj [("cid", JNum 55)]])])
           (JArr [JObj [("cid", JNum 55)]]) (JObj [("cid", JNum 55)])
           (JNum 7) (JNum 55) disconnected);
    try reflexivity; intros s; reflexivity.
Defined.

Lemma no_bv_segment : ~ Text.has_bv_segment "https://www.bilibili.com/BV1xx411c7mD".
Proof.
  intros Hseg. apply bv_match_some_iff in Hseg as [g Hg]. discriminate Hg.
Qed.

(** C7 at a URL without a [/video/] segment, on a network that never
    answers. *)
Lemma unparseable_url_short_circuit_witness :
  (run_request hostC "https://www.bilibili.com/BV1xx411c7mD" connected).1 = Ok tt
  /\ fetched (run_request hostC "https://www.bilibili.com/BV1xx411c7mD" connected).2 = []
  /\ handed (error_response (JStr "r1") "Error: 无法从URL中提取BV号，请确保URL格式正确")
            connected
            (run_request hostC "https://www.bilibili.com/BV1xx411c7mD" connected).2.
Proof.
  apply (@unparseable_url_short_circuit Z hostC
           (request_fields "https://www.bilibili.com/BV1xx411c7mD")
           "https://www.bilibili.com/BV1xx411c7mD" connected eq_refl no_bv_segment).
Defined.

(** C8 at scenario A. *)
Lemma success_payload_witness :
  handed (success_response (JStr "r1")
            (mkData (JStr "T") (JStr "A") (JStr watch_url) (JNum 1000)
                    (JArr [caption_line])))
         connected (run_request hostA watch_url connected).2.
Proof.
  apply (@success_payload Z hostA (request_fields watch_url) "BV1xx411c7mD"
           (JObj [("aid", JNum 7); ("title", JStr "T");
                  ("owner", JObj [("name", JStr "A")]); ("ctime", JNum 1000);
                  ("pages", JArr [JObj [("cid", JNum 55)]])])
           (JArr [JObj [("cid", JNum 55)]]) (JObj [("cid", JNum 55)])
           (JNum 7) (JNum 55) one_track (JObj [("body", JArr [caption_line])]) []
           (JStr "T") (JObj [("name", JStr "A")]) (JStr "A") (JNum 1000)
           (JArr [caption_line]) connected);
    try reflexivity; intros s; reflexivity.
Defined.

(** C9 on a connected and on a disconnected service. *)
Lemma sendResponse_best_effort_witness :
  wire (@sendResponse Z (error_response (JStr "r1") "x") connected).2
  = [error_response (JStr "r1") "x"]
  /\ console (@sendResponse Z (error_response (JStr "r1") "x") disconnected).2
     = [LineOf "WebSocket未连接，无法发送响应" (error_response (JStr "r1") "x")].
Proof.
  pose proof (@sendResponse_best_effort Z (error_response (JStr "r1") "x") connected)
    as (_ & Hopen & _).
  pose proof (@sendResponse_best_effort Z (error_response (JStr "r1") "x") disconnected)
    as (_ & _ & Hclosed & _).
  split.
  - rewrite Hopen; [reflexivity|]. exists 0%nat. by split.
  - rewrite Hclosed; [reflexivity|]. intros (i & Hws & Hi).
    injection Hws as <-. discriminate Hi.
Defined.

(** C10 at the unparseable URL. *)
Lemma error_text_is_String_of_thrown_witness :
  handed (error_response (JStr "r1") "Error: 无法从URL中提取BV号，请确保URL格式正确")
         connected
         (run_request hostC "https://www.bilibili.com/BV1xx411c7mD" connected).2.
Proof.
  apply (@error_text_is_String_of_thrown Z hostC
           (request "https://www.bilibili.com/BV1xx411c7mD") (JStr "r1")
           (Error "无法从URL中提取BV号，请确保URL格式正确")
           connected (log_entry (Line "开始处理字幕请求") connected)
           eq_refl eq_refl).
Defined.

(** C6 as stated fails in scenario B: the caption list is empty after
    filtering and the response that goes out has the text with the
    prefix [Error: ], not the bare message. *)
Lemma empty_caption_list_counterexample :
  @yields Z _ (@getSubtitleList Z hostB (JNum 7) (JNum 55)) []
  /\ wire (run_request hostB watch_url connected).2
     = [error_response (JStr "r1") "Error: 该视频没有可用的字幕"]
  /\ ~ handed (error_response (JStr "r1") "该视频没有可用的字幕")
              connected (run_request hostB watch_url connected).2.
Proof.
  split; [intros s; reflexivity|]. split; [reflexivity|].
  intros (_ & Hwire). simpl in Hwire. destruct Hwire as [Hwire _].
  discriminate Hwire.
Qed.

(** C8 as stated fails in scenario A with an owner whose display name
    is present and empty: the author of the payload is the placeholder,
    not the display name. *)
Lemma success_payload_counterexample :
  (exists videoInfo owner,
      @yields Z _ (@getVideoInfo Z hostE "BV1xx411c7mD") videoInfo
      /\ @get Z hostE videoInfo "owner" = Ok owner
      /\ @get Z hostE owner "name" = Ok (JStr ""))
  /\ exists d,
      wire (run_request hostE watch_url connected).2 = [success_response (JStr "r1") d]
      /\ author d = JStr "未知作者"
      /\ author d <> JStr "".
Proof.
  split.
  - eexists _, _. split; [intros s; reflexivity|]. split; reflexivity.
  - eexists. split; [reflexivity|]. split; [reflexivity | discriminate].
Qed.

End Witnesses.

(** * Further properties of the service *)

Section Further.

Context {number : Type} `{!Host number}.

#[local] Abbreviation jsval := (jsval number).
#[local] Abbreviation task := (task number).
#[local] Abbreviation service := (@service number).
#[local] Abbreviation M := (@M number).
#[local] Abbreviation entry := (@entry number).
#[local] Abbreviation SubtitleResponse := (@SubtitleResponse number).
#[local] Open Scope js_scope.

(** *** The video identifier *)

Lemma word_run_rest (s : string) :
  exists rest, s = Text.word_run s +:+ rest /\ Text.word_run rest = EmptyString.
Proof.
  induction s as [|c s (rest & IH & Hrest)]; simpl.
  - by exists EmptyString.
  - destruct (Text.is_word c) eqn:Hc.
    + exists rest. rewrite append_cons. by rewrite <- IH.
    + exists (String c s). split; [reflexivity|]. simpl. by rewrite Hc.
Qed.

Lemma bv_match_position (u g : string) :
  Text.bv_match u = Some g ->
  exists pre rest, u = pre +:+ rest /\ Text.bv_here rest = Some g.
Proof.
  induction u as [|c r IH]; intros Hg.
  - discriminate.
  - rewrite bv_match_unfold in Hg.
    destruct (Text.bv_here (String c r)) as [g'|] eqn:Hh.
    + injection Hg as <-. by exists EmptyString, (String c r).
    + destruct (IH Hg) as (pre & rest & -> & Hrest).
      by exists (String c pre), rest.
Qed.

Lemma bv_here_shape (s g : string) :
  Text.bv_here s = Some g ->
  exists w post,
    s = "/video/" +:+ g +:+ post /\ g = "BV" +:+ w /\ w <> EmptyString
    /\ Text.all_word w = true /\ Text.word_run post = EmptyString.
Proof.
  unfold Text.bv_here. destruct (String.prefix _ s) eqn:Hp; [|discriminate].
  destruct (Text.word_run _) as [|c w] eqn:Hw; [discriminate|]. intros [= <-].
  apply prefix_split in Hp. change (String.length "/video/BV") with 9%nat in Hp.
  destruct (word_run_rest (Text.skip 9 s)) as (post & Hsplit & Hpost).
  exists (String c w), post. repeat split.
  - rewrite Hp at 1. rewrite Hsplit at 1. by rewrite Hw.
  - discriminate.
  - rewrite <- Hw. apply word_run_all_word.
  - exact Hpost.
Qed.

(** X1. What [extractBVID] returns is read off the URL: it stands right
    after a [/video/], it is [BV] followed by one or more characters of
    [\w], and it takes all of them: what follows in the URL does not
    begin with a character of [\w]. *)
Theorem extractBVID_shape (u g : string) :
  extractBVID (JStr u) = Ok g ->
  exists pre w post,
    u = pre +:+ "/video/" +:+ g +:+ post
    /\ g = "BV" +:+ w /\ w <> EmptyString /\ Text.all_word w = true
    /\ Text.word_run post = EmptyString.
Proof.
  unfold extractBVID. destruct (Text.bv_match u) as [g'|] eqn:Hm; [|discriminate].
  intros [= ->].
  destruct (bv_match_position u g Hm) as (pre & rest & -> & Hrest).
  destruct (bv_here_shape rest g Hrest) as (w & post & -> & Hg & Hw & Hall & Hpost).
  by exists pre, w, post.
Qed.

(** *** The filter of the caption list *)

Lemma with_subtitle_url_filter (items : list jsval) :
  Forall (fun item => nullish item = false) items ->
  with_subtitle_url items = Ok (List.filter has_url items).
Proof.
  induction 1 as [|item items Hitem _ IH]; [reflexivity|].
  simpl. rewrite IH. unfold has_url.
  destruct item; try discriminate; simpl; reflexivity.
Qed.

Lemma with_subtitle_url_ok (items kept : list jsval) :
  with_subtitle_url items = Ok kept ->
  Forall (fun item => nullish item = false) items.
Proof.
  revert kept. induction items as [|item items IH]; intros kept Hk; [constructor|].
  simpl in Hk.
  destruct (get item "subtitle_url") as [u| |] eqn:Hu; [|discriminate..].
  destruct (with_subtitle_url items) as [kept'| |]; [|discriminate..].
  constructor; [|by eapply IH]. by destruct item.
Qed.

(** X2. The filter of [getSubtitleList] succeeds exactly when no entry of
    the list is [null] or [undefined], and then keeps, in their order,
    the entries whose [subtitle_url] is truthy: an entry without the
    property, or with an empty one, is left out. *)
Theorem with_subtitle_url_spec (items kept : list jsval) :
  with_subtitle_url items = Ok kept <->
  Forall (fun item => nullish item = false) items
  /\ kept = List.filter has_url items.
Proof.
  split.
  - intros Hk. pose proof (with_subtitle_url_ok items kept Hk) as Hall.
    split; [exact Hall|]. rewrite (with_subtitle_url_filter items Hall) in Hk.
    by injection Hk.
  - intros [Hall ->]. by apply with_subtitle_url_filter.
Qed.

Lemma get_nullish (v : jsval) (k : string) :
  nullish v = true -> get v k = Throw (TypeError (read_fault v k)).
Proof. by destruct v. Qed.

Lemma with_subtitle_url_nullish (pre post : list jsval) (item : jsval) :
  Forall (fun item => nullish item = false) pre ->
  nullish item = true ->
  with_subtitle_url (pre ++ item :: post)
  = Throw (TypeError (read_fault item "subtitle_url")).
Proof.
  intros Hpre Hnull. induction Hpre as [|x pre Hx _ IH]; simpl.
  - by rewrite (get_nullish item "subtitle_url" Hnull).
  - rewrite IH. by destruct x.
Qed.

(** X3. [getSubtitleList] on an envelope with [code] zero whose
    [data.subtitle.subtitles] is an array: it records one call, with
    credentials, for the texts of [aid] and [cid]; when no entry is
    [null] or [undefined] it comes back with the entries whose
    [subtitle_url] is truthy, and when one is, it throws the engine's
    [TypeError] for reading [subtitle_url] off the first such entry: the
    one for [undefined] or the one for [null], as the entry is. *)
Theorem getSubtitleList_envelope
        (aid cid result code d subtitle : jsval) (aid_text cid_text : string)
        (items : list jsval) (s : service) :
  js_String aid = Ok aid_text ->
  js_String cid = Ok cid_text ->
  net (tracks_call aid cid) = Body result ->
  get result "code" = Ok code ->
  differs_from_0 code = false ->
  get result "data" = Ok d ->
  get d "subtitle" = Ok subtitle ->
  get subtitle "subtitles" = Ok (JArr items) ->
  fetched (getSubtitleList aid cid s).2
  = fetched s ++ [Fetch ("https://api.bilibili.com/x/player/wbi/v2?aid=" +:+ aid_text
                         +:+ "&cid=" +:+ cid_text) true]
  /\ (Forall (fun item => nullish item = false) items ->
      (getSubtitleList aid cid s).1 = Ok (List.filter has_url items))
  /\ (forall pre item post,
        items = pre ++ item :: post ->
        Forall (fun item => nullish item = false) pre ->
        nullish item = true ->
        (getSubtitleList aid cid s).1
        = Throw (TypeError (match item with
                            | JNull => ReadOfNull "subtitle_url"
                            | _ => ReadOfUndefined "subtitle_url"
                            end))).
Proof.
  intros Haid Hcid Hnet Hcode Hzero Hd Hsubtitle Htracks.
  split.
  { rewrite (getSubtitleList_state aid cid aid_text cid_text) by done.
    cbn [fetched set_fetched].
    by rewrite (tracks_call_rendered aid cid aid_text cid_text). }
  assert ((getSubtitleList aid cid s).1 = with_subtitle_url items) as ->.
  { rewrite (tracks_call_rendered aid cid aid_text cid_text Haid Hcid) in Hnet.
    unfold getSubtitleList, bind, fetch_json, lift.
    rewrite Haid, Hcid. simpl.
    by rewrite Hnet, Hcode, Hzero, Hd, Hsubtitle, Htracks. }
  split.
  - apply with_subtitle_url_filter.
  - intros pre item post -> Hpre Hnull.
    by apply with_subtitle_url_nullish.
Qed.

(** *** Requests that fail on the way *)

Lemma bind_throw {A B : Type} (m : M A) (k : A -> M B) (s : service) (e : exn) :
  (m s).1 = Throw e -> bind m k s = (Throw e, (m s).2).
Proof. unfold bind. destruct (m s) as [o s']; simpl. by intros ->. Qed.

Lemma bind_lift_throw {A B : Type} (o : outcome A) (k : A -> M B) (s : service) (e : exn) :
  o = Throw e -> bind (lift o) k s = (Throw e, s).
Proof. by intros ->. Qed.

(** X4. A request whose [videoUrl] is missing, or is no text, is answered
    like any other failure: one error response with the text of the
    engine's [TypeError] for [url.match(..)], and nothing is fetched.
    The error is the read off [undefined] when [videoUrl] is missing, the
    read off [null] when it is [null], and "not a function" for any other
    value that is no text. *)
Theorem videoUrl_not_text (fs : list (string * jsval)) (s : service) :
  (forall u, field "videoUrl" fs <> JStr u) ->
  exists f : fault,
    f = match field "videoUrl" fs with
        | JUndefined => ReadOfUndefined "match"
        | JNull => ReadOfNull "match"
        | _ => NotAFunction "url.match"
        end
    /\ (handleSubtitleRequest (JObj fs) s).1 = Ok tt
    /\ fetched (handleSubtitleRequest (JObj fs) s).2 = fetched s
    /\ handed (error_response (field "requestId" fs) (error_toString (TypeError f)))
              s (handleSubtitleRequest (JObj fs) s).2.
Proof.
  intros Hno.
  eexists. split; [reflexivity|].
  apply (handleSubtitleRequest_failing (JObj fs) (field "requestId" fs)
           (field "videoUrl" fs) _ s
           (log_entry (Line "开始处理字幕请求") s)).
  - apply get_of_object.
  - apply get_of_object.
  - unfold handleSubtitleRequest_try.
    rewrite (bind_lift_ok _ _ _ _ (get_of_object fs "videoUrl")).
    apply bind_lift_throw.
    destruct (field "videoUrl" fs) as [| |b|n|u|l|l] eqn:Hv; try reflexivity.
    by destruct (Hno u).
Qed.

(** the [try] block when the metadata stage throws *)
Lemma handleSubtitleRequest_try_metadata_throws
      (request videoUrl : jsval) (bvid : string) (e : exn) (s : service) :
  get request "videoUrl" = Ok videoUrl ->
  extractBVID videoUrl = Ok bvid ->
  (getVideoInfo bvid (log_entry (Line "提取BV号成功") s)).1 = Throw e ->
  exists s1 : service,
    fetched s1 = fetched s ++ [view_call bvid]
    /\ handleSubtitleRequest_try request s = (Throw e, s1).
Proof.
  intros Hurl Hbvid Hthrow.
  exists (getVideoInfo bvid (log_entry (Line "提取BV号成功") s)).2. split.
  - by rewrite getVideoInfo_state.
  - unfold handleSubtitleRequest_try.
    rewrite (bind_lift_ok _ _ _ _ Hurl), (bind_lift_ok _ _ _ _ Hbvid), bind_log.
    by rewrite (bind_throw _ _ _ _ Hthrow).
Qed.

(** X5. When the metadata API answers with a [code] other than zero (or
    with none), and [String(result.message)] gives the text [text], the
    request is answered by one error response whose text is
    [Error: 获取视频信息失败: ] followed by [text]; the metadata call is the
    only call made. *)
Theorem metadata_failure_short_circuit
        (fs : list (string * jsval)) (bvid : string)
        (result code message : jsval) (text : string) (s : service) :
  extractBVID (field "videoUrl" fs) = Ok bvid ->
  net (view_call bvid) = Body result ->
  get result "code" = Ok code ->
  differs_from_0 code = true ->
  get result "message" = Ok message ->
  js_String message = Ok text ->
  (handleSubtitleRequest (JObj fs) s).1 = Ok tt
  /\ fetched (handleSubtitleRequest (JObj fs) s).2 = fetched s ++ [view_call bvid]
  /\ handed (error_response (field "requestId" fs)
                            ("Error: 获取视频信息失败: " +:+ text))
            s (handleSubtitleRequest (JObj fs) s).2.
Proof.
  intros Hbvid Hnet Hcode Hne Hmessage Htext.
  assert (forall s0, (getVideoInfo bvid s0).1
                     = Throw (Error ("获取视频信息失败: " +:+ text))) as Hthrow.
  { intros s0. rewrite (getVideoInfo_api_failure bvid result code message s0) by done.
    by rewrite Htext. }
  destruct (handleSubtitleRequest_try_metadata_throws
              (JObj fs) _ bvid _ (log_entry (Line "开始处理字幕请求") s)
              (get_of_object fs "videoUrl") Hbvid (Hthrow _))
    as (s1 & Hfetched & Htry).
  destruct (handleSubtitleRequest_failing
              (JObj fs) (field "requestId" fs) (field "videoUrl" fs) _ s s1
              (get_of_object fs "videoUrl") (get_of_object fs "requestId") Htry)
    as (Hok & Hf & Hhanded).
  split; [exact Hok|]. split; [by rewrite Hf, Hfetched|].
  rewrite Error_text in Hhanded by done. exact Hhanded.
Qed.

(** X6. When the metadata call is rejected (the network is down, the
    body is no JSON), the request is answered by one error response
    whose text is the rendering of the rejection; no other call is
    made. *)
Theorem metadata_rejection_short_circuit
        (fs : list (string * jsval)) (bvid : string) (e : exn) (s : service) :
  extractBVID (field "videoUrl" fs) = Ok bvid ->
  net (view_call bvid) = Rejected e ->
  (handleSubtitleRequest (JObj fs) s).1 = Ok tt
  /\ fetched (handleSubtitleRequest (JObj fs) s).2 = fetched s ++ [view_call bvid]
  /\ handed (error_response (field "requestId" fs) (error_toString e))
            s (handleSubtitleRequest (JObj fs) s).2.
Proof.
  intros Hbvid Hnet.
  assert (forall s0, (getVideoInfo bvid s0).1 = Throw e) as Hthrow.
  { intros s0. unfold getVideoInfo, bind, fetch_json. fold (view_call bvid).
    by rewrite Hnet. }
  destruct (handleSubtitleRequest_try_metadata_throws
              (JObj fs) _ bvid e (log_entry (Line "开始处理字幕请求") s)
              (get_of_object fs "videoUrl") Hbvid (Hthrow _))
    as (s1 & Hfetched & Htry).
  destruct (handleSubtitleRequest_failing
              (JObj fs) (field "requestId" fs) (field "videoUrl" fs) e s s1
              (get_of_object fs "videoUrl") (get_of_object fs "requestId") Htry)
    as (Hok & Hf & Hhanded).
  split; [exact Hok|]. split; [by rewrite Hf, Hfetched|]. exact Hhanded.
Qed.

(** X7. When the caption-list API answers with a [code] other than zero,
    and [String(result.message)] gives the text [text], the request is
    answered by one error response whose text is
    [Error: 获取字幕列表失败: ] followed by [text]; two calls were made and
    no caption document is fetched. *)
Theorem caption_list_failure_short_circuit
        (fs : list (string * jsval)) (bvid : string)
        (videoInfo pages pageInfo aid cid result code message : jsval)
        (aid_text cid_text text : string) (s : service) :
  extractBVID (field "videoUrl" fs) = Ok bvid ->
  yields (getVideoInfo bvid) videoInfo ->
  get videoInfo "pages" = Ok pages ->
  first_of pages = Ok pageInfo ->
  get videoInfo "aid" = Ok aid ->
  get pageInfo "cid" = Ok cid ->
  js_String aid = Ok aid_text ->
  js_String cid = Ok cid_text ->
  net (tracks_call aid cid) = Body result ->
  get result "code" = Ok code ->
  differs_from_0 code = true ->
  get result "message" = Ok message ->
  js_String message = Ok text ->
  (handleSubtitleRequest (JObj fs) s).1 = Ok tt
  /\ fetched (handleSubtitleRequest (JObj fs) s).2
     = fetched s ++ [view_call bvid; tracks_call aid cid]
  /\ handed (error_response (field "requestId" fs)
                            ("Error: 获取字幕列表失败: " +:+ text))
            s (handleSubtitleRequest (JObj fs) s).2.
Proof.
  intros Hbvid Hinfo Hpages Hpage Haid Hcid Haid_text Hcid_text
         Hnet Hcode Hne Hmessage Htext.
  destruct (get_total _ _ "title" _ Hpages) as [title0 Htitle].
  set (s0 := log_entry (Line "开始处理字幕请求") s).
  set (s1 := log_entry (Line "提取BV号成功") s0).
  set (s2 := log_entry (Line "获取视频信息成功") (getVideoInfo bvid s1).2).
  assert ((getSubtitleList aid cid s2).1
          = Throw (Error ("获取字幕列表失败: " +:+ text))) as Hthrow.
  { rewrite (getSubtitleList_api_failure aid cid result code message aid_text cid_text s2)
      by done.
    by rewrite Htext. }
  assert (handleSubtitleRequest_try (JObj fs) s0
          = (Throw (Error ("获取字幕列表失败: " +:+ text)),
             (getSubtitleList aid cid s2).2)) as Htry.
  { unfold handleSubtitleRequest_try.
    rewrite (bind_lift_ok _ _ _ _ (get_of_object fs "videoUrl")),
      (bind_lift_ok _ _ _ _ Hbvid), bind_log.
    fold s1. rewrite (bind_ok _ _ _ _ (Hinfo s1)).
    rewrite (bind_lift_ok _ _ _ _ Htitle), (bind_lift_ok _ _ _ _ Haid), bind_log.
    fold s2.
    rewrite (bind_lift_ok _ _ _ _ Hpages), (bind_lift_ok _ _ _ _ Hpage),
      (bind_lift_ok _ _ _ _ Haid), (bind_lift_ok _ _ _ _ Hcid).
    by rewrite (bind_throw _ _ _ _ Hthrow). }
  destruct (handleSubtitleRequest_failing
              (JObj fs) (field "requestId" fs) (field "videoUrl" fs) _ s _
              (get_of_object fs "videoUrl") (get_of_object fs "requestId") Htry)
    as (Hok & Hf & Hhanded).
  split; [exact Hok|]. split.
  - rewrite Hf, (getSubtitleList_state aid cid aid_text cid_text) by done. subst s2.
    cbn [fetched set_fetched log_entry set_console].
    rewrite getVideoInfo_state. cbn [fetched set_fetched]. subst s1 s0.
    cbn [fetched log_entry set_console]. by rewrite <- app_assoc.
  - rewrite Error_text in Hhanded by done. exact Hhanded.
Qed.

(** X8. When the metadata lists no page ([pages] is an empty array, so
    that [pages[0]] is [undefined], or its first entry is [null]),
    reading [pageInfo.cid] throws: the request is answered by one error
    response with the text of that [TypeError] (the one for [undefined]
    or the one for [null], as [pages[0]] is), and the caption list is
    never asked for. *)
Theorem no_page_short_circuit
        (fs : list (string * jsval)) (bvid : string)
        (videoInfo pages pageInfo : jsval) (s : service) :
  extractBVID (field "videoUrl" fs) = Ok bvid ->
  yields (getVideoInfo bvid) videoInfo ->
  get videoInfo "pages" = Ok pages ->
  first_of pages = Ok pageInfo ->
  nullish pageInfo = true ->
  (handleSubtitleRequest (JObj fs) s).1 = Ok tt
  /\ fetched (handleSubtitleRequest (JObj fs) s).2 = fetched s ++ [view_call bvid]
  /\ handed (error_response
               (field "requestId" fs)
               (error_toString (TypeError (match pageInfo with
                                           | JNull => ReadOfNull "cid"
                                           | _ => ReadOfUndefined "cid"
                                           end))))
            s (handleSubtitleRequest (JObj fs) s).2.
Proof.
  intros Hbvid Hinfo Hpages Hpage Hnull.
  destruct (get_total _ _ "title" _ Hpages) as [title0 Htitle].
  destruct (get_total _ _ "aid" _ Hpages) as [aid Haid].
  pose proof (get_nullish pageInfo "cid" Hnull) as Hcid.
  set (s0 := log_entry (Line "开始处理字幕请求") s).
  set (s1 := log_entry (Line "提取BV号成功") s0).
  set (s2 := log_entry (Line "获取视频信息成功") (getVideoInfo bvid s1).2).
  assert (handleSubtitleRequest_try (JObj fs) s0
          = (Throw (TypeError (read_fault pageInfo "cid")), s2)) as Htry.
  { unfold handleSubtitleRequest_try.
    rewrite (bind_lift_ok _ _ _ _ (get_of_object fs "videoUrl")),
      (bind_lift_ok _ _ _ _ Hbvid), bind_log.
    fold s1. rewrite (bind_ok _ _ _ _ (Hinfo s1)).
    rewrite (bind_lift_ok _ _ _ _ Htitle), (bind_lift_ok _ _ _ _ Haid), bind_log.
    fold s2.
    rewrite (bind_lift_ok _ _ _ _ Hpages), (bind_lift_ok _ _ _ _ Hpage),
      (bind_lift_ok _ _ _ _ Haid).
    by rewrite (bind_lift_throw _ _ _ _ Hcid). }
  destruct (handleSubtitleRequest_failing
              (JObj fs) (field "requestId" fs) (field "videoUrl" fs) _ s _
              (get_of_object fs "videoUrl") (get_of_object fs "requestId") Htry)
    as (Hok & Hf & Hhanded).
  split; [exact Hok|]. split; [|exact Hhanded].
  rewrite Hf. subst s2. cbn [fetched log_entry set_console].
  rewrite getVideoInfo_state. by subst s1 s0.
Qed.

Lemma downloadSubtitle_ok (subtitleInfo v : jsval) (s : service) :
  (downloadSubtitle subtitleInfo s).1 = Ok v ->
  exists u : string,
    get subtitleInfo "subtitle_url" = Ok (JStr u)
    /\ net (Fetch (secure_url u) false) = Body v
    /\ (downloadSubtitle subtitleInfo s).2
       = set_fetched (fetched s ++ [Fetch (secure_url u) false]) s.
Proof.
  unfold downloadSubtitle, bind, lift, throw, fetch_json.
  destruct (get subtitleInfo "subtitle_url") as [url| |]; simpl; [|discriminate..].
  destruct url as [| |b|n|u|l|l]; simpl; try discriminate.
  destruct (net _) as [v'| |] eqn:Hnet; simpl; [|discriminate..].
  intros [= ->]. by exists u.
Qed.

(** X9. When every call succeeds but the caption document is the JSON
    [null], the request is answered by an error response (the text of the
    [TypeError] for reading [body] off [null]), not by an empty
    transcript; all three calls were made. *)
Theorem null_caption_document
        (fs : list (string * jsval)) (bvid : string)
        (videoInfo pages pageInfo aid cid first subtitleData : jsval)
        (rest : list jsval) (s : service) :
  extractBVID (field "videoUrl" fs) = Ok bvid ->
  yields (getVideoInfo bvid) videoInfo ->
  get videoInfo "pages" = Ok pages ->
  first_of pages = Ok pageInfo ->
  get videoInfo "aid" = Ok aid ->
  get pageInfo "cid" = Ok cid ->
  yields (getSubtitleList aid cid) (first :: rest) ->
  yields (downloadSubtitle first) subtitleData ->
  subtitleData = JNull ->
  exists u : string,
    get first "subtitle_url" = Ok (JStr u)
    /\ (handleSubtitleRequest (JObj fs) s).1 = Ok tt
    /\ fetched (handleSubtitleRequest (JObj fs) s).2
       = fetched s ++ [view_call bvid; tracks_call aid cid; Fetch (secure_url u) false]
    /\ handed (error_response (field "requestId" fs)
                              (error_toString (TypeError (ReadOfNull "body"))))
              s (handleSubtitleRequest (JObj fs) s).2.
Proof.
  intros Hbvid Hinfo Hpages Hpage Haid Hcid Hlist Hdoc Hnull.
  set (s0 := log_entry (Line "开始处理字幕请求") s).
  destruct (handleSubtitleRequest_try_to_list
              (JObj fs) _ bvid videoInfo pages pageInfo aid cid (first :: rest) s0
              (get_of_object fs "videoUrl") Hbvid Hinfo Hpages Hpage Haid Hcid Hlist)
    as (s1 & _ & Hfetched & Htry).
  set (s2 := log_entry (Line "获取字幕列表成功") s1).
  destruct (downloadSubtitle_ok first subtitleData s2 (Hdoc s2)) as (u & Hu & _ & Hstate).
  assert (get subtitleData "body" = Throw (TypeError (ReadOfNull "body"))) as Hbody
      by by rewrite Hnull.
  assert (handleSubtitleRequest_try (JObj fs) s0
          = (Throw (TypeError (ReadOfNull "body")), (downloadSubtitle first s2).2))
    as Htry'.
  { rewrite Htry, bind_log. fold s2. rewrite (bind_ok _ _ _ _ (Hdoc s2)).
    by rewrite (bind_lift_throw _ _ _ _ Hbody). }
  destruct (handleSubtitleRequest_failing
              (JObj fs) (field "requestId" fs) (field "videoUrl" fs) _ s _
              (get_of_object fs "videoUrl") (get_of_object fs "requestId") Htry')
    as (Hok & Hf & Hhanded).
  exists u. split; [exact Hu|]. split; [exact Hok|]. split; [|exact Hhanded].
  rewrite Hf, Hstate. subst s2. cbn [fetched set_fetched log_entry set_console].
  rewrite Hfetched. subst s0. cbn [fetched log_entry set_console].
  by rewrite <- app_assoc.
Qed.

(** *** The calls of a request *)

Lemma trace_from_nil (n : nat) : trace_from n [].
Proof. exists EmptyString, JUndefined, JUndefined, EmptyString. apply prefix_nil. Qed.

Lemma Traces_lift {A : Type} (o : outcome A) :
  Traces (fun l => l = []) (lift o : M A).
Proof. intros s. exists []. by rewrite app_nil_r. Qed.

Lemma Traces_log (text : string) : Traces (fun l => l = []) (log text : M unit).
Proof. intros s. exists []. by rewrite app_nil_r. Qed.

Lemma Traces_sendResponse (r : SubtitleResponse) :
  Traces (fun l => l = []) (sendResponse r).
Proof. intros s. exists []. by rewrite app_nil_r, sendResponse_fetched. Qed.

Lemma Traces_weaken {A : Type} (T T' : list fetch_call -> Prop) (m : M A) :
  (forall l, T l -> T' l) -> Traces T m -> Traces T' m.
Proof. intros HT Hm s. destruct (Hm s) as (l & Hl & Hm'). exists l. auto. Qed.

Lemma Traces_bind_quiet {A B : Type} (T : list fetch_call -> Prop)
      (m : M A) (k : A -> M B) :
  Traces (fun l => l = []) m -> (forall a, Traces T (k a)) -> T [] ->
  Traces T (bind m k).
Proof.
  intros Hm Hk Hnil s. unfold bind.
  destruct (Hm s) as (l & Hl & ->). rewrite app_nil_r in Hl.
  destruct (m s) as [[a|e|] s1]; simpl in *.
  - destruct (Hk a s1) as (l & Hl' & HT). exists l. by rewrite Hl', Hl.
  - exists []. by rewrite app_nil_r.
  - exists []. by rewrite app_nil_r.
Qed.

Lemma Traces_bind_call {A B : Type} (T : list fetch_call -> Prop)
      (c : fetch_call) (m : M A) (k : A -> M B) :
  (forall s, fetched (m s).2 = fetched s ++ [c]) ->
  (forall a, Traces T (k a)) -> T [] ->
  Traces (fun l => exists l', l = c :: l' /\ T l') (bind m k).
Proof.
  intros Hm Hk Hnil s. unfold bind. specialize (Hm s).
  destruct (m s) as [[a|e|] s1]; simpl in *.
  - destruct (Hk a s1) as (l & Hl' & HT). exists (c :: l).
    split; [|by exists l]. by rewrite Hl', Hm, <- app_assoc.
  - exists [c]. split; [done|]. by exists [].
  - exists [c]. split; [done|]. by exists [].
Qed.

Lemma Traces_bind_call_or_stop {A B : Type} (T : list fetch_call -> Prop)
      (c : fetch_call) (m : M A) (k : A -> M B) :
  (forall s, fetched (m s).2 = fetched s ++ [c]
             \/ ((m s).2 = s /\ forall a, (m s).1 <> Ok a)) ->
  (forall a, Traces T (k a)) -> T [] ->
  Traces (fun l => l = [] \/ exists l', l = c :: l' /\ T l') (bind m k).
Proof.
  intros Hm Hk Hnil s. unfold bind. specialize (Hm s).
  destruct (m s) as [[a|e|] s1]; simpl in *.
  - destruct Hm as [Hm | [_ Hno]]; [|by destruct (Hno a)].
    destruct (Hk a s1) as (l & Hl' & HT). exists (c :: l).
    split; [|right; by exists l]. by rewrite Hl', Hm, <- app_assoc.
  - destruct Hm as [Hm | [-> _]].
    + exists [c]. split; [done|]. right. by exists [].
    + exists []. split; [by rewrite app_nil_r|by left].
  - destruct Hm as [Hm | [-> _]].
    + exists [c]. split; [done|]. right. by exists [].
    + exists []. split; [by rewrite app_nil_r|by left].
Qed.

Lemma getSubtitleList_call_or_stop (aid cid : jsval) (s : service) :
  fetched (getSubtitleList aid cid s).2 = fetched s ++ [tracks_call aid cid]
  \/ ((getSubtitleList aid cid s).2 = s
      /\ forall l, (getSubtitleList aid cid s).1 <> Ok l).
Proof.
  destruct (js_String aid) as [aid_text| |] eqn:Haid;
    [destruct (js_String cid) as [cid_text| |] eqn:Hcid|..].
  - left. by rewrite (getSubtitleList_state aid cid aid_text cid_text).
  - right. apply getSubtitleList_unrendered. intros a c [_ Hc]. congruence.
  - right. apply getSubtitleList_unrendered. intros a c [_ Hc]. congruence.
  - right. apply getSubtitleList_unrendered. intros a c [Ha _]. congruence.
  - right. apply getSubtitleList_unrendered. intros a c [Ha _]. congruence.
Qed.

Lemma Traces_then_quiet {A B : Type} (T : list fetch_call -> Prop)
      (m : M A) (k : A -> M B) :
  Traces T m -> (forall a, Traces (fun l => l = []) (k a)) -> Traces T (bind m k).
Proof.
  intros Hm Hk s. unfold bind. destruct (Hm s) as (l & Hl & HT).
  destruct (m s) as [[a|e|] s1]; simpl in *; [|by exists l..].
  destruct (Hk a s1) as (l' & Hl' & Hnil). subst l'. exists l.
  by rewrite Hl', app_nil_r.
Qed.

Lemma Traces_try_catch {A : Type} (T : list fetch_call -> Prop)
      (body : M A) (handler : exn -> M A) :
  Traces T body -> (forall e, Traces (fun l => l = []) (handler e)) ->
  Traces T (try_catch body handler).
Proof.
  intros Hb Hh s. unfold try_catch. destruct (Hb s) as (l & Hl & HT).
  destruct (body s) as [[a|e|] s1]; simpl in *; [by exists l| |by exists l].
  destruct (Hh e s1) as (l' & Hl' & Hnil). subst l'. exists l.
  by rewrite Hl', app_nil_r.
Qed.

Ltac silent_calls :=
  repeat first
    [ apply Traces_lift
    | apply Traces_log
    | apply Traces_sendResponse
    | apply Traces_bind_quiet; [| intros ? | reflexivity] ].

Lemma Traces_downloadSubtitle (subtitleInfo : jsval) :
  Traces (trace_from 2) (downloadSubtitle subtitleInfo).
Proof.
  intros s. unfold downloadSubtitle, bind, lift, throw.
  destruct (get subtitleInfo "subtitle_url") as [url| |]; simpl;
    try (exists []; split; [by rewrite app_nil_r | apply trace_from_nil]).
  destruct url as [| |b|n|u|l|l]; simpl;
    try (exists []; split; [by rewrite app_nil_r | apply trace_from_nil]).
  exists [Fetch (secure_url u) false]. split.
  - unfold fetch_json. by destruct (net _).
  - by exists EmptyString, JUndefined, JUndefined, u.
Qed.

Lemma Traces_handleSubtitleRequest_try (request : jsval) :
  Traces (trace_from 0) (handleSubtitleRequest_try request).
Proof.
  unfold handleSubtitleRequest_try.
  apply Traces_bind_quiet; [apply Traces_lift | intros videoUrl | apply trace_from_nil].
  apply Traces_bind_quiet; [apply Traces_lift | intros bvid | apply trace_from_nil].
  apply Traces_bind_quiet; [apply Traces_log | intros _ | apply trace_from_nil].
  eapply Traces_weaken;
    [|apply (Traces_bind_call (trace_from 1) (view_call bvid));
      [intros s; by rewrite getVideoInfo_state | intros videoInfo | apply trace_from_nil]].
  { intros l (l' & -> & (b' & aid & cid & u & Hl')).
    exists bvid, aid, cid, u. by apply prefix_cons. }
  do 2 (apply Traces_bind_quiet; [apply Traces_lift | intros ? | apply trace_from_nil]).
  apply Traces_bind_quiet; [apply Traces_log | intros _ | apply trace_from_nil].
  apply Traces_bind_quiet; [apply Traces_lift | intros pages | apply trace_from_nil].
  apply Traces_bind_quiet; [apply Traces_lift | intros pageInfo | apply trace_from_nil].
  apply Traces_bind_quiet; [apply Traces_lift | intros aid | apply trace_from_nil].
  apply Traces_bind_quiet; [apply Traces_lift | intros cid | apply trace_from_nil].
  eapply Traces_weaken;
    [|apply (Traces_bind_call_or_stop (trace_from 2) (tracks_call aid cid));
      [intros s; apply getSubtitleList_call_or_stop | intros subtitleList
      | apply trace_from_nil]].
  { intros l [-> | (l' & -> & (b' & aid' & cid' & u & Hl'))];
      [apply trace_from_nil|].
    exists EmptyString, aid, cid, u. by apply prefix_cons. }
  destruct subtitleList as [|first rest].
  - eapply Traces_weaken; [|apply Traces_lift]. intros l ->. apply trace_from_nil.
  - apply Traces_bind_quiet; [apply Traces_log | intros _ | apply trace_from_nil].
    apply Traces_then_quiet; [apply Traces_downloadSubtitle|].
    intros subtitleData. silent_calls.
Qed.

Lemma Traces_handleSubtitleRequest (request : jsval) :
  Traces request_trace (handleSubtitleRequest request).
Proof.
  unfold handleSubtitleRequest.
  apply Traces_bind_quiet; [apply Traces_lift | intros _ | apply (trace_from_nil 0)].
  apply Traces_bind_quiet; [apply Traces_log | intros _ | apply (trace_from_nil 0)].
  apply Traces_try_catch; [apply Traces_handleSubtitleRequest_try|].
  intros e. unfold handleSubtitleRequest_catch. silent_calls.
Qed.

(** X10. Whatever the request and however far it gets, the calls of
    [handleSubtitleRequest] are an initial part of: the metadata call,
    the caption-list call, the caption-document call.  So there are at
    most three, in that order, the first two with credentials and the
    third without. *)
Theorem request_calls_in_order (request : jsval) (s : service) :
  exists l : list fetch_call,
    fetched (handleSubtitleRequest request s).2 = fetched s ++ l
    /\ request_trace l
    /\ (length l <= 3)%nat
    /\ forall (i : nat) (c : fetch_call),
         l !! i = Some c -> with_credentials c = bool_decide (i < 2)%nat.
Proof.
  destruct (Traces_handleSubtitleRequest request s) as (l & Hl & Htrace).
  exists l. split; [exact Hl|]. split; [exact Htrace|].
  destruct Htrace as (bvid & aid & cid & u & Hprefix). split.
  - apply prefix_length in Hprefix. exact Hprefix.
  - intros i c Hi. pose proof (prefix_lookup_Some _ _ _ _ Hi Hprefix) as Hfull.
    destruct i as [|[|[|i]]]; simpl in Hfull; try discriminate;
      by injection Hfull as <-.
Qed.

Lemma secure_url_is_secure (u : string) :
  Text.startsWith "http://" (secure_url u) = false.
Proof.
  unfold secure_url. destruct (Text.startsWith "http://" u) eqn:Hp; [|exact Hp].
  apply prefix_iff in Hp as [rest ->].
  rewrite replace_at_head by apply prefix_append.
  by rewrite skip_append.
Qed.

(** X11. [handleSubtitleRequest] never fetches a URL that begins with
    [http://]: the two API URLs are [https://] ones and the caption URL
    goes through the upgrade. *)
Theorem no_insecure_fetch (request : jsval) (s : service) :
  exists l : list fetch_call,
    fetched (handleSubtitleRequest request s).2 = fetched s ++ l
    /\ Forall (fun c => Text.startsWith "http://" (fetch_url c) = false) l.
Proof.
  destruct (Traces_handleSubtitleRequest request s)
    as (l & Hl & (bvid & aid & cid & u & Hprefix)).
  exists l. split; [exact Hl|].
  apply Forall_forall. intros c Hc.
  pose proof (elem_of_prefix _ _ c Hc Hprefix) as Hfull.
  apply elem_of_cons in Hfull as [-> | Hfull]; [reflexivity|].
  apply elem_of_cons in Hfull as [-> | Hfull]; [reflexivity|].
  apply list_elem_of_singleton in Hfull as ->. apply secure_url_is_secure.
Qed.

(** *** Every request gets its answer *)

Lemma handleSubtitleRequest_no_throw
      (fs : list (string * jsval)) (s : service) (e : exn) :
  (handleSubtitleRequest (JObj fs) s).1 <> Throw e.
Proof.
  unfold handleSubtitleRequest.
  rewrite (bind_lift_ok _ _ _ _ (get_of_object fs "videoUrl")), bind_log.
  unfold try_catch.
  destruct (handleSubtitleRequest_try (JObj fs) _) as [[[]|e'|] s1]; simpl;
    [discriminate| |discriminate].
  rewrite (handleSubtitleRequest_catch_run (JObj fs) _ _ e' s1
             (get_of_object fs "videoUrl") (get_of_object fs "requestId")).
  by rewrite sendResponse_ok.
Qed.

Lemma answered_or_suspended_aux (fs : list (string * jsval)) (s : service) :
  ((handleSubtitleRequest (JObj fs) s).1 = Ok tt
   /\ exists r, answers_to (JObj fs) r /\ handed r s (handleSubtitleRequest (JObj fs) s).2)
  \/ ((handleSubtitleRequest (JObj fs) s).1 = Pending
      /\ nothing_handed s (handleSubtitleRequest (JObj fs) s).2).
Proof.
  pose proof (Answers_handleSubtitleRequest (JObj fs) s) as Hanswers.
  pose proof (handleSubtitleRequest_no_throw fs s) as Hno.
  destruct (handleSubtitleRequest (JObj fs) s).1 as [[]|e|].
  - left. by split.
  - by destruct (Hno e).
  - right. by split.
Qed.

(** X12. [handleSubtitleRequest] on a decoded request object never
    throws (its promise never rejects).  Either it returns, and then it
    has handed over exactly one response, with the tag, the request's
    identifier and one of the two payloads; or it stays suspended on a
    call that never settles, and then it has handed over none. *)
Theorem answered_or_suspended (fs : list (string * jsval)) (s : service) :
  (forall e, (handleSubtitleRequest (JObj fs) s).1 <> Throw e)
  /\
  (((handleSubtitleRequest (JObj fs) s).1 = Ok tt
   /\ exists r, answers_to (JObj fs) r /\ handed r s (handleSubtitleRequest (JObj fs) s).2)
  \/ ((handleSubtitleRequest (JObj fs) s).1 = Pending
      /\ nothing_handed s (handleSubtitleRequest (JObj fs) s).2)).
Proof.
  split.
  - apply handleSubtitleRequest_no_throw.
  - apply answered_or_suspended_aux.
Qed.

Lemma get_settles (v : jsval) (k : string) : get v k <> Pending.
Proof. by destruct v. Qed.

Lemma get_opt_settles (v : jsval) (k : string) : get_opt v k <> Pending.
Proof. unfold get_opt. destruct (nullish v); [done | apply get_settles]. Qed.

Lemma first_of_settles (v : jsval) : first_of v <> Pending.
Proof. by destruct v. Qed.

Lemma extractBVID_settles (v : jsval) : extractBVID v <> Pending.
Proof. destruct v; simpl; try done. by destruct (Text.bv_match s). Qed.

Lemma with_subtitle_url_settles (items : list jsval) :
  with_subtitle_url items <> Pending.
Proof.
  induction items as [|item items IH]; simpl; [done|].
  pose proof (get_settles item "subtitle_url") as Hget.
  destruct (get item "subtitle_url"); [|done..].
  by destruct (with_subtitle_url items).
Qed.

Lemma js_String_settles (v : jsval) : js_String v <> Pending.
Proof.
  revert v. fix IH 1. intros [| |[]|n|t|items|fs]; simpl; try discriminate.
  - revert items. fix IHl 1. intros [|x r]; [discriminate|].
    pose proof (IH x) as Hx. pose proof (IHl r) as Hr.
    destruct x as [| |b|n|t|l|fs]; try (destruct r; [discriminate|];
      match goal with
      | |- context [match ?j with Ok _ => _ | Throw _ => _ | Pending => _ end] =>
          destruct j; [discriminate|discriminate|done]
      end).
    + destruct (js_String (JBool b)); [|discriminate|done].
      destruct r; [discriminate|].
      match goal with
      | |- context [match ?j with Ok _ => _ | Throw _ => _ | Pending => _ end] =>
          destruct j; [discriminate|discriminate|done]
      end.
    + destruct (js_String (JArr l)); [|discriminate|done].
      destruct r; [discriminate|].
      match goal with
      | |- context [match ?j with Ok _ => _ | Throw _ => _ | Pending => _ end] =>
          destruct j; [discriminate|discriminate|done]
      end.
    + destruct (js_String (JObj fs)); [|discriminate|done].
      destruct r; [discriminate|].
      match goal with
      | |- context [match ?j with Ok _ => _ | Throw _ => _ | Pending => _ end] =>
          destruct j; [discriminate|discriminate|done]
      end.
  - by destruct (has_key "toString" fs).
Qed.

Lemma Settles_lift {A : Type} (o : outcome A) : o <> Pending -> Settles (lift o : M A).
Proof. by intros Ho s. Qed.

Lemma Settles_log (text : string) : Settles (log text : M unit).
Proof. by intros s. Qed.

Lemma Settles_sendResponse (r : SubtitleResponse) : Settles (sendResponse r).
Proof. intros s. by rewrite sendResponse_ok. Qed.

Lemma Settles_bind {A B : Type} (m : M A) (k : A -> M B) :
  Settles m -> (forall a, Settles (k a)) -> Settles (bind m k).
Proof.
  intros Hm Hk s. unfold bind. specialize (Hm s).
  destruct (m s) as [[a|e|] s1]; simpl in *; [apply Hk | done..].
Qed.

Lemma Settles_try_catch {A : Type} (body : M A) (handler : exn -> M A) :
  Settles body -> (forall e, Settles (handler e)) -> Settles (try_catch body handler).
Proof.
  intros Hb Hh s. unfold try_catch. specialize (Hb s).
  destruct (body s) as [[a|e|] s1]; simpl in *; [done | apply Hh | done].
Qed.

Lemma Settles_fetch_json (call : fetch_call) :
  network_settles -> Settles (fetch_json call).
Proof.
  intros Hnet s. unfold fetch_json. specialize (Hnet call).
  by destruct (net call).
Qed.

Ltac settles :=
  repeat first
    [ apply Settles_log
    | apply Settles_sendResponse
    | apply Settles_fetch_json; assumption
    | apply Settles_lift;
      first [ apply get_settles | apply get_opt_settles | apply first_of_settles
            | apply js_String_settles | apply extractBVID_settles | apply with_subtitle_url_settles
            | discriminate ]
    | apply Settles_bind; [|intros ?]
    | match goal with
      | |- Settles (if ?b then _ else _) => destruct b
      | |- Settles (match ?x with _ => _ end) => destruct x
      end ].

Lemma Settles_handleSubtitleRequest (request : jsval) :
  network_settles -> Settles (handleSubtitleRequest request).
Proof.
  intros Hnet. unfold handleSubtitleRequest.
  apply Settles_bind; [settles | intros _].
  apply Settles_bind; [settles | intros _].
  apply Settles_try_catch.
  - unfold handleSubtitleRequest_try, getVideoInfo, getSubtitleList,
      downloadSubtitle, throw. settles.
  - intros e. unfold handleSubtitleRequest_catch. settles.
Qed.

(** *** The request in pieces and in one run *)

Lemma Cut_bind {A : Type} (request : jsval) (waits : nat) (m : M A)
      (k : A -> M unit) (l : A -> M (option task)) :
  (forall a, Cut request waits (k a) (l a)) ->
  Cut request waits (bind m k) (bind m l).
Proof.
  intros Hk s. unfold Cut, guarded, try_catch, bind in *.
  destruct (m s) as [[a|e|] s1]; simpl.
  - apply Hk.
  - destruct (handleSubtitleRequest_catch request e s1) as [[[]|e'|] s2]; simpl;
      [by destruct waits|done..].
  - done.
Qed.

Lemma Cut_assoc {A B : Type} (request : jsval) (waits : nat) (m : M A)
      (f : A -> M B) (k : B -> M unit) (l : M (option task)) :
  Cut request waits (bind m (fun a => bind (f a) k)) l ->
  Cut request waits (bind (bind m f) k) l.
Proof.
  intros Hk s. rewrite <- (Hk s). unfold try_catch, bind.
  by destruct (m s) as [[a|e|] s1].
Qed.

Lemma Cut_throw {A : Type} (request : jsval) (waits : nat) (e : exn)
      (k : A -> M unit) :
  Cut request waits (bind (throw e) k) (throw e).
Proof.
  intros s. unfold guarded, try_catch, bind, throw, lift.
  destruct (handleSubtitleRequest_catch request e s) as [[[]|e'|] s2]; simpl;
    [by destruct waits|done..].
Qed.

Lemma Cut_throw_end (request : jsval) (waits : nat) (e : exn) :
  Cut request waits (throw e) (throw e).
Proof.
  intros s. unfold guarded, try_catch, bind, throw, lift.
  destruct (handleSubtitleRequest_catch request e s) as [[[]|e'|] s2]; simpl;
    [by destruct waits|done..].
Qed.

Lemma Cut_end (request : jsval) (waits : nat) (m : M unit) :
  (forall s e, (m s).1 <> Throw e) ->
  Cut request waits m (m ;; lift (Ok None)).
Proof.
  intros Hm s. unfold guarded, try_catch, bind, lift. specialize (Hm s).
  destruct (m s) as [[[]|e|] s1]; simpl in *; [by destruct waits| |done].
  by destruct (Hm e).
Qed.

Lemma Cut_fetch (request : jsval) (waits : nat) (call : fetch_call) (t : task)
      (k : jsval -> M unit) (lines : M (option task)) :
  awaited t = call ->
  handleSubtitleRequest_resume t (net call) = guarded request lines ->
  Cut request waits (bind (settled (net call)) k) lines ->
  Cut request (S waits) (bind (fetch_json call) k)
      (issue call ;; lift (Ok (Some t))).
Proof.
  intros Hcall Hresume Hk s.
  set (s1 := set_fetched (fetched s ++ [call]) s).
  transitivity (try_catch (bind (settled (net call)) k)
                          (handleSubtitleRequest_catch request) s1).
  { unfold try_catch, bind, fetch_json, settled, lift. fold s1.
    by destruct (net call). }
  rewrite (Hk s1).
  transitivity (drive (S waits) (Some t) s1); [|reflexivity].
  cbn [drive]. by rewrite Hcall, Hresume.
Qed.
Lemma Cut_send_log (request : jsval) (r : SubtitleResponse) (text : string) :
  Cut request 0 (sendResponse r ;; log text)
      (sendResponse r ;; log text ;; lift (Ok None)).
Proof.
  intros s. unfold guarded, try_catch, bind, lift, log, sendResponse.
  by destruct (ws_open s).
Qed.

Ltac cut_common := apply Cut_bind; intros ?.

Lemma Cut_handleSubtitleRequest_try (request : jsval) :
  Cut request 3 (handleSubtitleRequest_try request)
      (let* videoUrl := lift (get request "videoUrl") in
       let* bvid := lift (extractBVID videoUrl) in
       log "提取BV号成功" ;;
       let call := Fetch ("https://api.bilibili.com/x/web-interface/view?bvid=" +:+ bvid)
                         true in
       issue call ;;
       lift (Ok (Some (AwaitVideoInfo request call)))).
Proof.
  unfold handleSubtitleRequest_try. cbv zeta.
  do 3 cut_common.
  unfold getVideoInfo. apply Cut_assoc.
  eapply Cut_fetch; [reflexivity | reflexivity |].
  unfold after_getVideoInfo. cut_common. apply Cut_assoc. cut_common.
  do 8 cut_common.
  unfold getSubtitleList. apply Cut_assoc. cut_common. apply Cut_assoc. cut_common.
  apply Cut_assoc. cbv zeta.
  eapply Cut_fetch; [reflexivity | reflexivity |].
  unfold after_getSubtitleList. cut_common. apply Cut_assoc. cut_common.
  cut_common.
  match goal with |- Cut _ _ (match ?l with _ => _ end) _ => destruct l as [|first rest] end;
    [apply Cut_throw_end|].
  cut_common. unfold downloadSubtitle. apply Cut_assoc. cut_common.
  match goal with |- Cut _ _ (bind (match ?u with _ => _ end) _) _ => destruct u end;
    try apply Cut_throw.
  cbv zeta. eapply Cut_fetch; [reflexivity | reflexivity |].
  unfold after_downloadSubtitle. do 10 cut_common.
  apply Cut_send_log.
Qed.

Lemma uninterrupted_run (request : jsval) (s : service) :
  uninterrupted request s = handleSubtitleRequest request s.
Proof.
  unfold uninterrupted, handleSubtitleRequest, handleSubtitleRequest_begin.
  destruct (get request "videoUrl") as [videoUrl| |] eqn:Hurl; [|reflexivity..].
  pose proof (Cut_handleSubtitleRequest_try
                request (log_entry (Line "开始处理字幕请求") s)) as Hcut.
  cbv zeta in Hcut. rewrite Hurl in Hcut. symmetry. exact Hcut.
Qed.

(** X22. The pieces of [handleSubtitleRequest], run back to back with
    each call answered as soon as it is made, come to the run of the
    method from its first line to its last: the same outcome and the
    same service, for every request and on every host.  So what is
    proved of [handleSubtitleRequest] holds of a request that nothing
    interrupts. *)
Theorem uninterrupted_is_handleSubtitleRequest (request : jsval) (s : service) :
  uninterrupted request s = handleSubtitleRequest request s.
Proof. apply uninterrupted_run. Qed.

(** *** Requests that wait while the host goes on *)

Lemma Blind_lift {A : Type} (o : outcome A) : Blind (lift o : M A).
Proof. by intros l s. Qed.

Lemma Blind_log (text : string) : Blind (log text : M unit).
Proof. by intros l s. Qed.

Lemma Blind_issue (call : fetch_call) : Blind (issue call : M unit).
Proof. by intros l s. Qed.

Lemma Blind_sendResponse (r : SubtitleResponse) : Blind (sendResponse r).
Proof.
  intros l s. unfold sendResponse.
  change (ws_open (set_suspended l s)) with (ws_open s).
  by destruct (ws_open s).
Qed.

Lemma Blind_bind {A B : Type} (m : M A) (k : A -> M B) :
  Blind m -> (forall a, Blind (k a)) -> Blind (bind m k).
Proof.
  intros Hm Hk l s. unfold bind. rewrite (Hm l s).
  destruct (m s) as [[a|e|] s1]; simpl; [apply Hk | done..].
Qed.

Lemma Blind_try_catch {A : Type} (body : M A) (handler : exn -> M A) :
  Blind body -> (forall e, Blind (handler e)) -> Blind (try_catch body handler).
Proof.
  intros Hb Hh l s. unfold try_catch. rewrite (Hb l s).
  destruct (body s) as [[a|e|] s1]; simpl; [done | apply Hh | done].
Qed.

Ltac blind :=
  repeat first
    [ apply Blind_lift
    | apply Blind_log
    | apply Blind_issue
    | apply Blind_sendResponse
    | apply Blind_bind; [|intros ?]
    | apply Blind_try_catch; [|intros ?]
    | match goal with
      | |- Blind (if ?b then _ else _) => destruct b
      | |- Blind (match ?x with _ => _ end) => destruct x
      end
    | progress cbv zeta ].

Lemma Blind_handleSubtitleRequest_begin (request : jsval) :
  Blind (handleSubtitleRequest_begin request).
Proof.
  unfold handleSubtitleRequest_begin, guarded, handleSubtitleRequest_catch, throw.
  blind.
Qed.

Lemma Blind_handleSubtitleRequest_resume (t : task) (r : reply number) :
  Blind (handleSubtitleRequest_resume t r).
Proof.
  destruct t; unfold handleSubtitleRequest_resume, guarded,
    handleSubtitleRequest_catch, after_getVideoInfo, after_getSubtitleList,
    after_downloadSubtitle, settled, throw; blind.
Qed.

Lemma set_suspended_same (s : service) : set_suspended (suspended s) s = s.
Proof. by destruct s. Qed.

Lemma Blind_suspended {A : Type} (m : M A) (s : service) :
  Blind m -> suspended (m s).2 = suspended s.
Proof.
  intros Hm. specialize (Hm (suspended s) s). rewrite set_suspended_same in Hm.
  by rewrite Hm.
Qed.

Lemma delete_last (l : list task) (t : task) : delete (length l) (l ++ [t]) = l.
Proof. induction l as [|x l IH]; simpl; [done | by rewrite IH]. Qed.

Lemma run_idle (k n : nat) (s : service) :
  suspended s !! n = None -> run s (replicate k (Settled n)) = s.
Proof.
  intros Hn. induction k as [|k IH]; [done|].
  simpl. unfold run in IH. by rewrite Hn.
Qed.

Lemma resume_unsettled (t : task) (s : service) :
  (handleSubtitleRequest_resume t Unsettled s).1 = Pending.
Proof. by destruct t. Qed.

Lemma resumed_last (t : task) (r : reply number) (s : service) :
  resumed (length (suspended s)) t r (parked (Some t) s)
  = match handleSubtitleRequest_resume t r s with
    | (Ok o, s') => parked o s'
    | (_, s') => s'
    end.
Proof.
  unfold resumed, parked. cbn [suspended set_suspended].
  rewrite delete_last.
  change (set_suspended (suspended s) (set_suspended (suspended s ++ [t]) s))
    with (set_suspended (suspended s) s).
  rewrite set_suspended_same.
  by destruct (handleSubtitleRequest_resume t r s) as [[[t'|]|e|] s1].
Qed.

Lemma run_drive (waits : nat) (o : option task) (s : service) :
  (drive waits o s).1 <> Pending ->
  run (parked o s) (replicate waits (Settled (length (suspended s))))
  = (drive waits o s).2.
Proof.
  revert o s. induction waits as [|waits IH]; intros [t|] s Hdone;
    try (apply run_idle; by apply lookup_ge_None).
  - by destruct Hdone.
  - cbn [replicate]. unfold run. cbn [foldl]. fold (run (step (parked (Some t) s)
      (Settled (length (suspended s)))) (replicate waits (Settled (length (suspended s))))).
    cbn [drive] in *. unfold bind in *.
    pose proof (resume_unsettled t s) as Hun.
    pose proof (resumed_last t (net (awaited t)) s) as Hlast.
    pose proof (Blind_suspended _ s (Blind_handleSubtitleRequest_resume t (net (awaited t))))
      as Hsusp.
    assert (step (parked (Some t) s) (Settled (length (suspended s)))
            = match net (awaited t) with
              | Unsettled => parked (Some t) s
              | r => resumed (length (suspended s)) t r (parked (Some t) s)
              end) as ->.
    { cbn [step parked suspended set_suspended].
      by rewrite list_lookup_middle. }
    destruct (net (awaited t)) as [v|e|] eqn:Hnet.
    + rewrite Hlast.
      destruct (handleSubtitleRequest_resume t (Body v) s) as [[o'|e|] s1];
        simpl in *.
      * rewrite <- Hsusp. by apply IH.
      * apply run_idle. rewrite Hsusp. by apply lookup_ge_None.
      * by destruct Hdone.
    + rewrite Hlast.
      destruct (handleSubtitleRequest_resume t (Rejected e) s) as [[o'|e'|] s1];
        simpl in *.
      * rewrite <- Hsusp. by apply IH.
      * apply run_idle. rewrite Hsusp. by apply lookup_ge_None.
      * by destruct Hdone.
    + destruct (handleSubtitleRequest_resume t Unsettled s) as [[o'|e'|] s1];
        simpl in *; try discriminate. by destruct Hdone.
Qed.

Lemma Message_then_answers
      (i : nat) (data : string) (fs : list (string * jsval)) (s : service) :
  JSON_parse data = inr (JObj fs) ->
  field "type" fs = JStr "GET_SUBTITLE" ->
  has_socket i s = true ->
  (handleSubtitleRequest (JObj fs) (log_entry (Line "收到消息") s)).1 = Ok tt ->
  run s (Message i data :: replicate 3 (Settled (length (suspended s))))
  = (handleSubtitleRequest (JObj fs) (log_entry (Line "收到消息") s)).2.
Proof.
  intros Hdata Htype Hsock Hok.
  set (s0 := log_entry (Line "收到消息") s) in *.
  rewrite <- uninterrupted_run in Hok |- *.
  assert (forall l, run s (Message i data :: l) = run (handleMessage data s).2 l) as ->.
  { intros l. unfold run. cbn [foldl step]. by rewrite Hsock. }
  rewrite (handleMessage_request data fs s Hdata Htype). cbn [snd]. fold s0.
  pose proof (Blind_suspended _ s0 (Blind_handleSubtitleRequest_begin (JObj fs)))
    as Hsusp.
  unfold uninterrupted, bind, spawn in *.
  destruct (handleSubtitleRequest_begin (JObj fs) s0) as [[o|e|] s1];
    cbn [fst snd] in *; try discriminate.
  replace (suspended s) with (suspended s1) by (by rewrite Hsusp).
  rewrite <- (run_drive 3 o s1) by (rewrite Hok; discriminate).
  by destruct o.
Qed.

(** X13. On a host whose calls all settle, every text that decodes to a
    [GET_SUBTITLE] object is answered once the network has answered:
    after the message and the (at most three) answers to the calls of
    its request, exactly one response has been handed over, with the
    tag, the request's identifier and one of the two payloads. *)
Theorem every_request_answered
        (i : nat) (data : string) (fs : list (string * jsval)) (s : service) :
  network_settles ->
  JSON_parse data = inr (JObj fs) ->
  field "type" fs = JStr "GET_SUBTITLE" ->
  has_socket i s = true ->
  exists r,
    answers_to (JObj fs) r
    /\ handed r s (run s (Message i data
                          :: replicate 3 (Settled (length (suspended s))))).
Proof.
  intros Hnet Hdata Htype Hsock.
  set (s0 := log_entry (Line "收到消息") s).
  destruct (answered_or_suspended_aux fs s0) as [[Hok (r & Hr & Hhanded)] | [Hp _]].
  - exists r. split; [exact Hr|].
    rewrite (Message_then_answers i data fs s Hdata Htype Hsock Hok).
    eapply handed_after; [apply nothing_handed_log_entry | exact Hhanded].
  - by destruct (Settles_handleSubtitleRequest (JObj fs) Hnet s0).
Qed.

(** *** The message handler and the connection *)

(** X14. [handleMessage] never throws, whatever the text: a text that is
    no JSON, a decoded [null], an unknown tag and a request all make it
    return normally. *)
Theorem handleMessage_never_throws (data : string) (s : service) :
  (handleMessage data s).1 = Ok tt.
Proof.
  unfold handleMessage, try_catch, bind, lift, log, spawn.
  destruct (JSON_parse data) as [e|message]; simpl; [reflexivity|].
  destruct (get message "type") as [tag| |] eqn:Htag; simpl; [|reflexivity|].
  - destruct (is_text tag "GET_SUBTITLE"); [|done].
    by destruct (handleSubtitleRequest_begin message _) as [[[t|]|e|] s1].
  - by destruct (get_settles message "type").
Qed.

Lemma Ends_wire_closed (P : SubtitleResponse -> Prop) (m : M (option task))
      (s : service) :
  Ends P m -> ws_open s = false -> wire (m s).2 = wire s.
Proof.
  intros Hm Hclosed. specialize (Hm s). destruct (m s).1 as [[t|]|e|].
  - by destruct Hm as (_ & Hw & _).
  - destruct Hm as (r & _ & _ & Hr). rewrite Hclosed in Hr. by destruct Hr.
  - by destruct Hm as (_ & Hw & _).
  - by destruct Hm as (_ & Hw & _).
Qed.

Lemma wire_scheduleReconnect (s : service) : wire (scheduleReconnect s) = wire s.
Proof. unfold scheduleReconnect. by destruct (timer_set s). Qed.

Lemma wire_connect (c : construction) (s : service) : wire (connect c s) = wire s.
Proof.
  unfold connect. destruct (isConnecting s || ws_open s); [done|].
  destruct c; [done|]. by rewrite wire_scheduleReconnect.
Qed.

Lemma wire_onopen (s : service) : wire (onopen s) = wire s.
Proof.
  unfold onopen. destruct (timer_set _); [|done].
  by destruct (reconnectTimer _).
Qed.

(** X15. While the session is not open, nothing is transmitted,
    whatever the host does next: a message that arrives, the answer of
    the network that lets a waiting request go on and end, a socket
    event or a timeout all leave the frames given to the socket as they
    were.  The session is looked at when the response is sent, not when
    its request arrived: a request that arrived on an open session and
    ends on a closed one is not transmitted. *)
Theorem nothing_transmitted_while_closed (ev : event) (s : service) :
  ~ session_is_open s -> wire (step s ev) = wire s.
Proof.
  intros Hclosed.
  assert (ws_open s = false) as Hws.
  { destruct (ws_open s) eqn:Hopen; [|reflexivity].
    by apply ws_open_iff in Hopen. }
  destruct ev as [i|i|i|i data|h c|n|]; cbn [step].
  - destruct (has_socket i s); [|done]. by rewrite wire_onopen.
  - destruct (has_socket i s); [|done]. unfold onclose.
    by rewrite wire_scheduleReconnect.
  - destruct (has_socket i s); [|done]. unfold onerror.
    by rewrite wire_scheduleReconnect.
  - destruct (has_socket i s); [|done].
    unfold handleMessage, try_catch, bind, lift, log.
    destruct (JSON_parse data) as [e|message]; simpl; [reflexivity|].
    destruct (get message "type") as [tag| |] eqn:Htag; simpl; [|reflexivity..].
    destruct (is_text tag "GET_SUBTITLE"); simpl; [|reflexivity].
    pose proof (Ends_wire_closed _ _ (log_entry (Line "收到消息") s)
                  (Ends_handleSubtitleRequest_begin message) Hws) as Hw.
    unfold spawn.
    by destruct (handleSubtitleRequest_begin message _) as [[[t|]|e|] s1].
  - destruct (bool_decide (h ∈ timers s)); [|done].
    unfold reconnect_callback. by rewrite wire_connect.
  - destruct (suspended s !! n) as [t|]; [|done].
    assert (forall r, wire (resumed n t r s) = wire s) as Hresumed.
    { intros r. unfold resumed.
      pose proof (Ends_wire_closed _ _ (set_suspended (delete n (suspended s)) s)
                    (Ends_handleSubtitleRequest_resume t r) Hws) as Hw.
      by destruct (handleSubtitleRequest_resume t r _) as [[[t'|]|e|] s1]. }
    by destruct (net (awaited t)).
  - done.
Qed.

(** X16. Handling a message, whatever it is and however far its
    request gets, leaves the connection manager's state alone: the current
    socket, the reconnection handle, [isConnecting], the sockets and the
    scheduled timeouts are what they were. *)
Theorem message_leaves_connection_alone (i : nat) (data : string) (s : service) :
  ws (step s (Message i data)) = ws s
  /\ reconnectTimer (step s (Message i data)) = reconnectTimer s
  /\ isConnecting (step s (Message i data)) = isConnecting s
  /\ sockets (step s (Message i data)) = sockets s
  /\ timers (step s (Message i data)) = timers s.
Proof.
  simpl. destruct (has_socket i s); [|done].
  by destruct (handleMessage_same_connection data s) as (? & ? & ? & ? & ? & _).
Qed.

Lemma Continues_bind {A : Type} (request : jsval) (m : M A)
      (k : A -> M (option task)) :
  (forall a, Continues request (k a)) -> Continues request (bind m k).
Proof.
  intros Hk s t. unfold bind. destruct (m s) as [[a|e|] s1]; simpl;
    [apply Hk | discriminate..].
Qed.

Lemma Continues_lift (request : jsval) (o : outcome (option task)) :
  (forall t, o = Ok (Some t) -> request_of t = request) ->
  Continues request (lift o : M (option task)).
Proof. intros Ho s t. apply Ho. Qed.

Lemma Continues_guarded (request : jsval) (lines : M (option task)) :
  Continues request lines -> Continues request (guarded request lines).
Proof.
  intros Hl s t. unfold guarded, try_catch. specialize (Hl s t).
  destruct (lines s) as [[o|e|] s1]; simpl in *; [done| |done].
  unfold bind, lift.
  by destruct (handleSubtitleRequest_catch request e s1) as [[[]|e'|] s2].
Qed.

Ltac continues :=
  repeat first
    [ apply Continues_bind; intros ?
    | apply Continues_lift; intros ? Heq;
      first [discriminate Heq | by injection Heq as <-]
    | match goal with
      | |- Continues _ (if ?b then _ else _) => destruct b
      | |- Continues _ (match ?x with _ => _ end) => destruct x
      end
    | progress cbv zeta ].

Lemma Continues_handleSubtitleRequest_resume (t : task) (r : reply number) :
  Continues (request_of t) (handleSubtitleRequest_resume t r).
Proof.
  destruct t as [request call|request videoInfo call|request videoInfo call];
    cbn [request_of handleSubtitleRequest_resume]; apply Continues_guarded.
  - unfold after_getVideoInfo, throw. continues.
  - unfold after_getSubtitleList, throw. continues.
  - unfold after_downloadSubtitle. continues.
Qed.

Lemma guarded_no_throw (fs : list (string * jsval)) (lines : M (option task))
      (s : service) (e : exn) :
  (guarded (JObj fs) lines s).1 <> Throw e.
Proof.
  unfold guarded, try_catch.
  destruct (lines s) as [[o|e'|] s1]; simpl; [discriminate| |discriminate].
  unfold bind, lift.
  rewrite (handleSubtitleRequest_catch_run (JObj fs) _ _ e' s1
             (get_of_object fs "videoUrl") (get_of_object fs "requestId")).
  pose proof (sendResponse_ok (error_response (field "requestId" fs) (error_toString e'))
                (log_entry (Line "处理字幕请求失败") s1)) as Hok.
  destruct (sendResponse _ _) as [o s2]. simpl in Hok. by rewrite Hok.
Qed.

Lemma Settles_issue (call : fetch_call) : Settles (issue call : M unit).
Proof. by intros s. Qed.

Lemma Settles_settled (r : reply number) : r <> Unsettled -> Settles (settled r).
Proof. intros Hr s. unfold settled, lift. by destruct r. Qed.

Lemma Settles_guarded (request : jsval) (lines : M (option task)) :
  Settles lines -> Settles (guarded request lines).
Proof.
  intros Hl. apply Settles_try_catch; [exact Hl|].
  intros e. unfold handleSubtitleRequest_catch. settles.
Qed.

Ltac piece_settles :=
  repeat first
    [ apply Settles_issue
    | apply Settles_settled; assumption
    | apply Settles_sendResponse
    | apply Settles_bind; [|intros ?]
    | progress cbv zeta
    | progress settles ].

Lemma Settles_handleSubtitleRequest_resume (t : task) (r : reply number) :
  r <> Unsettled -> Settles (handleSubtitleRequest_resume t r).
Proof.
  intros Hr.
  destruct t as [request call|request videoInfo call|request videoInfo call];
    cbn [handleSubtitleRequest_resume]; apply Settles_guarded.
  - unfold after_getVideoInfo, throw. piece_settles.
  - unfold after_getSubtitleList, throw. piece_settles.
  - unfold after_downloadSubtitle. piece_settles.
Qed.

Lemma nothing_handed_set_suspended (l : list task) (s : service) :
  nothing_handed s (set_suspended l s).
Proof. split; [by repeat split | by split]. Qed.

(** X24. A waiting request whose call is answered either goes on to
    wait for its next call, for the same request and with nothing handed
    over, or ends, and then exactly one response has been handed over,
    with the request's identifier and one of the two payloads.  So
    however the host mixes requests, answers and connection events, a
    request hands over nothing while it waits and exactly one response
    when it ends. *)
Theorem answer_resumes_or_ends
        (n : nat) (t : task) (fs : list (string * jsval)) (s : service) :
  suspended s !! n = Some t ->
  request_of t = JObj fs ->
  net (awaited t) <> Unsettled ->
  (exists t', suspended (step s (Settled n)) = delete n (suspended s) ++ [t']
              /\ request_of t' = JObj fs
              /\ nothing_handed s (step s (Settled n)))
  \/ (suspended (step s (Settled n)) = delete n (suspended s)
      /\ exists r, answers_to (JObj fs) r /\ handed r s (step s (Settled n))).
Proof.
  intros Hn Hrequest Hnet.
  assert (step s (Settled n) = resumed n t (net (awaited t)) s) as ->.
  { cbn [step]. rewrite Hn. by destruct (net (awaited t)). }
  unfold resumed. set (s0 := set_suspended (delete n (suspended s)) s).
  pose proof (Ends_handleSubtitleRequest_resume t (net (awaited t)) s0) as Hends.
  pose proof (Continues_handleSubtitleRequest_resume t (net (awaited t)) s0) as Hsame.
  pose proof (Settles_handleSubtitleRequest_resume t (net (awaited t)) Hnet s0) as Hset.
  pose proof (Blind_suspended _ s0
                (Blind_handleSubtitleRequest_resume t (net (awaited t)))) as Hsusp.
  assert (forall e, (handleSubtitleRequest_resume t (net (awaited t)) s0).1 <> Throw e)
    as Hno.
  { intros e. destruct t; cbn [request_of] in Hrequest; subst;
      apply guarded_no_throw. }
  rewrite Hrequest in Hends, Hsame.
  destruct (handleSubtitleRequest_resume t (net (awaited t)) s0) as [[[t'|]|e|] s1];
    cbn [fst snd] in *.
  - left. exists t'. split; [by rewrite Hsusp|]. split; [by apply Hsame|].
    eapply nothing_handed_trans;
      [apply (nothing_handed_set_suspended (delete n (suspended s)) s)|].
    eapply nothing_handed_trans; [exact Hends|].
    apply nothing_handed_set_suspended.
  - right. split; [exact Hsusp|]. destruct Hends as (r & Hr & Hhanded).
    exists r. split; [exact Hr|].
    eapply handed_after;
      [apply (nothing_handed_set_suspended (delete n (suspended s)) s)
      | exact Hhanded].
  - by destruct (Hno e).
  - by destruct Hset.
Qed.

(** X23. The answer of the network to a waiting request, whatever it
    is and whether the request goes on waiting or ends, leaves the
    connection manager's state alone as well. *)
Theorem answer_leaves_connection_alone (n : nat) (s : service) :
  ws (step s (Settled n)) = ws s
  /\ reconnectTimer (step s (Settled n)) = reconnectTimer s
  /\ isConnecting (step s (Settled n)) = isConnecting s
  /\ sockets (step s (Settled n)) = sockets s
  /\ timers (step s (Settled n)) = timers s.
Proof.
  by destruct (Settled_same_connection n s) as (? & ? & ? & ? & ? & _).
Qed.

(** *** The connection manager *)

Lemma timer_inv_reachable (h0 : positive) (c : construction) (evs : list event) :
  timer_inv (run (constructor h0 c) evs).
Proof. apply timer_inv_run, timer_inv_constructor. Qed.

Lemma scheduleReconnect_pending (s : service) :
  timer_inv s ->
  exists h, 0 < h /\ timers (scheduleReconnect s) = [h]
            /\ reconnectTimer (scheduleReconnect s) = Some h
            /\ isConnecting (scheduleReconnect s) = isConnecting s
            /\ sockets (scheduleReconnect s) = sockets s
            /\ ws (scheduleReconnect s) = ws s.
Proof.
  intros Hinv. unfold scheduleReconnect.
  destruct (timer_set s) eqn:Hset.
  - destruct Hinv as (_ & [[Hr _] | (h & Hh & Hr & Ht)]).
    + unfold timer_set in Hset. by rewrite Hr in Hset.
    + by exists h.
  - destruct (timer_inv_timer_set s Hinv Hset) as [Hr Ht].
    destruct Hinv as [Hpos _]. exists (next_handle s). simpl. by rewrite Ht.
Qed.

(** X17. In every state the service can reach, when a socket opens the
    reconnection is called off: no timeout stays scheduled, the handle
    is [null], [isConnecting] is false and the socket is [OPEN]. *)
Theorem open_clears_timer
        (h0 : positive) (c : construction) (evs : list event) (i : nat) :
  has_socket i (run (constructor h0 c) evs) = true ->
  timers (step (run (constructor h0 c) evs) (Opened i)) = []
  /\ reconnectTimer (step (run (constructor h0 c) evs) (Opened i)) = None
  /\ isConnecting (step (run (constructor h0 c) evs) (Opened i)) = false
  /\ sockets (step (run (constructor h0 c) evs) (Opened i)) !! i = Some OPEN.
Proof.
  pose proof (timer_inv_reachable h0 c evs) as Hinv.
  set (s := run (constructor h0 c) evs) in *. intros Hsock.
  simpl. rewrite Hsock. unfold onopen.
  set (s1 := log_entry _ (set_isConnecting false (set_readyState i OPEN s))).
  assert (timer_inv s1) as Hinv1 by exact Hinv.
  assert (sockets s1 !! i = Some OPEN) as Hopen.
  { subst s1. simpl. apply list_lookup_insert_eq.
    unfold has_socket in Hsock. destruct (sockets s !! i) eqn:Hi; [|discriminate].
    by eapply lookup_lt_Some. }
  destruct (timer_set s1) eqn:Hset.
  - destruct Hinv1 as (_ & [[Hr _] | (h & Hh & Hr & Ht)]).
    + unfold timer_set in Hset. by rewrite Hr in Hset.
    + rewrite Hr. split; [by apply clearTimeout_only|]. by repeat split.
  - destruct (timer_inv_timer_set s1 Hinv1 Hset) as [Hr Ht]. by repeat split.
Qed.

(** X18. In every state the service can reach, when a socket closes or
    fails a reconnection is pending afterwards: exactly one timeout is
    scheduled, its positive number is the handle, and [isConnecting] is
    false. *)
Theorem failure_schedules_reconnect
        (h0 : positive) (c : construction) (evs : list event) (i : nat) (ev : event) :
  has_socket i (run (constructor h0 c) evs) = true ->
  ev = Closed i \/ ev = Failed i ->
  exists h : Z,
    0 < h
    /\ timers (step (run (constructor h0 c) evs) ev) = [h]
    /\ reconnectTimer (step (run (constructor h0 c) evs) ev) = Some h
    /\ isConnecting (step (run (constructor h0 c) evs) ev) = false
    /\ sockets (step (run (constructor h0 c) evs) ev) !! i = Some CLOSED.
Proof.
  pose proof (timer_inv_reachable h0 c evs) as Hinv.
  set (s := run (constructor h0 c) evs) in *. intros Hsock Hev.
  assert (sockets (set_readyState i CLOSED s) !! i = Some CLOSED) as Hclosed.
  { simpl. apply list_lookup_insert_eq.
    unfold has_socket in Hsock. destruct (sockets s !! i) eqn:Hi; [|discriminate].
    by eapply lookup_lt_Some. }
  destruct Hev as [-> | ->]; simpl; rewrite Hsock.
  - unfold onclose.
    set (s1 := log_entry _ (set_isConnecting false (set_readyState i CLOSED s))).
    destruct (scheduleReconnect_pending s1 Hinv) as (h & Hh & Ht & Hr & Hc & Hso & _).
    exists h. rewrite Ht, Hr, Hc, Hso. by repeat split.
  - unfold onerror.
    set (s1 := log_entry _ (set_isConnecting false (set_readyState i CLOSED s))).
    destruct (scheduleReconnect_pending s1 Hinv) as (h & Hh & Ht & Hr & Hc & Hso & _).
    exists h. rewrite Ht, Hr, Hc, Hso. by repeat split.
Qed.

Lemma scheduleReconnect_sockets (s : service) :
  sockets (scheduleReconnect s) = sockets s /\ ws (scheduleReconnect s) = ws s.
Proof. unfold scheduleReconnect. by destruct (timer_set s). Qed.

(** X19. While a connection attempt is in flight or the session is open,
    nothing the host does makes the service construct another socket or
    change its current one. *)
Theorem no_second_connection (s : service) (ev : event) :
  isConnecting s || ws_open s = true ->
  length (sockets (step s ev)) = length (sockets s) /\ ws (step s ev) = ws s.
Proof.
  intros Hbusy.
  destruct ev as [i|i|i|i data|h c|n|];
    [| | | | |by destruct (Settled_same_connection n s) as (-> & _ & _ & -> & _)|];
    simpl.
  - destruct (has_socket i s); [|done]. unfold onopen.
    destruct (timer_set _); simpl; [|by rewrite length_insert].
    destruct (reconnectTimer s); simpl; by rewrite length_insert.
  - destruct (has_socket i s); [|done]. unfold onclose.
    destruct (scheduleReconnect_sockets
                (log_entry (Line "WebSocket连接关闭")
                   (set_isConnecting false (set_readyState i CLOSED s)))) as [-> ->].
    simpl. by rewrite length_insert.
  - destruct (has_socket i s); [|done]. unfold onerror.
    destruct (scheduleReconnect_sockets
                (log_entry (Line "WebSocket连接错误")
                   (set_isConnecting false (set_readyState i CLOSED s)))) as [-> ->].
    simpl. by rewrite length_insert.
  - destruct (has_socket i s); [|done].
    destruct (handleMessage_same_connection data s) as (-> & _ & _ & -> & _). done.
  - destruct (bool_decide _); [|done].
    unfold reconnect_callback, connect.
    assert (isConnecting (set_reconnectTimer None (clearTimeout h s))
            || ws_open (set_reconnectTimer None (clearTimeout h s)) = true) as ->
        by exact Hbusy.
    done.
  - done.
Qed.

(** X20. In every state the service can reach, when the reconnection
    timeout fires while no attempt is in flight and the session is not
    open: if the socket can be constructed it becomes the current one,
    [CONNECTING], with [isConnecting] set and no timeout scheduled; if
    the construction throws, a new timeout is scheduled, so the service
    keeps trying. *)
Theorem timer_retries
        (h0 : positive) (c : construction) (evs : list event) (h : Z) :
  h ∈ timers (run (constructor h0 c) evs) ->
  isConnecting (run (constructor h0 c) evs) = false ->
  ws_open (run (constructor h0 c) evs) = false ->
  (ws (step (run (constructor h0 c) evs) (TimerFired h Constructed))
   = Some (length (sockets (run (constructor h0 c) evs)))
   /\ sockets (step (run (constructor h0 c) evs) (TimerFired h Constructed))
      = sockets (run (constructor h0 c) evs) ++ [CONNECTING]
   /\ isConnecting (step (run (constructor h0 c) evs) (TimerFired h Constructed)) = true
   /\ timers (step (run (constructor h0 c) evs) (TimerFired h Constructed)) = []
   /\ reconnectTimer (step (run (constructor h0 c) evs) (TimerFired h Constructed)) = None)
  /\ forall e,
      exists h' : Z,
        0 < h'
        /\ timers (step (run (constructor h0 c) evs) (TimerFired h (Refused e))) = [h']
        /\ reconnectTimer (step (run (constructor h0 c) evs) (TimerFired h (Refused e)))
           = Some h'
        /\ isConnecting (step (run (constructor h0 c) evs) (TimerFired h (Refused e)))
           = false
        /\ sockets (step (run (constructor h0 c) evs) (TimerFired h (Refused e)))
           = sockets (run (constructor h0 c) evs).
Proof.
  pose proof (timer_inv_reachable h0 c evs) as Hinv.
  set (s := run (constructor h0 c) evs) in *. intros Hin Hconn Hopen.
  destruct (timer_inv_fired h s Hinv Hin) as (Hinv0 & Hr0 & Ht0).
  set (s0 := set_reconnectTimer None (clearTimeout h s)) in *.
  assert (isConnecting s0 || ws_open s0 = false) as Hfree.
  { change (isConnecting s || ws_open s = false). by rewrite Hconn, Hopen. }
  split.
  - simpl. rewrite bool_decide_eq_true_2 by done.
    unfold reconnect_callback, connect. fold s0. rewrite Hfree. simpl.
    repeat split; first [exact Ht0 | exact Hr0].
  - intros e. simpl. rewrite bool_decide_eq_true_2 by done.
    unfold reconnect_callback, connect. fold s0. rewrite Hfree.
    set (s1 := log_entry _ (set_isConnecting false (log_entry _ (set_isConnecting true s0)))).
    destruct (scheduleReconnect_pending s1 Hinv0) as (h' & Hh & Ht & Hr & Hc & Hso & _).
    exists h'. rewrite Ht, Hr, Hc, Hso. by repeat split.
Qed.

(** X21. When every stage succeeds, exactly three calls were made: the
    metadata call, the caption-list call for the first page, and, without
    credentials, the upgraded URL of the first track that the filter
    kept; the other tracks are not fetched. *)
Theorem success_calls
        (fs : list (string * jsval)) (bvid : string)
        (videoInfo pages pageInfo aid cid first subtitleData body : jsval)
        (rest : list jsval) (s : service) :
  extractBVID (field "videoUrl" fs) = Ok bvid ->
  yields (getVideoInfo bvid) videoInfo ->
  get videoInfo "pages" = Ok pages ->
  first_of pages = Ok pageInfo ->
  get videoInfo "aid" = Ok aid ->
  get pageInfo "cid" = Ok cid ->
  yields (getSubtitleList aid cid) (first :: rest) ->
  yields (downloadSubtitle first) subtitleData ->
  get subtitleData "body" = Ok body ->
  exists u : string,
    get first "subtitle_url" = Ok (JStr u)
    /\ net (Fetch (secure_url u) false) = Body subtitleData
    /\ fetched (handleSubtitleRequest (JObj fs) s).2
       = fetched s ++ [view_call bvid; tracks_call aid cid; Fetch (secure_url u) false].
Proof.
  intros Hbvid Hinfo Hpages Hpage Haid Hcid Hlist Hdoc Hbody.
  destruct (get_total _ _ "title" _ Hpages) as [title0 Htitle].
  destruct (get_total _ _ "owner" _ Hpages) as [owner Howner].
  destruct (get_total _ _ "ctime" _ Hpages) as [ctime0 Hctime].
  assert (exists name, get_opt owner "name" = Ok name) as [name Hname].
  { unfold get_opt. destruct owner; simpl; by eexists. }
  set (s0 := log_entry (Line "开始处理字幕请求") s).
  destruct (handleSubtitleRequest_try_to_list
              (JObj fs) _ bvid videoInfo pages pageInfo aid cid (first :: rest) s0
              (get_of_object fs "videoUrl") Hbvid Hinfo Hpages Hpage Haid Hcid Hlist)
    as (s1 & _ & Hfetched & Htry).
  set (s2 := log_entry (Line "获取字幕列表成功") s1).
  destruct (downloadSubtitle_ok first subtitleData s2 (Hdoc s2)) as (u & Hu & Hnet & Hstate).
  set (s3 := log_entry (Line "字幕下载成功") (downloadSubtitle first s2).2).
  exists u. split; [exact Hu|]. split; [exact Hnet|].
  assert (exists r, handleSubtitleRequest (JObj fs) s
                    = (Ok tt, log_entry (Line "字幕数据发送成功") (sendResponse r s3).2))
    as [r ->].
  { eexists. unfold handleSubtitleRequest. rewrite get_of_object.
    rewrite (bind_lift_ok _ _ _ _ eq_refl), bind_log. fold s0.
    unfold try_catch. rewrite Htry.
    rewrite bind_log. fold s2. rewrite (bind_ok _ _ _ _ (Hdoc s2)).
    rewrite (bind_lift_ok _ _ _ _ Hbody), bind_log. fold s3.
    rewrite (bind_lift_ok _ _ _ _ (get_of_object fs "requestId")),
      (bind_lift_ok _ _ _ _ Htitle), (bind_lift_ok _ _ _ _ Howner),
      (bind_lift_ok _ _ _ _ Hname),
      (bind_lift_ok _ _ _ _ (get_of_object fs "videoUrl")),
      (bind_lift_ok _ _ _ _ Hctime), (bind_lift_ok _ _ _ _ Hbody).
    rewrite (bind_ok _ _ _ _ (sendResponse_ok _ s3)). reflexivity. }
  cbn [snd fetched log_entry set_console]. rewrite sendResponse_fetched.
  subst s3. cbn [fetched log_entry set_console]. rewrite Hstate.
  subst s2. cbn [fetched set_fetched log_entry set_console]. rewrite Hfetched.
  subst s0. cbn [fetched log_entry set_console]. by rewrite <- app_assoc.
Qed.

End Further.

(** * The further properties on the concrete host *)

Section FurtherWitnesses.

Import Sample.

(** X1 at the watch URL with a query string. *)
Lemma extractBVID_shape_witness :
  exists pre w post,
    "https://www.bilibili.com/video/BV1xx411c7mD?p=2"%string
    = pre +:+ "/video/" +:+ "BV1xx411c7mD" +:+ post
    /\ "BV1xx411c7mD"%string = "BV" +:+ w /\ w <> EmptyString
    /\ Text.all_word w = true /\ Text.word_run post = EmptyString.
Proof.
  apply (@extractBVID_shape Z hostA
           "https://www.bilibili.com/video/BV1xx411c7mD?p=2" "BV1xx411c7mD").
  reflexivity.
Defined.

(** X3 at the caption-list envelope of scenario B. *)
Lemma getSubtitleList_envelope_witness :
  fetched (@getSubtitleList Z hostB (JNum 7) (JNum 55) connected).2
  = [Fetch "https://api.bilibili.com/x/player/wbi/v2?aid=7&cid=55" true]
  /\ (@getSubtitleList Z hostB (JNum 7) (JNum 55) connected).1 = Ok [].
Proof.
  destruct (@getSubtitleList_envelope Z hostB (JNum 7) (JNum 55)
              (envelope (JObj [("subtitle", JObj [("subtitles", JArr [no_url_track])])]))
              (JNum 0) (JObj [("subtitle", JObj [("subtitles", JArr [no_url_track])])])
              (JObj [("subtitles", JArr [no_url_track])]) "7" "55"
              [no_url_track] connected)
    as (Hfetched & Hlist & _); try reflexivity.
  split; [exact Hfetched|]. apply Hlist. repeat constructor.
Defined.

(** X4 at a request without [videoUrl]. *)
Lemma videoUrl_not_text_witness :
  exists f : fault,
    f = ReadOfUndefined "match"
    /\ wire (@handleSubtitleRequest Z hostC (JObj bare_fields) connected).2
       = [error_response (JStr "r1")
            "TypeError: Cannot read properties of undefined (reading 'match')"].
Proof.
  destruct (@videoUrl_not_text Z hostC bare_fields connected)
    as (f & Hf & _ & _ & _ & Hwire).
  { intros u. discriminate. }
  exists f. split; [exact Hf|]. rewrite Hf in Hwire.
  destruct Hwire as [Hwire _]. exact Hwire.
Defined.

(** X5 at a metadata envelope with code -400. *)
Lemma metadata_failure_short_circuit_witness :
  fetched (run_request hostF watch_url connected).2 = [view_call "BV1xx411c7mD"]
  /\ handed (error_response (JStr "r1") "Error: 获取视频信息失败: 请求错误")
            connected (run_request hostF watch_url connected).2.
Proof.
  apply (@metadata_failure_short_circuit Z hostF (request_fields watch_url)
           "BV1xx411c7mD"
           (JObj [("code", JNum (-400)); ("message", JStr "请求错误")])
           (JNum (-400)) (JStr "请求错误") "请求错误" connected); reflexivity.
Defined.

(** X6 at a rejected metadata call. *)
Lemma metadata_rejection_short_circuit_witness :
  fetched (run_request hostR watch_url connected).2 = [view_call "BV1xx411c7mD"]
  /\ handed (error_response (JStr "r1") "TypeError: Failed to fetch")
            connected (run_request hostR watch_url connected).2.
Proof.
  apply (@metadata_rejection_short_circuit Z hostR (request_fields watch_url)
           "BV1xx411c7mD" (mkExn "TypeError" "Failed to fetch") connected);
    reflexivity.
Defined.

(** X7 at a caption-list envelope with code -101. *)
Lemma caption_list_failure_short_circuit_witness :
  fetched (run_request hostT watch_url connected).2
  = [view_call "BV1xx411c7mD"; @tracks_call Z hostT (JNum 7) (JNum 55)]
  /\ handed (error_response (JStr "r1") "Error: 获取字幕列表失败: 账号未登录")
            connected (run_request hostT watch_url connected).2.
Proof.
  apply (@caption_list_failure_short_circuit Z hostT (request_fields watch_url)
           "BV1xx411c7mD"
           (JObj [("aid", JNum 7); ("title", JStr "T");
                  ("owner", JObj [("name", JStr "A")]); ("ctime", JNum 1000);
                  ("pages", JArr [JObj [("cid", JNum 55)]])])
           (JArr [JObj [("cid", JNum 55)]]) (JObj [("cid", JNum 55)])
           (JNum 7) (JNum 55)
           (JObj [("code", JNum (-101)); ("message", JStr "账号未登录")])
           (JNum (-101)) (JStr "账号未登录") "7" "55" "账号未登录" connected);
    try reflexivity; intros s; reflexivity.
Defined.

(** X8 at metadata whose [pages] is empty. *)
Lemma no_page_short_circuit_witness :
  fetched (run_request hostN watch_url connected).2 = [view_call "BV1xx411c7mD"]
  /\ handed (error_response (JStr "r1")
               "TypeError: Cannot read properties of undefined (reading 'cid')")
            connected (run_request hostN watch_url connected).2.
Proof.
  apply (@no_page_short_circuit Z hostN (request_fields watch_url) "BV1xx411c7mD"
           (JObj [("aid", JNum 7); ("title", JStr "T"); ("pages", JArr [])])
           (JArr []) JUndefined connected);
    try reflexivity; intros s; reflexivity.
Defined.

(** X9 at a caption document that is [null]. *)
Lemma null_caption_document_witness :
  exists u : string,
    fetched (run_request hostD watch_url connected).2
    = [view_call "BV1xx411c7mD"; @tracks_call Z hostD (JNum 7) (JNum 55);
       Fetch (secure_url u) false]
    /\ handed (error_response (JStr "r1")
                 "TypeError: Cannot read properties of null (reading 'body')")
              connected (run_request hostD watch_url connected).2.
Proof.
  destruct (@null_caption_document Z hostD (request_fields watch_url) "BV1xx411c7mD"
              (JObj [("aid", JNum 7); ("title", JStr "T");
                     ("owner", JObj [("name", JStr "A")]); ("ctime", JNum 1000);
                     ("pages", JArr [JObj [("cid", JNum 55)]])])
              (JArr [JObj [("cid", JNum 55)]]) (JObj [("cid", JNum 55)])
              (JNum 7) (JNum 55) one_track JNull [] connected)
    as (u & _ & _ & Hfetched & Hhanded);
    try reflexivity; try (intros s; reflexivity).
  exists u. by split.
Defined.

Lemma hostP_settles : @network_settles Z hostP.
Proof.
  intros call. simpl. unfold answers.
  destruct (String.prefix _ _); [discriminate|].
  destruct (String.prefix _ _); discriminate.
Qed.

(** X13 at the text of the request of scenario A, with the three
    answers of the network. *)
Lemma every_request_answered_witness :
  exists r,
    requestId r = JStr "r1"
    /\ handed r connected
              (@run Z hostP connected
                    [Message 0 request_text; Settled 0; Settled 0; Settled 0]).
Proof.
  destruct (@every_request_answered Z hostP 0%nat request_text
              (request_fields watch_url) connected hostP_settles
              eq_refl eq_refl eq_refl)
    as (r & (_ & Hid & _) & Hhanded).
  exists r. split; [|exact Hhanded]. by injection Hid.
Defined.

(** X15 at a request that arrives on the open session of scenario A,
    gets its first two answers, and gets the third after the socket has
    closed: the response is not transmitted and the console has it. *)
Lemma nothing_transmitted_while_closed_witness :
  wire (@step Z hostP
              (@run Z hostP connected
                    [Message 0 request_text; Settled 0; Settled 0; Closed 0])
              (Settled 0)) = []
  /\ length (unsent (console
                (@step Z hostP
                       (@run Z hostP connected
                             [Message 0 request_text; Settled 0; Settled 0; Closed 0])
                       (Settled 0)))) = 1%nat.
Proof.
  split; [|by vm_compute].
  rewrite (@nothing_transmitted_while_closed Z hostP (Settled 0)
             (@run Z hostP connected
                   [Message 0 request_text; Settled 0; Settled 0; Closed 0])).
  - by vm_compute.
  - intros (i & Hws & Hi). vm_compute in Hws. injection Hws as <-.
    vm_compute in Hi. discriminate Hi.
Defined.

(** X24 at the request of scenario A, waiting for the metadata: the
    answer makes it wait for the caption list. *)
Lemma answer_resumes_or_ends_witness :
  exists t',
    suspended (@step Z hostP (@run Z hostP connected [Message 0 request_text])
                     (Settled 0)) = [t']
    /\ request_of t' = JObj (request_fields watch_url)
    /\ nothing_handed (@run Z hostP connected [Message 0 request_text])
                      (@step Z hostP (@run Z hostP connected [Message 0 request_text])
                             (Settled 0)).
Proof.
  destruct (@answer_resumes_or_ends Z hostP 0%nat
              (AwaitVideoInfo (request watch_url) (view_call "BV1xx411c7mD"))
              (request_fields watch_url)
              (@run Z hostP connected [Message 0 request_text]))
    as [Hwaits | (Hends & _)].
  - by vm_compute.
  - reflexivity.
  - by vm_compute.
  - exact Hwaits.
  - vm_compute in Hends. discriminate Hends.
Defined.

(** X17 after a refused construction, a timeout and an open. *)
Lemma open_clears_timer_witness :
  timers (@step Z hostA (@run Z hostA (constructor 1 refused) [TimerFired 1 Constructed])
                (Opened 0%nat)) = [].
Proof.
  apply (@open_clears_timer Z hostA 1%positive refused [TimerFired 1 Constructed] 0%nat).
  reflexivity.
Defined.

(** X18 at the close of the first socket. *)
Lemma failure_schedules_reconnect_witness :
  exists h : Z,
    0 < h
    /\ timers (@step Z hostA (@run Z hostA (constructor 1 Constructed) []) (Closed 0%nat))
       = [h].
Proof.
  destruct (@failure_schedules_reconnect Z hostA 1%positive Constructed [] 0%nat
              (Closed 0%nat) eq_refl (or_introl eq_refl))
    as (h & Hh & Ht & _).
  exists h. by split.
Defined.

(** X19 at a timeout that fires on an open session.  The first socket
    fails, the timeout brings a second one, which opens; the [close] of
    the first socket then schedules timeout 2, and when that one fires
    [connect] returns at its guard. *)
Lemma no_second_connection_witness :
  timers (@run Z hostA (constructor 1 Constructed)
               [Failed 0; TimerFired 1 Constructed; Opened 1; Closed 0]) = [2]
  /\ timers (@step Z hostA
                   (@run Z hostA (constructor 1 Constructed)
                         [Failed 0; TimerFired 1 Constructed; Opened 1; Closed 0])
                   (TimerFired 2 Constructed)) = []
  /\ length (sockets (@step Z hostA
                            (@run Z hostA (constructor 1 Constructed)
                                  [Failed 0; TimerFired 1 Constructed; Opened 1;
                                   Closed 0])
                            (TimerFired 2 Constructed))) = 2%nat
  /\ ws (@step Z hostA
               (@run Z hostA (constructor 1 Constructed)
                     [Failed 0; TimerFired 1 Constructed; Opened 1; Closed 0])
               (TimerFired 2 Constructed)) = Some 1%nat.
Proof.
  split; [by vm_compute|]. split; [by vm_compute|].
  apply (@no_second_connection Z hostA
           (@run Z hostA (constructor 1 Constructed)
                 [Failed 0; TimerFired 1 Constructed; Opened 1; Closed 0])
           (TimerFired 2 Constructed)).
  by vm_compute.
Defined.

(** X20 after a refused construction. *)
Lemma timer_retries_witness :
  sockets (@step Z hostA (@run Z hostA (constructor 1 refused) [])
                 (TimerFired 1 Constructed)) = [CONNECTING].
Proof.
  apply (@timer_retries Z hostA 1%positive refused [] 1); try reflexivity.
  apply list_elem_of_singleton. reflexivity.
Defined.

(** X21 at scenario A. *)
Lemma success_calls_witness :
  exists u : string,
    @get Z hostA one_track "subtitle_url" = Ok (JStr u)
    /\ fetched (run_request hostA watch_url connected).2
       = [view_call "BV1xx411c7mD"; @tracks_call Z hostA (JNum 7) (JNum 55);
          Fetch (secure_url u) false].
Proof.
  destruct (@success_calls Z hostA (request_fields watch_url) "BV1xx411c7mD"
              (JObj [("aid", JNum 7); ("title", JStr "T");
                     ("owner", JObj [("name", JStr "A")]); ("ctime", JNum 1000);
                     ("pages", JArr [JObj [("cid", JNum 55)]])])
              (JArr [JObj [("cid", JNum 55)]]) (JObj [("cid", JNum 55)])
              (JNum 7) (JNum 55) one_track (JObj [("body", JArr [caption_line])])
              (JArr [caption_line]) [] connected)
    as (u & Hu & _ & Hfetched);
    try reflexivity; try (intros s; reflexivity).
  exists u. by split.
Defined.

End FurtherWitnesses.
